(** * scoach: job lifecycle supervisor and execution pipeline

    A shallow embedding of

      - [scoach/executor.py]  (the Prefect tasks and the [Executor] class),
      - [coach/coach.py]      (the [Coach] daemon and its polling thread),
      - [coach/cli.py]        (the [submit] command),

    together with the properties of the lifecycle state machine.

    Python code is embedded as computations of a small monad [M] that
    threads the process state ([World]: the two ORM tables, the started
    threads and the [Coach] instance), records the observable effects
    (log lines, sleeps, persistence and object-store operations) as a
    list of [Event]s, and distinguishes a normal return, a raised
    exception and an unfinished loop. *)

From Stdlib Require Import String Ascii List ZArith Bool Arith Lia.
From Stdlib Require Import DecimalString.
Import ListNotations.
Open Scope list_scope.
Open Scope string_scope.

Set Implicit Arguments.

(* ================================================================== *)
(** * Python values and exceptions *)
(* ================================================================== *)

Module py.

(** The exception classes the three files can meet.  The last two derive
    from [BaseException] only, so [except Exception] lets them through. *)
Inductive ExcClass :=
| NameError | AttributeError | TypeError | ValueError | OSError
| JSONDecodeError | TemplateError | S3Error | OperationalError
| KeyboardInterrupt | SystemExit.

Record exn := { exn_class : ExcClass; exn_msg : string }.

(** [isinstance(e, Exception)] *)
Definition is_Exception (e : exn) : bool :=
  match exn_class e with
  | KeyboardInterrupt | SystemExit => false
  | _ => true
  end.

(** [str(e)], as interpolated by an f-string. *)
Definition str_exn (e : exn) : string := exn_msg e.

Definition nl : string := String (ascii_of_nat 10) EmptyString.
Definition dquote : string := String (ascii_of_nat 34) EmptyString.

(** [str(n)] for an integer. *)
Definition str_int (n : Z) : string := NilZero.string_of_int (Z.to_int n).

End py.
Import py.

(* ================================================================== *)
(** * The data model: Status and Run rows *)
(* ================================================================== *)

(** Modelled from the spec: [scoach.constants] is not part of the sources;
    the five canonical status names of the lifecycle are the values of
    [constants.RUN_STATUS_*]. *)
Module constants.
Definition RUN_STATUS_CREATED : string := "created".
Definition RUN_STATUS_QUEUED : string := "queued".
Definition RUN_STATUS_RUNNING : string := "running".
Definition RUN_STATUS_COMPLETED : string := "completed".
Definition RUN_STATUS_FAILED : string := "failed".
End constants.
Import constants.

(** A row of the Status table: its primary key is its identity. *)
Record Status := { status_pk : nat; status_name : string }.

(** A row of the Run table.  [run.script.path], [run.model.config] and
    [run.parameters.config] are the related rows' only fields the code
    reads; [run_status] is the related Status object. *)
Record Run := {
  run_id : string;
  run_script_path : string;
  run_model_config : string;
  run_parameters_config : string;
  run_status : Status
}.

Definition set_run_status (r : Run) (s : Status) : Run :=
  {| run_id := run_id r;
     run_script_path := run_script_path r;
     run_model_config := run_model_config r;
     run_parameters_config := run_parameters_config r;
     run_status := s |}.

(** The flow built by [Executor.execute]: the values its tasks closed over. *)
Record Flow := {
  flow_run_id : string;
  flow_template_text : string;
  flow_kwargs : list (string * string)
}.

Record Scheduler := { address : string }.

Record DaskExecutor := { dask_address : string }.

(** [class Executor]: the three attributes set by [__init__]. *)
Record Executor := {
  _scheduler : Scheduler;
  _executor : DaskExecutor;
  _local : bool
}.

(** [Executor.__init__(self, scheduler, local=False)] *)
Definition Executor__init__ (scheduler : Scheduler) (local : bool) : Executor :=
  {| _scheduler := scheduler;
     _executor := {| dask_address := address scheduler |};
     _local := local |}.

(** A started thread: [partial(self._threaded_execution_handler, flow, run_id)]. *)
Record Thread := {
  th_self : Executor;
  th_flow : Flow;
  th_run_id : string
}.

(** [class Coach]: the lazily created singletons. *)
Record Coach := {
  coach_scheduler : option Scheduler;
  coach_executor : option Executor;
  coach_scheduler_thread : bool
}.

(** The process state. *)
Record World := {
  statuses : list Status;
  runs : list Run;
  threads : list Thread;
  coach : Coach
}.

Inductive Level := Debug | Info | Error.

(** Observable effects, in the order they happen.  Durations are in
    milliseconds: [time.sleep(0.25)] is [Sleep 250]. *)
Inductive Event :=
| Log (lvl : Level) (msg : string)
| Echo (msg : string)
| Sleep (millis : Z)
| GetStatus (name : string)
| SaveStatus (s : Status)
| GetRun (id : string)
| SaveRun (id : string) (status : string)
| QueryRuns (status : string)
| GetObject (bucket path : string)
| Popen (script : string)
| ThreadStart (id : string).

(* ================================================================== *)
(** * The monad of Python computations *)
(* ================================================================== *)

Inductive outcome (A : Type) :=
| Ok (a : A)
| Raise (e : exn)
| OutOfFuel.
Arguments Raise {A} e.
Arguments OutOfFuel {A}.

Record Res (A : Type) := mkRes {
  out : outcome A;
  world : World;
  events : list Event
}.

Definition M (A : Type) := World -> Res A.

Definition ret {A} (a : A) : M A := fun w => mkRes (Ok a) w [].

Definition bind {A B} (c : M A) (k : A -> M B) : M B := fun w =>
  let r := c w in
  match out r with
  | Ok a =>
      let r' := k a (world r) in
      mkRes (out r') (world r') (events r ++ events r')
  | Raise e => mkRes (Raise e) (world r) (events r)
  | OutOfFuel => mkRes OutOfFuel (world r) (events r)
  end.

Declare Scope py_scope.
Delimit Scope py_scope with py.
Notation "x <- c ;; k" := (bind c (fun x => k))
  (at level 61, c at next level, right associativity) : py_scope.
Notation "c ;; k" := (bind c (fun _ => k))
  (at level 61, right associativity) : py_scope.
Open Scope py_scope.

Definition raise {A} (e : exn) : M A := fun w => mkRes (Raise e) w [].
Definition emit (e : Event) : M unit := fun w => mkRes (Ok tt) w [e].
Definition get_world : M World := fun w => mkRes (Ok w) w [].
Definition put_world (w : World) : M unit := fun _ => mkRes (Ok tt) w [].

(** An external call that either raises or returns. *)
Definition call {A} (r : exn + A) : M A :=
  match r with inl e => raise e | inr a => ret a end.

(** [try: body  except Exception as e: handler(e)  finally: fin].
    [fin] runs on every exit of [body]; an exception that is not an
    [Exception] is re-raised after it. *)
Definition try_except_finally (body : M unit) (handler : exn -> M unit)
    (fin : M unit) : M unit := fun w =>
  let r := body w in
  match out r with
  | Ok _ =>
      let r' := fin (world r) in
      mkRes (out r') (world r') (events r ++ events r')
  | Raise e =>
      if is_Exception e then
        let r' := (handler e ;; fin) (world r) in
        mkRes (out r') (world r') (events r ++ events r')
      else
        let r' := (fin ;; raise e) (world r) in
        mkRes (out r') (world r') (events r ++ events r')
  | OutOfFuel => mkRes OutOfFuel (world r) (events r)
  end.

(** [for x in xs: body(x)] *)
Fixpoint for_each {A} (xs : list A) (body : A -> M unit) : M unit :=
  match xs with
  | [] => ret tt
  | x :: xs' => body x ;; for_each xs' body
  end.

(** [while cond(k): body], where [k] counts the evaluations of the
    condition so far. *)
Fixpoint while (fuel : nat) (cond : nat -> bool) (body : M unit) (k : nat)
    : M unit :=
  match fuel with
  | O => fun w => mkRes OutOfFuel w []
  | S fuel' =>
      if cond k then body ;; while fuel' cond body (S k) else ret tt
  end.

Definition logger (lvl : Level) (msg : string) : M unit := emit (Log lvl msg).
Definition sleep (millis : Z) : M unit := emit (Sleep millis).

(* ================================================================== *)
(** * The environment: external collaborators *)
(* ================================================================== *)

(** A finished or running child process, as [subprocess.Popen] shows it:
    [proc_polls = Some n] when [process.poll()] answers [None] exactly [n]
    times before the exit code is there, [None] when it never exits. *)
Record Process := {
  proc_polls : option nat;
  proc_returncode : Z;
  proc_stdout : string;
  proc_stderr : string
}.

(** What the code consumes from modules that are not part of the sources
    ([scoach.utils], [scoach.constants], [minio], [jinja2], [json],
    [subprocess], the file system), each taken as a parameter. *)
Record Env := {
  (** [constants.SCHEDULER_SLEEP_TIME.value], in seconds *)
  SCHEDULER_SLEEP_TIME : Z;
  (** [load_env_as_type(MINIO_BUCKET_ENV, default=MINIO_BUCKET_ENV_DEFAULT)] *)
  MINIO_BUCKET : string;
  (** [Scheduler().address] *)
  scheduler_address : string;
  (** whether the persistence layer answers the supervisor's query *)
  persistence_reachable : bool;
  (** [minio_client.get_object(bucket, path).read().decode("utf-8")] *)
  get_object : string -> string -> exn + string;
  (** [parse_parameters(json.loads(config))] *)
  parse_parameters : string -> exn + list (string * string);
  (** [jinja2.Template(text).render] applied to the keyword arguments *)
  jinja_render : string -> list (string * string) -> exn + string;
  (** [load_config_file_to_envs()] *)
  load_config_file_to_envs : exn + unit;
  (** writing the temporary file and [subprocess.Popen([sys.executable, f.name])] *)
  popen : string -> exn + Process;
  (** [str(run)] *)
  str_Run : Run -> string;
  (** [Path.exists()] *)
  path_exists : string -> bool;
  (** [constants.COACH_DEFAULT_CONFIG_PATH.value] *)
  COACH_DEFAULT_CONFIG_PATH : string;
  (** [json.load(f)] on the file at a path; the value is kept as text *)
  json_load : string -> exn + string
}.

(* ================================================================== *)
(** * The persistence layer *)
(* ================================================================== *)

(** Modelled from the spec: [scoach.models] and [scoach.utils.safe_object_get]
    are not part of the sources.  The persistence contract is
    [get(Run, id) -> Run | not-found], [save(Run)], [save(Status)] and
    [listAll(filter: {status})]; a saved new Status row gets a fresh
    primary key. *)
Module models.

Definition set_statuses (w : World) (l : list Status) : World :=
  {| statuses := l; runs := runs w; threads := threads w; coach := coach w |}.

Definition set_runs (w : World) (l : list Run) : World :=
  {| statuses := statuses w; runs := l; threads := threads w; coach := coach w |}.

Definition set_threads (w : World) (l : list Thread) : World :=
  {| statuses := statuses w; runs := runs w; threads := l; coach := coach w |}.

Definition set_coach (w : World) (c : Coach) : World :=
  {| statuses := statuses w; runs := runs w; threads := threads w; coach := c |}.

Definition find_status (name : string) (l : list Status) : option Status :=
  find (fun s => String.eqb (status_name s) name) l.

Definition find_run (id : string) (l : list Run) : option Run :=
  find (fun r => String.eqb (run_id r) id) l.

(** [safe_object_get(Status, status=name)] *)
Definition safe_object_get_Status (name : string) : M (option Status) :=
  fun w => mkRes (Ok (find_status name (statuses w))) w [GetStatus name].

(** [safe_object_get(Run, id=run_id)] *)
Definition safe_object_get_Run (id : string) : M (option Run) :=
  fun w => mkRes (Ok (find_run id (runs w))) w [GetRun id].

Definition fresh_pk (l : list Status) : nat := S (list_max (map status_pk l)).

(** [status = Status(status=name); status.save()] *)
Definition Status_create (name : string) : M Status := fun w =>
  let s := {| status_pk := fresh_pk (statuses w); status_name := name |} in
  mkRes (Ok s) (set_statuses w (statuses w ++ [s])) [SaveStatus s].

Fixpoint update_run (r : Run) (l : list Run) : list Run :=
  match l with
  | [] => [r]
  | x :: l' =>
      if String.eqb (run_id x) (run_id r) then r :: l' else x :: update_run r l'
  end.

(** [run.save()] *)
Definition Run_save (r : Run) : M unit := fun w =>
  mkRes (Ok tt) (set_runs w (update_run r (runs w)))
        [SaveRun (run_id r) (status_name (run_status r))].

(** [Run.objects.all().filter(status__status=name)], evaluated. *)
Definition Run_objects_filter_status (env : Env) (name : string)
    : M (list Run) := fun w =>
  if persistence_reachable env then
    mkRes (Ok (filter (fun r => String.eqb (status_name (run_status r)) name)
                      (runs w)))
          w [QueryRuns name]
  else
    mkRes (Raise {| exn_class := OperationalError;
                    exn_msg := "could not connect to the database" |})
          w [QueryRuns name].

(** The get-or-create pattern every status transition is written with:
<<
    status = safe_object_get(Status, status=NAME)
    if status is None:
        status = Status(status=NAME)
        status.save()
>> *)
Definition get_or_create_Status (name : string) : M Status :=
  status <- safe_object_get_Status name ;;
  match status with
  | None => Status_create name
  | Some s => ret s
  end.

(** [run.status = status] on the result of [safe_object_get(Run, ...)]. *)
Definition setattr_status (run : option Run) (status : Status) : M Run :=
  match run with
  | None =>
      raise {| exn_class := AttributeError;
               exn_msg := "'NoneType' object has no attribute 'status'" |}
  | Some r => ret (set_run_status r status)
  end.

(** The whole transition:
<<
    status = <get or create NAME>
    run: Run = safe_object_get(Run, id=run_id)
    run.status = status
    run.save()
>> *)
Definition write_status (name : string) (id : string) : M unit :=
  status <- get_or_create_Status name ;;
  run <- safe_object_get_Run id ;;
  run <- setattr_status run status ;;
  Run_save run.

End models.
Import models.

(* ================================================================== *)
(** * scoach/executor.py *)
(* ================================================================== *)

Module executor.

(** ** Prefect: task states, flow states and the flow runner *)

(** The final state of one task of a flow run. *)
Inductive TaskState (A : Type) :=
| Success (a : A)
| Failed (e : exn)
| TriggerFailed.
Arguments Failed {A} e.
Arguments TriggerFailed {A}.

Definition task_failed {A} (s : TaskState A) : bool :=
  match s with Success _ => false | _ => true end.

(** The task runner turns an exception of the task's body into the
    task's [Failed] state. *)
Definition run_task {A} (body : M A) : M (TaskState A) := fun w =>
  let r := body w in
  match out r with
  | Ok a => mkRes (Ok (Success a)) (world r) (events r)
  | Raise e =>
      if is_Exception e then mkRes (Ok (Failed e)) (world r) (events r)
      else mkRes (Raise e) (world r) (events r)
  | OutOfFuel => mkRes OutOfFuel (world r) (events r)
  end.

(** [prefect.engine.state.State], through the four members the handler
    reads.  [is_finished k] is the answer to the [k]-th call. *)
Record State := {
  is_finished : nat -> bool;
  is_failed : bool;
  is_successful : bool;
  result : string
}.

Definition str_task_state {A} (s : TaskState A) : string :=
  match s with
  | Success _ => "<Success>"
  | Failed e => "<Failed: " ++ str_exn e ++ ">"
  | TriggerFailed => "<TriggerFailed>"
  end.

(** The state of a flow run is decided by its reference tasks: [Failed]
    as soon as one of them failed, [Success] when all succeeded. *)
Definition flow_state (reference_tasks : list (string * TaskState unit))
    : State :=
  let res :=
    String.concat ", "
      (map (fun p => fst p ++ ": " ++ str_task_state (snd p)) reference_tasks) in
  if existsb (fun p => task_failed (snd p)) reference_tasks then
    {| is_finished := fun _ => true; is_failed := true;
       is_successful := false; result := res |}
  else
    {| is_finished := fun _ => true; is_failed := false;
       is_successful := true; result := res |}.

(** [flow.run(...)]: what the handler calls on the flow. *)
Definition FlowRunner := nat -> Flow -> option DaskExecutor -> M State.

(** ** The tasks *)

(** [setup] *)
Definition setup (env : Env) : M unit :=
  call (load_config_file_to_envs env).

(** [update_run_status] *)
Definition update_run_status (run_id : string) : M unit :=
  status <- safe_object_get_Status RUN_STATUS_RUNNING ;;
  status <- match status with
            | None => Status_create RUN_STATUS_RUNNING
            | Some s => ret s
            end ;;
  run <- safe_object_get_Run run_id ;;
  run <- setattr_status run status ;;
  Run_save run.

(** [render_template] *)
Definition render_template (env : Env) (template_text : string)
    (kwargs : list (string * string)) : M string :=
  call (jinja_render env template_text kwargs).

(** [process.poll() is None], at the [k]-th call. *)
Definition poll_is_None (p : Process) (k : nat) : bool :=
  match proc_polls p with
  | Some n => Nat.ltb k n
  | None => true
  end.

(** [execute_template] *)
Definition execute_template (env : Env) (fuel : nat)
    (rendered_template : string) (run_id : string) : M unit :=
  logger Info ("Executing template:" ++ nl ++ rendered_template) ;;
  emit (Popen rendered_template) ;;
  process <- call (popen env rendered_template) ;;
  while fuel (poll_is_None process)
    (logger Debug ("Run #" ++ run_id ++ " still running") ;; sleep 10000) 0 ;;
  logger Info ("stdout:" ++ nl ++ proc_stdout process) ;;
  logger Info ("stderr:" ++ nl ++ proc_stderr process).

(** A run of the flow [execute] builds: [setup] and [update_run_status]
    have no upstream task, [execute_template] consumes the result of
    [render_template] and is not started when that one failed.  The
    reference tasks are the terminal ones.  Tasks run in the order the
    flow lists them. *)
Definition Flow_run (env : Env) : FlowRunner := fun fuel flow _ =>
  s_setup <- run_task (setup env) ;;
  s_update <- run_task (update_run_status (flow_run_id flow)) ;;
  s_render <- run_task (render_template env (flow_template_text flow)
                                        (flow_kwargs flow)) ;;
  s_execute <- match s_render with
               | Success rendered =>
                   run_task (execute_template env fuel rendered
                                              (flow_run_id flow))
               | _ => ret TriggerFailed
               end ;;
  ret (flow_state [("setup", s_setup);
                   ("update_run_status", s_update);
                   ("execute_template", s_execute)]).

(** ** class Executor *)

(** [Executor._threaded_execution_handler] *)
Definition _threaded_execution_handler (flow_run : FlowRunner) (fuel : nat)
    (self : Executor) (flow : Flow) (run_id : string) : M unit :=
  status <- safe_object_get_Status RUN_STATUS_QUEUED ;;
  status <- match status with
            | None => Status_create RUN_STATUS_QUEUED
            | Some s => ret s
            end ;;
  run <- safe_object_get_Run run_id ;;
  run <- setattr_status run status ;;
  Run_save run ;;
  state <- (if _local self then
              logger Info "Running locally" ;;
              flow_run fuel flow None
            else
              logger Info "Running on scheduler" ;;
              flow_run fuel flow (Some (_executor self))) ;;
  while fuel (fun k => negb (is_finished state k)) (sleep 250) 0 ;;
  if is_failed state then
    status <- safe_object_get_Status RUN_STATUS_FAILED ;;
    status <- match status with
              | None => Status_create RUN_STATUS_FAILED
              | Some s => ret s
              end ;;
    run <- safe_object_get_Run run_id ;;
    run <- setattr_status run status ;;
    Run_save run ;;
    logger Error ("Job " ++ run_id ++ " failed with error: " ++ result state)
  else if is_successful state then
    status <- safe_object_get_Status RUN_STATUS_COMPLETED ;;
    status <- match status with
              | None => Status_create RUN_STATUS_COMPLETED
              | Some s => ret s
              end ;;
    run <- safe_object_get_Run run_id ;;
    run <- setattr_status run status ;;
    Run_save run ;;
    logger Info ("Job " ++ run_id ++ " completed successfully")
  else ret tt.

(** [thread = Thread(target=..., daemon=True); thread.start()] *)
Definition thread_start (t : Thread) : M unit := fun w =>
  mkRes (Ok tt) (set_threads w (threads w ++ [t])) [ThreadStart (th_run_id t)].

(** Binding keyword arguments: a name given twice is a [TypeError]. *)
Definition bind_kwargs (explicit extra : list (string * string))
    : M (list (string * string)) :=
  match find (fun p => existsb (fun q => String.eqb (fst q) (fst p)) explicit)
             extra with
  | Some p =>
      raise {| exn_class := TypeError;
               exn_msg := "got multiple values for keyword argument '"
                          ++ fst p ++ "'" |}
  | None => ret (explicit ++ extra)%list
  end.

(** [Executor.execute].  Inside [with Flow(...) as flow:] only the calls
    of the four tasks are deferred to the flow run; every other
    statement of the block runs at once, in the caller. *)
Definition execute (env : Env) (self : Executor) (run_id : string) : M unit :=
  let bucket := MINIO_BUCKET env in
  run <- safe_object_get_Run run_id ;;
  match run with
  | None =>
      raise {| exn_class := AttributeError;
               exn_msg := "'NoneType' object has no attribute 'script'" |}
  | Some run =>
      let script_path := run_script_path run in
      emit (GetObject bucket script_path) ;;
      template_text <- call (get_object env bucket script_path) ;;
      let model_config := run_model_config run in
      logger Info model_config ;;
      parameters <- call (parse_parameters env (run_parameters_config run)) ;;
      kwargs <- bind_kwargs
                  [("run_id", run_id);
                   ("model_config",
                    dquote ++ dquote ++ dquote ++ model_config
                    ++ dquote ++ dquote ++ dquote)]
                  parameters ;;
      let flow := {| flow_run_id := run_id;
                     flow_template_text := template_text;
                     flow_kwargs := kwargs |} in
      thread_start {| th_self := self; th_flow := flow; th_run_id := run_id |}
  end.

(** The body of a started thread. *)
Definition run_thread (flow_run : FlowRunner) (fuel : nat) (t : Thread)
    : M unit :=
  _threaded_execution_handler flow_run fuel (th_self t) (th_flow t)
                              (th_run_id t).

End executor.

(* ================================================================== *)
(** * coach/coach.py *)
(* ================================================================== *)

Module coach_py.

Definition set_scheduler (c : Coach) (s : option Scheduler) : Coach :=
  {| coach_scheduler := s; coach_executor := coach_executor c;
     coach_scheduler_thread := coach_scheduler_thread c |}.

Definition set_executor (c : Coach) (e : option Executor) : Coach :=
  {| coach_scheduler := coach_scheduler c; coach_executor := e;
     coach_scheduler_thread := coach_scheduler_thread c |}.

Definition set_scheduler_thread (c : Coach) (b : bool) : Coach :=
  {| coach_scheduler := coach_scheduler c;
     coach_executor := coach_executor c;
     coach_scheduler_thread := b |}.

Definition modify_self (f : Coach -> Coach) : M unit := fun w =>
  mkRes (Ok tt) (set_coach w (f (coach w))) [].

Definition self_scheduler : M (option Scheduler) := fun w =>
  mkRes (Ok (coach_scheduler (coach w))) w [].

Definition self_executor : M (option Executor) := fun w =>
  mkRes (Ok (coach_executor (coach w))) w [].

(** [Coach.__init__] *)
Definition Coach__init__ : M unit :=
  logger Info "Coach instance initializing..." ;;
  modify_self (fun _ => {| coach_scheduler := None; coach_executor := None;
                           coach_scheduler_thread := false |}).

(** [Coach._initialize_scheduler] *)
Definition _initialize_scheduler (env : Env) : M unit :=
  logger Info "Starting Scheduler instance..." ;;
  modify_self (fun c =>
    set_scheduler c (Some {| address := scheduler_address env |})) ;;
  logger Info "Scheduler instance started successfully!".

(** [Coach._initialize_executor].  The module imports [Executor] from
    [coach.executor], the name [scoach/executor.py] had before the package
    was renamed. *)
Definition _initialize_executor (env : Env) : M unit :=
  logger Info "Starting Executor instance..." ;;
  s <- self_scheduler ;;
  match s with
  | None => _initialize_scheduler env
  | Some _ => ret tt
  end ;;
  s <- self_scheduler ;;
  match s with
  | Some sch =>
      modify_self (fun c => set_executor c (Some (Executor__init__ sch false)))
  | None =>
      (* [Executor(None)] reads [scheduler.address] *)
      raise {| exn_class := AttributeError;
               exn_msg := "'NoneType' object has no attribute 'address'" |}
  end ;;
  logger Info "Executor instance started successfully!".

(** The body of the [for] loop of [_threaded_scheduler]. *)
Definition dispatch (env : Env) (run : Run) : M unit :=
  logger Info ("Sending new run (" ++ str_Run env run ++ ") to the executor") ;;
  s <- self_scheduler ;;
  match s with
  | None => _initialize_scheduler env
  | Some _ => ret tt
  end ;;
  e <- self_executor ;;
  match e with
  | None => _initialize_executor env
  | Some _ => ret tt
  end ;;
  e <- self_executor ;;
  match e with
  | Some ex => executor.execute env ex (run_id run)
  | None =>
      raise {| exn_class := AttributeError;
               exn_msg := "'NoneType' object has no attribute 'execute'" |}
  end.

(** The [try] block of [_threaded_scheduler]. *)
Definition poll_and_dispatch (env : Env) : M unit :=
  new_runs <- Run_objects_filter_status env RUN_STATUS_CREATED ;;
  for_each new_runs (dispatch env).

(** One turn of the [while True] loop of [_threaded_scheduler]. *)
Definition scheduler_cycle (env : Env) : M unit :=
  try_except_finally
    (poll_and_dispatch env)
    (fun e => logger Error ("Error in scheduler: " ++ str_exn e))
    (logger Info ("Scheduler sleeping for "
                  ++ str_int (SCHEDULER_SLEEP_TIME env) ++ " seconds") ;;
     sleep (1000 * SCHEDULER_SLEEP_TIME env)).

(** [Coach._threaded_scheduler]: [fuel] bounds the number of turns that
    are observed; the loop has no exit of its own. *)
Definition _threaded_scheduler (env : Env) (fuel : nat) : M unit :=
  while fuel (fun _ => true) (scheduler_cycle env) 0.

(** [Coach._initialize_scheduler_thread]; the started thread runs
    [_threaded_scheduler]. *)
Definition _initialize_scheduler_thread : M unit :=
  logger Info "Starting Scheduler thread..." ;;
  modify_self (fun c => set_scheduler_thread c true) ;;
  logger Info "Scheduler thread started successfully!".

(** [Coach.start_scheduler] *)
Definition start_scheduler (env : Env) : M unit :=
  s <- self_scheduler ;;
  match s with
  | None => _initialize_scheduler env
  | Some _ => ret tt
  end ;;
  e <- self_executor ;;
  match e with
  | None => _initialize_executor env
  | Some _ => ret tt
  end ;;
  logger Info "Starting scheduler in a thread..." ;;
  _initialize_scheduler_thread ;;
  logger Info "Coach daemon is executing...".

(** The names bound on a [Coach] instance: the six methods of the class
    body and the three attributes [__init__] sets. *)
Definition Coach_attributes : list string :=
  ["__init__"; "_initialize_scheduler"; "_initialize_executor";
   "_initialize_scheduler_thread"; "_threaded_scheduler"; "start_scheduler";
   "_scheduler"; "_executor"; "_scheduler_thread"].

(** [c.NAME(a1, a2, a3)] on a [Coach] instance [c]: none of its attributes
    accepts three arguments, and a name it lacks cannot be looked up. *)
Definition Coach_call3 (name : string) (a1 a2 a3 : string) : M string :=
  if existsb (String.eqb name) Coach_attributes then
    raise {| exn_class := TypeError;
             exn_msg := name ++ "() cannot be called with 3 arguments" |}
  else
    raise {| exn_class := AttributeError;
             exn_msg := "'Coach' object has no attribute '" ++ name ++ "'" |}.

End coach_py.

(* ================================================================== *)
(** * coach/cli.py *)
(* ================================================================== *)

Module cli.

(** The names bound at the top level of the module: its four imports
    ([yaml], [Path], [typer], [constants]), [app] and the six functions. *)
Definition module_globals : list string :=
  ["yaml"; "Path"; "typer"; "constants"; "app";
   "check_config"; "init"; "daemon"; "submit"; "list"; "show"].

(** Reading a global name that is neither bound in the module nor a
    builtin. *)
Definition load_global (globals : list string) (name : string) : M unit :=
  if existsb (String.eqb name) globals then ret tt
  else raise {| exn_class := NameError;
                exn_msg := "name '" ++ name ++ "' is not defined" |}.

(** [check_config] *)
Definition check_config (env : Env) : M bool :=
  if negb (path_exists env (COACH_DEFAULT_CONFIG_PATH env)) then
    emit (Echo "No config file found. Please run `coach init` to create one.") ;;
    ret false
  else
    call (load_config_file_to_envs env) ;;
    ret true.

(** [submit], in a module whose top level binds [globals]. *)
Definition submit_in (globals : list string) (env : Env)
    (python_script job_config model_config : string) : M unit :=
  ok <- check_config env ;;
  if negb ok then ret tt
  else if negb (path_exists env python_script) then
    emit (Echo "Python script does not exist.")
  else if negb (path_exists env job_config) then
    emit (Echo "Job config does not exist.")
  else if negb (path_exists env model_config) then
    emit (Echo "Model config does not exist.")
  else
    load_global globals "json" ;;
    job_config <- call (json_load env job_config) ;;
    load_global globals "json" ;;
    model_config <- call (json_load env model_config) ;;
    coach_py.Coach__init__ ;;
    run_id <- coach_py.Coach_call3 "submit_job" python_script job_config
                                   model_config ;;
    emit (Echo ("Submitted job with run id " ++ run_id)).

(** [submit] *)
Definition submit : Env -> string -> string -> string -> M unit :=
  submit_in module_globals.

(** [daemon] *)
Definition daemon (env : Env) : M unit :=
  ok <- check_config env ;;
  if negb ok then ret tt
  else
    coach_py.Coach__init__ ;;
    coach_py.start_scheduler env.

(** Modelled from the spec: [coach.db] is not part of the sources.  Its
    [list_all_runs()] is the query boundary [listRuns()], answering every
    Run of the table, and its [get_run(run_id)] is
    [getRun(runId) -> Run | not-found]. *)
Definition list_all_runs : M (list Run) := fun w => mkRes (Ok (runs w)) w [].

Definition get_run (run_id : string) : M (option Run) :=
  safe_object_get_Run run_id.

(** [show], with the [get_run] it imports from [coach.db]. *)
Definition show_with (get_run : string -> M (option Run)) (env : Env)
    (run_id : string) : M unit :=
  ok <- check_config env ;;
  if negb ok then ret tt
  else
    run <- get_run run_id ;;
    match run with
    | None =>
        emit (Echo ("Run " ++ run_id ++ " not found.")) ;;
        emit (Echo "It may be still on training though, please wait a while")
    | Some run =>
        emit (Echo ("Run " ++ run_id ++ " is available!")) ;;
        emit (Echo ("Information: " ++ str_Run env run)) ;;
        emit (Echo "If you desire to load this model, open a Python shell and do the following:") ;;
        emit (Echo ">>> from coach.utils import load_config_file_to_envs") ;;
        emit (Echo ">>> from coach.db import load_run") ;;
        emit (Echo ">>> load_config_file_to_envs()") ;;
        emit (Echo ">>> model = load_run(run_id)")
    end.

(** [show] *)
Definition show : Env -> string -> M unit := show_with get_run.

(** [enumerate(l)] *)
Definition enumerate {A} (l : list A) : list (nat * A) :=
  combine (seq 0 (length l)) l.

(** The line [list] prints for the Run at index [i]: [f"{i + 1}. {run}"]. *)
Definition list_line (env : Env) (i : nat) (run : Run) : Event :=
  Echo (str_int (Z.of_nat (i + 1)) ++ ". " ++ str_Run env run).

(** [list], with the [list_all_runs] it imports from [coach.db]. *)
Definition list_with (list_all_runs : M (list Run)) (env : Env) : M unit :=
  ok <- check_config env ;;
  if negb ok then ret tt
  else
    runs <- list_all_runs ;;
    emit (Echo ("Found " ++ str_int (Z.of_nat (length runs)) ++ " runs.")) ;;
    for_each (enumerate runs) (fun p => emit (list_line env (fst p) (snd p))).

(** [list] *)
Definition list : Env -> M unit := list_with list_all_runs.

End cli.

Import executor coach_py.

(* ================================================================== *)
(** * Vocabulary of the properties *)
(* ================================================================== *)

(** The Status names persisted for Run [id], oldest first. *)
Fixpoint status_writes (id : string) (evs : list Event) : list string :=
  match evs with
  | [] => []
  | SaveRun id' name :: evs' =>
      if String.eqb id' id then name :: status_writes id evs'
      else status_writes id evs'
  | _ :: evs' => status_writes id evs'
  end.

(** The Runs looked up by id, oldest first.  In the supervisor's thread
    the only lookup is the one [execute] opens with. *)
Fixpoint lookups (evs : list Event) : list string :=
  match evs with
  | [] => []
  | GetRun id :: evs' => id :: lookups evs'
  | _ :: evs' => lookups evs'
  end.

(** The Runs a handler thread was started for, oldest first. *)
Fixpoint started (evs : list Event) : list string :=
  match evs with
  | [] => []
  | ThreadStart id :: evs' => id :: started evs'
  | _ :: evs' => started evs'
  end.

(** The sleeps, oldest first. *)
Fixpoint sleeps (evs : list Event) : list Z :=
  match evs with
  | [] => []
  | Sleep ms :: evs' => ms :: sleeps evs'
  | _ :: evs' => sleeps evs'
  end.

(** Operations on the persistence layer or the object store. *)
Definition blocking_io (e : Event) : bool :=
  match e with
  | GetStatus _ | SaveStatus _ | GetRun _ | SaveRun _ _ | QueryRuns _
  | GetObject _ _ => true
  | _ => false
  end.

(** The persisted Status name of Run [id]. *)
Definition final_status (id : string) (w : World) : option string :=
  option_map (fun r => status_name (run_status r)) (find_run id (runs w)).

(** The number of Status rows called [name]. *)
Definition count_named (name : string) (l : list Status) : nat :=
  length (filter (fun s => String.eqb (status_name s) name) l).

(** The Runs a poll discovers. *)
Definition discovered (w : World) : list Run :=
  filter (fun r => String.eqb (status_name (run_status r)) RUN_STATUS_CREATED)
         (runs w).

(** [l] is a subsequence of [m]. *)
Fixpoint subseqb (l m : list string) : bool :=
  match l, m with
  | [], _ => true
  | _ :: _, [] => false
  | x :: l', y :: m' =>
      if String.eqb x y then subseqb l' m' else subseqb l m'
  end.

(** What one handler may persist for its Run: nothing, or [queued] and
    then a subsequence of [running] and one terminal status. *)
Definition lifecycle_ok (l : list string) : bool :=
  match l with
  | [] => true
  | x :: l' =>
      String.eqb x RUN_STATUS_QUEUED
      && (subseqb l' [RUN_STATUS_RUNNING; RUN_STATUS_COMPLETED]
          || subseqb l' [RUN_STATUS_RUNNING; RUN_STATUS_FAILED])
  end.

(** The state reports itself finished at the [n]-th call, not before. *)
Definition finishes_at (st : State) (n : nat) : Prop :=
  is_finished st n = true /\ forall k, k < n -> is_finished st k = false.

(** The executor argument the handler passes to [flow.run]. *)
Definition run_argument (self : Executor) : option DaskExecutor :=
  if _local self then None else Some (_executor self).

(** The line the handler logs before it runs the flow. *)
Definition run_banner (self : Executor) : Event :=
  if _local self then Log Info "Running locally"
  else Log Info "Running on scheduler".

(** The keyword arguments [execute] passes to [render_template] itself. *)
Definition explicit_kwargs (run_id model_config : string)
    : list (string * string) :=
  [("run_id", run_id);
   ("model_config",
    dquote ++ dquote ++ dquote ++ model_config ++ dquote ++ dquote ++ dquote)].

(** The thread [execute] starts for a Run, its template and parameters. *)
Definition thread_for (self : Executor) (run : Run) (template_text : string)
    (parameters : list (string * string)) : Thread :=
  {| th_self := self;
     th_flow := {| flow_run_id := run_id run;
                   flow_template_text := template_text;
                   flow_kwargs :=
                     (explicit_kwargs (run_id run) (run_model_config run)
                      ++ parameters)%list |};
     th_run_id := run_id run |}.

(** The [Coach] once both singletons are ensured: what is there is kept,
    what is missing is created, the Executor with the Scheduler. *)
Definition ensured_scheduler (env : Env) (c : Coach) : Scheduler :=
  match coach_scheduler c with
  | Some s => s
  | None => {| address := scheduler_address env |}
  end.

Definition ensured_executor (env : Env) (c : Coach) : Executor :=
  match coach_executor c with
  | Some ex => ex
  | None => Executor__init__ (ensured_scheduler env c) false
  end.

Definition ensured (env : Env) (c : Coach) : Coach :=
  {| coach_scheduler := Some (ensured_scheduler env c);
     coach_executor := Some (ensured_executor env c);
     coach_scheduler_thread := coach_scheduler_thread c |}.

(** The lines logged while ensuring the singletons. *)
Definition init_logs (c : Coach) : list Event :=
  match coach_scheduler c, coach_executor c with
  | Some _, Some _ => []
  | None, Some _ =>
      [Log Info "Starting Scheduler instance...";
       Log Info "Scheduler instance started successfully!"]
  | Some _, None =>
      [Log Info "Starting Executor instance...";
       Log Info "Executor instance started successfully!"]
  | None, None =>
      [Log Info "Starting Scheduler instance...";
       Log Info "Scheduler instance started successfully!";
       Log Info "Starting Executor instance...";
       Log Info "Executor instance started successfully!"]
  end.

(** The external calls [execute] makes raise errors only, that is,
    instances of [Exception]. *)
Definition errors_only (env : Env) : Prop :=
  (forall b p e, get_object env b p = inl e -> is_Exception e = true) /\
  (forall s e, parse_parameters env s = inl e -> is_Exception e = true).

(** The end of the handler: the terminal transition the finished state
    calls for, if any. *)
Definition terminal_transition (state : State) (run_id : string) : M unit :=
  if is_failed state then
    write_status RUN_STATUS_FAILED run_id ;;
    logger Error ("Job " ++ run_id ++ " failed with error: " ++ result state)
  else if is_successful state then
    write_status RUN_STATUS_COMPLETED run_id ;;
    logger Info ("Job " ++ run_id ++ " completed successfully")
  else ret tt.

(** The handler after its first transition: run the flow, wait for the
    state to be finished, make the terminal transition. *)
Definition handler_rest (flow_run : FlowRunner) (fuel : nat)
    (self : Executor) (flow : Flow) (run_id : string) : M unit :=
  state <- (emit (run_banner self) ;;
            flow_run fuel flow (run_argument self)) ;;
  while fuel (fun k => negb (is_finished state k)) (sleep 250) 0 ;;
  terminal_transition state run_id.

(** A computation keeps the relation [R] between the state it starts in
    and the state it ends in, however it ends. *)
Definition preserves {A} (R : World -> World -> Prop) (c : M A) : Prop :=
  forall w, R w (world (c w)).

(** What the handler of Run [rid] may change in the process state:
    neither the started threads nor the [Coach]; no Run but its own; of
    its own Run the Status only, the table keeping its rows in place; in
    the Status table nothing that is there, rows being added at the end,
    and never a second row of a name. *)
Definition handler_frame (rid : string) (w w' : World) : Prop :=
  threads w' = threads w /\
  coach w' = coach w /\
  map run_id (runs w') = map run_id (runs w) /\
  (forall id, id <> rid -> find_run id (runs w') = find_run id (runs w)) /\
  (forall r, find_run rid (runs w) = Some r ->
     exists s, find_run rid (runs w') = Some (set_run_status r s)) /\
  (exists new, statuses w' = (statuses w ++ new)%list) /\
  (NoDup (map status_name (statuses w)) ->
   NoDup (map status_name (statuses w'))).

(** Both tables are the same in the two states. *)
Definition same_tables (w w' : World) : Prop :=
  runs w' = runs w /\ statuses w' = statuses w.

(** The four lines [submit] prints when a precondition fails. *)
Definition submit_refusals : list string :=
  ["No config file found. Please run `coach init` to create one.";
   "Python script does not exist.";
   "Job config does not exist.";
   "Model config does not exist."].

(* ================================================================== *)
(** * Concrete scenarios *)
(* ================================================================== *)

Module scenario.

Definition st_created : Status :=
  {| status_pk := 1; status_name := "created" |}.

(** [r1]'s script is missing from the object store, [r2]'s is there. *)
Definition r1 : Run :=
  {| run_id := "r1"; run_script_path := "scripts/r1.py";
     run_model_config := "{}"; run_parameters_config := "{}";
     run_status := st_created |}.

Definition r2 : Run :=
  {| run_id := "r2"; run_script_path := "scripts/r2.py";
     run_model_config := "{}"; run_parameters_config := "{}";
     run_status := st_created |}.

Definition fresh_coach : Coach :=
  {| coach_scheduler := None; coach_executor := None;
     coach_scheduler_thread := false |}.

Definition world_of (rs : list Run) : World :=
  {| statuses := [st_created]; runs := rs; threads := [];
     coach := fresh_coach |}.

Definition no_such_key : exn :=
  {| exn_class := S3Error; exn_msg := "NoSuchKey" |}.

(** The rendered script prints and leaves with exit code 1 after two polls. *)
Definition exit_1 : Process :=
  {| proc_polls := Some 2; proc_returncode := 1;
     proc_stdout := "3"; proc_stderr := "boom" |}.

Definition env : Env :=
  {| SCHEDULER_SLEEP_TIME := 5;
     MINIO_BUCKET := "bucket";
     scheduler_address := "tcp://login:8786";
     persistence_reachable := true;
     get_object := fun _ p =>
       if String.eqb p "scripts/r2.py" then inr "import sys; sys.exit(1)"
       else inl no_such_key;
     parse_parameters := fun _ => inr [("epochs", "3")];
     jinja_render := fun t _ => inr t;
     load_config_file_to_envs := inr tt;
     popen := fun _ => inr exit_1;
     str_Run := run_id;
     path_exists := fun _ => true;
     COACH_DEFAULT_CONFIG_PATH := "~/.coach/config.yaml";
     json_load := fun _ => inr "{}" |}.

(** The same, with a template the renderer rejects. *)
Definition env_bad_template : Env :=
  {| SCHEDULER_SLEEP_TIME := 5;
     MINIO_BUCKET := "bucket";
     scheduler_address := "tcp://login:8786";
     persistence_reachable := true;
     get_object := get_object env;
     parse_parameters := parse_parameters env;
     jinja_render := fun _ _ =>
       inl {| exn_class := TemplateError; exn_msg := "unexpected '}'" |};
     load_config_file_to_envs := inr tt;
     popen := popen env;
     str_Run := run_id;
     path_exists := fun _ => true;
     COACH_DEFAULT_CONFIG_PATH := "~/.coach/config.yaml";
     json_load := fun _ => inr "{}" |}.

Definition sched : Scheduler := {| address := "tcp://login:8786" |}.
Definition exec : Executor := Executor__init__ sched false.

Definition flow_r2 : Flow :=
  {| flow_run_id := "r2";
     flow_template_text := "import sys; sys.exit(1)";
     flow_kwargs := [("run_id", "r2")] |}.

(** A backend whose run ends in a finished state that is neither failed
    nor successful (a cancelled run), seen finished at the third call. *)
Definition cancelled : State :=
  {| is_finished := fun k => Nat.leb 2 k; is_failed := false;
     is_successful := false; result := "Cancelled" |}.

Definition cancelling_runner : FlowRunner := fun _ _ _ => ret cancelled.

Definition failed_state : State :=
  {| is_finished := fun _ => true; is_failed := true;
     is_successful := false; result := "worker lost" |}.

Definition failing_runner : FlowRunner := fun _ _ _ => ret failed_state.

(** One poll cycle over a table that holds [r2] alone, then the handler
    thread the cycle started, run to its end. *)
Definition dispatched_r2 : Res unit := scheduler_cycle env (world_of [r2]).

Definition finished_r2 : Res unit :=
  match threads (world dispatched_r2) with
  | t :: _ => run_thread (Flow_run env) 5 t (world dispatched_r2)
  | [] => dispatched_r2
  end.

(** One poll cycle over a table that holds [r1] alone. *)
Definition dispatched_r1 : Res unit := scheduler_cycle env (world_of [r1]).

(** One poll cycle over a table that holds [r1] and then [r2]. *)
Definition dispatched_r1_r2 : Res unit :=
  scheduler_cycle env (world_of [r1; r2]).

(** [env] with another child process, setup result, parameter parser and
    file system. *)
Definition env_with (p : Process) (setup_result : exn + unit)
    (parameters : list (string * string)) (exists_ : string -> bool) : Env :=
  {| SCHEDULER_SLEEP_TIME := SCHEDULER_SLEEP_TIME env;
     MINIO_BUCKET := MINIO_BUCKET env;
     scheduler_address := scheduler_address env;
     persistence_reachable := true;
     get_object := get_object env;
     parse_parameters := fun _ => inr parameters;
     jinja_render := jinja_render env;
     load_config_file_to_envs := setup_result;
     popen := fun _ => inr p;
     str_Run := run_id;
     path_exists := exists_;
     COACH_DEFAULT_CONFIG_PATH := COACH_DEFAULT_CONFIG_PATH env;
     json_load := json_load env |}.



(** The configuration cannot be loaded in the setup task. *)
Definition config_error : exn :=
  {| exn_class := OSError; exn_msg := "config.yaml: permission denied" |}.

Definition env_setup_fails : Env :=
  env_with exit_1 (inl config_error) [("epochs", "3")] (fun _ => true).

(** The parameters configuration defines [run_id] itself. *)
Definition env_collision : Env :=
  env_with exit_1 (inr tt) [("epochs", "3"); ("run_id", "mine")]
           (fun _ => true).

(** No configuration file. *)
Definition env_no_config : Env :=
  env_with exit_1 (inr tt) []
           (fun p => negb (String.eqb p "~/.coach/config.yaml")).

(** The job config is missing, the model config too. *)
Definition env_no_job_config : Env :=
  env_with exit_1 (inr tt) []
           (fun p => negb (String.eqb p "job.json")
                     && negb (String.eqb p "model.json")).

(** A backend that cannot be reached. *)
Definition unreachable : exn :=
  {| exn_class := OSError; exn_msg := "scheduler unreachable" |}.

Definition raising_runner : FlowRunner := fun _ _ _ => raise unreachable.

(** A state that never reports itself finished. *)
Definition pending : State :=
  {| is_finished := fun _ => false; is_failed := false;
     is_successful := false; result := "Pending" |}.

Definition pending_runner : FlowRunner := fun _ _ _ => ret pending.

(** The operator interrupts the daemon during a fetch. *)
Definition interrupt : exn :=
  {| exn_class := KeyboardInterrupt; exn_msg := "" |}.

Definition env_interrupted : Env :=
  {| SCHEDULER_SLEEP_TIME := SCHEDULER_SLEEP_TIME env;
     MINIO_BUCKET := MINIO_BUCKET env;
     scheduler_address := scheduler_address env;
     persistence_reachable := true;
     get_object := fun _ _ => inl interrupt;
     parse_parameters := parse_parameters env;
     jinja_render := jinja_render env;
     load_config_file_to_envs := inr tt;
     popen := popen env;
     str_Run := run_id;
     path_exists := fun _ => true;
     COACH_DEFAULT_CONFIG_PATH := COACH_DEFAULT_CONFIG_PATH env;
     json_load := json_load env |}.

End scenario.

(* ================================================================== *)
(** * Lemmas on the monad and on traces *)
(* ================================================================== *)

Unset Implicit Arguments.

Lemma bind_Ok {A B} (c : M A) (k : A -> M B) (w : World) (a : A) :
  out (c w) = Ok a ->
  bind c k w =
  mkRes (out (k a (world (c w)))) (world (k a (world (c w))))
        (events (c w) ++ events (k a (world (c w)))).
Proof. intros H. unfold bind. cbv zeta. rewrite H. reflexivity. Qed.

Lemma bind_Raise {A B} (c : M A) (k : A -> M B) (w : World) (e : exn) :
  out (c w) = Raise e ->
  bind c k w = mkRes (Raise e) (world (c w)) (events (c w)).
Proof. intros H. unfold bind. cbv zeta. rewrite H. reflexivity. Qed.

Lemma bind_OutOfFuel {A B} (c : M A) (k : A -> M B) (w : World) :
  out (c w) = OutOfFuel ->
  bind c k w = mkRes OutOfFuel (world (c w)) (events (c w)).
Proof. intros H. unfold bind. cbv zeta. rewrite H. reflexivity. Qed.

Lemma bind_eq {A B} (c : M A) (k : A -> M B) {w w1 : World} {a : A}
    {ev : list Event} :
  c w = mkRes (Ok a) w1 ev ->
  bind c k w = mkRes (out (k a w1)) (world (k a w1)) (ev ++ events (k a w1)).
Proof. intros H. unfold bind. cbv zeta. rewrite H. reflexivity. Qed.

Lemma emit_eq (e : Event) (w : World) : emit e w = mkRes (Ok tt) w [e].
Proof. reflexivity. Qed.

Lemma logger_eq (lvl : Level) (msg : string) (w : World) :
  logger lvl msg w = mkRes (Ok tt) w [Log lvl msg].
Proof. reflexivity. Qed.

Lemma ret_eq {A} (a : A) (w : World) : ret a w = mkRes (Ok a) w [].
Proof. reflexivity. Qed.

(** One step of symbolic execution: the head of a [bind] is known. *)
Ltac bind_step E :=
  rewrite (bind_eq _ _ E); cbv beta; cbn [out world events].

Lemma bind_ext {A B} (c : M A) (k k' : A -> M B) (w : World) :
  (forall a w', k a w' = k' a w') -> bind c k w = bind c k' w.
Proof.
  intros H. unfold bind. cbv zeta.
  destruct (out (c w)); [rewrite H|..]; reflexivity.
Qed.

Lemma bind_assoc {A B C} (c : M A) (k : A -> M B) (h : B -> M C) (w : World) :
  bind (bind c k) h w = bind c (fun a => bind (k a) h) w.
Proof.
  unfold bind. cbv zeta.
  destruct (c w) as [[a|e|] w1 ev1]; simpl; try reflexivity.
  destruct (k a w1) as [[b|e|] w2 ev2]; simpl; try reflexivity.
  now rewrite app_assoc.
Qed.

Lemma Res_eta {A} (r : Res A) : r = mkRes (out r) (world r) (events r).
Proof. destruct r; reflexivity. Qed.

Lemma status_writes_app (id : string) (l m : list Event) :
  status_writes id (l ++ m) = (status_writes id l ++ status_writes id m)%list.
Proof.
  induction l as [|e l IH]; simpl; [reflexivity|].
  destruct e; simpl; auto.
  destruct (String.eqb id0 id); simpl; congruence.
Qed.

Lemma lookups_app (l m : list Event) :
  lookups (l ++ m) = (lookups l ++ lookups m)%list.
Proof.
  induction l as [|e l IH]; simpl; [reflexivity|].
  destruct e; simpl; congruence.
Qed.

Lemma started_app (l m : list Event) :
  started (l ++ m) = (started l ++ started m)%list.
Proof.
  induction l as [|e l IH]; simpl; [reflexivity|].
  destruct e; simpl; congruence.
Qed.

Lemma sleeps_app (l m : list Event) :
  sleeps (l ++ m) = (sleeps l ++ sleeps m)%list.
Proof.
  induction l as [|e l IH]; simpl; [reflexivity|].
  destruct e; simpl; congruence.
Qed.

(** A [while] loop whose condition turns false at the [n]-th evaluation
    runs its body [n] times, given fuel for [n + 1] evaluations. *)
Lemma while_emit_runs (body_events : list Event) (cond : nat -> bool) :
  forall (n fuel k : nat) (w : World),
    (forall j, j < n -> cond (k + j) = true) ->
    cond (k + n) = false ->
    n < fuel ->
    while fuel cond (fun w' => mkRes (Ok tt) w' body_events) k w =
    mkRes (Ok tt) w (List.concat (repeat body_events n)).
Proof.
  induction n as [|n IH]; intros fuel k w Hlt Hn Hfuel.
  - destruct fuel as [|fuel]; [lia|]. simpl.
    rewrite Nat.add_0_r in Hn. rewrite Hn. reflexivity.
  - destruct fuel as [|fuel]; [lia|]. simpl.
    assert (Hk : cond k = true).
    { specialize (Hlt 0). rewrite Nat.add_0_r in Hlt. apply Hlt. lia. }
    rewrite Hk. unfold bind. cbv zeta. simpl.
    rewrite (IH fuel (S k) w).
    + reflexivity.
    + intros j Hj. replace (S k + j) with (k + S j) by lia. apply Hlt. lia.
    + replace (S k + n) with (k + S n) by lia. exact Hn.
    + lia.
Qed.

(** Whatever the fuel, a loop of such a body leaves the world alone and
    emits copies of the body's events only. *)
Lemma while_emit_any (body_events : list Event) (cond : nat -> bool) :
  forall (fuel k : nat) (w : World),
    exists m,
      world (while fuel cond (fun w' => mkRes (Ok tt) w' body_events) k w) = w /\
      events (while fuel cond (fun w' => mkRes (Ok tt) w' body_events) k w) =
      List.concat (repeat body_events m) /\
      out (while fuel cond (fun w' => mkRes (Ok tt) w' body_events) k w)
      <> Raise (A:=unit) {| exn_class := OSError; exn_msg := "" |}.
Proof.
  induction fuel as [|fuel IH]; intros k w.
  - exists 0. simpl. repeat split. discriminate.
  - simpl. destruct (cond k).
    + destruct (IH (S k) w) as (m & Hw & He & Ho).
      exists (S m). unfold bind. cbv zeta. simpl.
      rewrite Hw, He. repeat split. exact Ho.
    + exists 0. simpl. repeat split. discriminate.
Qed.

(* ================================================================== *)
(** * Lemmas on the persistence layer *)
(* ================================================================== *)

Lemma find_run_id (id : string) (l : list Run) (r : Run) :
  find_run id l = Some r -> run_id r = id.
Proof.
  unfold find_run. intros H. apply find_some in H. destruct H as [_ H].
  now apply String.eqb_eq.
Qed.

Lemma find_run_update_run (r : Run) (l : list Run) :
  find_run (run_id r) (update_run r l) = Some r.
Proof.
  unfold find_run. induction l as [|x l IH]; simpl.
  - now rewrite String.eqb_refl.
  - destruct (String.eqb (run_id x) (run_id r)) eqn:E; simpl.
    + now rewrite String.eqb_refl.
    + now rewrite E.
Qed.

Lemma find_run_update_run_other (id : string) (r : Run) (l : list Run) :
  run_id r <> id ->
  find_run id (update_run r l) = find_run id l.
Proof.
  intros Hne. unfold find_run. induction l as [|x l IH]; simpl.
  - apply String.eqb_neq in Hne. now rewrite Hne.
  - destruct (String.eqb (run_id x) (run_id r)) eqn:E; simpl.
    + apply String.eqb_eq in E.
      assert (Hx : String.eqb (run_id x) id = false)
        by (apply String.eqb_neq; congruence).
      assert (Hr : String.eqb (run_id r) id = false)
        by (now apply String.eqb_neq).
      now rewrite Hx, Hr.
    + destruct (String.eqb (run_id x) id); [reflexivity | exact IH].
Qed.

Lemma find_status_name (name : string) (l : list Status) (s : Status) :
  find_status name l = Some s -> status_name s = name.
Proof.
  unfold find_status. intros H. apply find_some in H. destruct H as [_ H].
  now apply String.eqb_eq.
Qed.

Lemma find_status_snoc (name : string) (l : list Status) (pk : nat) :
  find_status name l = None ->
  find_status name (l ++ [{| status_pk := pk; status_name := name |}]) =
  Some {| status_pk := pk; status_name := name |}.
Proof.
  unfold find_status. induction l as [|x l IH]; simpl; intros H.
  - now rewrite String.eqb_refl.
  - destruct (String.eqb (status_name x) name); [discriminate | auto].
Qed.

Lemma count_named_find_None (name : string) (l : list Status) :
  find_status name l = None -> count_named name l = 0.
Proof.
  unfold find_status, count_named. induction l as [|x l IH]; simpl; intros H.
  - reflexivity.
  - destruct (String.eqb (status_name x) name); [discriminate | auto].
Qed.

Lemma count_named_find_Some (name : string) (l : list Status) (s : Status) :
  find_status name l = Some s -> 1 <= count_named name l.
Proof.
  unfold find_status, count_named. induction l as [|x l IH]; simpl; intros H.
  - discriminate.
  - destruct (String.eqb (status_name x) name); simpl; [lia | auto].
Qed.

Lemma count_named_app (name : string) (l m : list Status) :
  count_named name (l ++ m) = count_named name l + count_named name m.
Proof. unfold count_named. now rewrite filter_app, length_app. Qed.

(** The get-or-create pattern, case by case. *)
Lemma get_or_create_Status_cases (name : string) (w : World) :
  (exists s, find_status name (statuses w) = Some s /\
             get_or_create_Status name w = mkRes (Ok s) w [GetStatus name]) \/
  (find_status name (statuses w) = None /\
   get_or_create_Status name w =
   mkRes (Ok {| status_pk := fresh_pk (statuses w); status_name := name |})
         (set_statuses w (statuses w ++
            [{| status_pk := fresh_pk (statuses w); status_name := name |}]))
         [GetStatus name;
          SaveStatus {| status_pk := fresh_pk (statuses w);
                        status_name := name |}]).
Proof.
  unfold get_or_create_Status, bind, safe_object_get_Status. cbv zeta. simpl.
  destruct (find_status name (statuses w)) as [s|] eqn:E.
  - left. exists s. split; reflexivity.
  - right. split; reflexivity.
Qed.

(** A status transition on a Run that exists. *)
Lemma write_status_Some (name id : string) (w : World) (r0 : Run) :
  find_run id (runs w) = Some r0 ->
  exists s new,
    status_name s = name /\
    (new = [] \/ new = [s]) /\
    write_status name id w =
    mkRes (Ok tt)
          {| statuses := statuses w ++ new;
             runs := update_run (set_run_status r0 s) (runs w);
             threads := threads w;
             coach := coach w |}
          (GetStatus name :: map SaveStatus new ++ [GetRun id; SaveRun id name]).
Proof.
  intros Hrun. pose proof (find_run_id _ _ _ Hrun) as Hid.
  unfold write_status.
  destruct (get_or_create_Status_cases name w) as [(s & Hs & E) | (Hs & E)].
  - exists s, []. split; [eapply find_status_name; eauto|]. split; [now left|].
    rewrite (bind_eq _ _ E). simpl.
    unfold bind, safe_object_get_Run. cbv zeta. simpl. rewrite Hrun. simpl.
    rewrite app_nil_r, Hid, (find_status_name _ _ _ Hs). reflexivity.
  - exists {| status_pk := fresh_pk (statuses w); status_name := name |},
      [{| status_pk := fresh_pk (statuses w); status_name := name |}].
    split; [reflexivity|]. split; [now right|].
    rewrite (bind_eq _ _ E). simpl.
    unfold bind, safe_object_get_Run. cbv zeta. simpl. rewrite Hrun. simpl.
    rewrite Hid. reflexivity.
Qed.

(** A status transition on a Run that is not there: the assignment to
    [run.status] raises, and nothing is persisted for any Run. *)
Lemma write_status_None (name id : string) (w : World) :
  find_run id (runs w) = None ->
  exists new,
    write_status name id w =
    mkRes (Raise {| exn_class := AttributeError;
                    exn_msg := "'NoneType' object has no attribute 'status'" |})
          {| statuses := statuses w ++ new;
             runs := runs w;
             threads := threads w;
             coach := coach w |}
          (GetStatus name :: map SaveStatus new ++ [GetRun id]).
Proof.
  intros Hrun. unfold write_status.
  destruct (get_or_create_Status_cases name w) as [(s & Hs & E) | (Hs & E)].
  - exists []. rewrite (bind_eq _ _ E). simpl.
    unfold bind, safe_object_get_Run. cbv zeta. simpl. rewrite Hrun. simpl.
    rewrite app_nil_r. destruct w; reflexivity.
  - exists [{| status_pk := fresh_pk (statuses w); status_name := name |}].
    rewrite (bind_eq _ _ E). simpl.
    unfold bind, safe_object_get_Run. cbv zeta. simpl. rewrite Hrun. simpl.
    reflexivity.
Qed.

Lemma status_writes_SaveStatus (id : string) (new : list Status)
    (l : list Event) :
  status_writes id (map SaveStatus new ++ l) = status_writes id l.
Proof. induction new; simpl; auto. Qed.

(** [update_run_status] is the transition to [running]. *)
Lemma update_run_status_eq (id : string) (w : World) :
  update_run_status id w = write_status RUN_STATUS_RUNNING id w.
Proof.
  unfold update_run_status, write_status, get_or_create_Status, bind,
    safe_object_get_Status, safe_object_get_Run.
  cbv zeta. simpl.
  destruct (find_status RUN_STATUS_RUNNING (statuses w)); simpl;
    destruct (find_run id (runs w)); reflexivity.
Qed.

(* ================================================================== *)
(** * Status get-or-create *)
(* ================================================================== *)

(** C8 -- Status get-or-create by name is idempotent.  For every name and
    every state of the tables, a second get-or-create returns the very
    Status (same primary key) the first one returned, persists nothing and
    leaves the tables as the first one left them; the first one adds a row
    only when no row has that name, so the number of rows of that name
    afterwards is the number before, or one if there were none. *)
Theorem get_or_create_Status_idempotent (name : string) (w : World) :
  exists s,
    out (get_or_create_Status name w) = Ok s /\
    status_name s = name /\
    get_or_create_Status name (world (get_or_create_Status name w)) =
    mkRes (Ok s) (world (get_or_create_Status name w)) [GetStatus name] /\
    count_named name (statuses (world (get_or_create_Status name w))) =
    Nat.max 1 (count_named name (statuses w)).
Proof.
  destruct (get_or_create_Status_cases name w) as [(s & Hs & E) | (Hs & E)].
  - exists s. rewrite E. cbn [out world events]. repeat split.
    + eapply find_status_name; eauto.
    + exact E.
    + pose proof (count_named_find_Some _ _ _ Hs). lia.
  - rewrite E. cbn [out world events].
    exists {| status_pk := fresh_pk (statuses w); status_name := name |}.
    repeat split.
    + set (w' := set_statuses w _).
      destruct (get_or_create_Status_cases name w')
        as [(s' & Hs' & E') | (Hs' & _)];
        subst w'; simpl in Hs'; rewrite (find_status_snoc _ _ _ Hs) in Hs'.
      * injection Hs' as <-. exact E'.
      * discriminate.
    + cbn [statuses set_statuses].
      rewrite count_named_app, (count_named_find_None _ _ Hs).
      unfold count_named. simpl. rewrite String.eqb_refl. reflexivity.
Qed.

(** Each inlined occurrence of the pattern is [get_or_create_Status]:
    the handler's first transition, then the rest of the handler. *)
Lemma handler_eq (flow_run : FlowRunner) (fuel : nat) (self : Executor)
    (flow : Flow) (run_id : string) (w : World) :
  _threaded_execution_handler flow_run fuel self flow run_id w =
  (write_status RUN_STATUS_QUEUED run_id ;;
   handler_rest flow_run fuel self flow run_id) w.
Proof.
  assert (Hfin : forall (st : State) (w' : World),
    (if is_failed st then
       status <- safe_object_get_Status RUN_STATUS_FAILED ;;
       status <- match status with
                 | None => Status_create RUN_STATUS_FAILED
                 | Some s => ret s
                 end ;;
       run <- safe_object_get_Run run_id ;;
       run <- setattr_status run status ;;
       Run_save run ;;
       logger Error ("Job " ++ run_id ++ " failed with error: " ++ result st)
     else if is_successful st then
       status <- safe_object_get_Status RUN_STATUS_COMPLETED ;;
       status <- match status with
                 | None => Status_create RUN_STATUS_COMPLETED
                 | Some s => ret s
                 end ;;
       run <- safe_object_get_Run run_id ;;
       run <- setattr_status run status ;;
       Run_save run ;;
       logger Info ("Job " ++ run_id ++ " completed successfully")
     else ret tt) w' =
    terminal_transition st run_id w').
  { intros st w'.
    unfold terminal_transition, write_status, get_or_create_Status, bind, safe_object_get_Status,
      safe_object_get_Run. cbv zeta. simpl.
    destruct (is_failed st); [|destruct (is_successful st)].
    - destruct (find_status RUN_STATUS_FAILED (statuses w')); simpl;
        destruct (find_run run_id (runs w')); reflexivity.
    - destruct (find_status RUN_STATUS_COMPLETED (statuses w')); simpl;
        destruct (find_run run_id (runs w')); reflexivity.
    - reflexivity. }
  unfold _threaded_execution_handler, handler_rest, write_status,
    get_or_create_Status.
  symmetry. rewrite bind_assoc. rewrite bind_assoc. symmetry.
  apply bind_ext; intros status w1.
  apply bind_ext; intros status' w2.
  symmetry. rewrite bind_assoc. symmetry.
  apply bind_ext; intros run w3.
  symmetry. rewrite bind_assoc. symmetry.
  apply bind_ext; intros run' w4.
  apply bind_ext; intros [] w5.
  unfold run_banner, run_argument.
  destruct (_local self);
    (apply bind_ext; intros state w6; apply bind_ext; intros [] w7; apply Hfin).
Qed.

Lemma concat_repeat_singleton {A} (x : A) (n : nat) :
  List.concat (repeat [x] n) = repeat x n.
Proof. induction n; simpl; congruence. Qed.

(** Waiting for a state that reports itself finished at the [n]-th call. *)
Lemma wait_finished (st : State) (n fuel : nat) (w : World) :
  finishes_at st n -> n < fuel ->
  while fuel (fun k => negb (is_finished st k)) (sleep 250) 0 w =
  mkRes (Ok tt) w (repeat (Sleep 250) n).
Proof.
  intros [Hn Hlt] Hfuel.
  rewrite <- concat_repeat_singleton.
  apply (while_emit_runs [Sleep 250]
           (fun k => negb (is_finished st k)) n fuel 0 w).
  - intros j Hj. simpl. now rewrite Hlt.
  - simpl. now rewrite Hn.
  - exact Hfuel.
Qed.

(** The handler after the first transition, once the backend's answer
    is known. *)
Lemma handler_rest_run (flow_run : FlowRunner) (fuel : nat) (self : Executor)
    (flow : Flow) (run_id : string) (w w1 : World) (st : State)
    (ev1 : list Event) (n : nat) :
  flow_run fuel flow (run_argument self) w = mkRes (Ok st) w1 ev1 ->
  finishes_at st n -> n < fuel ->
  handler_rest flow_run fuel self flow run_id w =
  mkRes (out (terminal_transition st run_id w1))
        (world (terminal_transition st run_id w1))
        (run_banner self :: ev1 ++ repeat (Sleep 250) n
         ++ events (terminal_transition st run_id w1)).
Proof.
  intros Hrun Hfin Hfuel. unfold handler_rest.
  assert (E : (emit (run_banner self) ;; flow_run fuel flow (run_argument self)) w
              = mkRes (Ok st) w1 (run_banner self :: ev1)).
  { unfold bind, emit. cbv zeta. simpl. rewrite Hrun. reflexivity. }
  rewrite (bind_eq _ _ E).
  rewrite (bind_eq _ _ (wait_finished st n fuel w1 Hfin Hfuel)).
  reflexivity.
Qed.

Lemma status_writes_sleeps (id : string) (ms : Z) (n : nat) :
  status_writes id (repeat (Sleep ms) n) = [].
Proof. induction n; simpl; auto. Qed.

Lemma status_writes_banner (id : string) (self : Executor) (l : list Event) :
  status_writes id (run_banner self :: l) = status_writes id l.
Proof. unfold run_banner. destruct (_local self); reflexivity. Qed.

Lemma status_writes_transition (id name : string) (new : list Status) :
  status_writes id
    (GetStatus name :: map SaveStatus new ++ [GetRun id; SaveRun id name])
  = [name].
Proof.
  simpl. rewrite status_writes_SaveStatus. simpl.
  now rewrite String.eqb_refl.
Qed.

(* ================================================================== *)
(** * The execution handler against an arbitrary backend *)
(* ================================================================== *)

(** C10 -- when the flow run ends in a finished state that is neither
    failed nor successful, the handler returns having written no Status
    after the flow run: the tables are exactly as the flow run left them
    (the Run keeps the Status written last, [queued] or what the flow
    wrote), and all the handler did after the run is sleep while polling
    the state. *)
Theorem handler_no_terminal_transition
    (flow_run : FlowRunner) (fuel : nat) (self : Executor) (flow : Flow)
    (run_id : string) (w w1 : World) (r0 : Run) (st : State)
    (ev1 : list Event) (n : nat) :
  find_run run_id (runs w) = Some r0 ->
  flow_run fuel flow (run_argument self)
           (world (write_status RUN_STATUS_QUEUED run_id w))
  = mkRes (Ok st) w1 ev1 ->
  finishes_at st n -> n < fuel ->
  is_failed st = false -> is_successful st = false ->
  _threaded_execution_handler flow_run fuel self flow run_id w =
  mkRes (Ok tt) w1
        (events (write_status RUN_STATUS_QUEUED run_id w)
         ++ run_banner self :: ev1 ++ repeat (Sleep 250) n) /\
  status_writes run_id
    (events (_threaded_execution_handler flow_run fuel self flow run_id w))
  = RUN_STATUS_QUEUED :: status_writes run_id ev1.
Proof.
  intros Hrun Hfr Hfin Hfuel Hfailed Hsucc.
  rewrite handler_eq.
  destruct (write_status_Some RUN_STATUS_QUEUED run_id w r0 Hrun)
    as (s & new & Hs & Hnew & Eq).
  rewrite Eq in Hfr |- *. cbn [world events] in Hfr |- *.
  rewrite (bind_eq _ _ Eq).
  rewrite (handler_rest_run _ _ _ _ run_id _ _ _ _ _ Hfr Hfin Hfuel).
  unfold terminal_transition. rewrite Hfailed, Hsucc.
  cbn [ret out world events]. rewrite app_nil_r. split; [reflexivity|].
  rewrite status_writes_app, status_writes_transition.
  rewrite status_writes_banner, status_writes_app, status_writes_sleeps.
  now rewrite app_nil_r.
Qed.

Lemma handler_no_terminal_transition_witness :
  _threaded_execution_handler scenario.cancelling_runner 5 scenario.exec
    scenario.flow_r2 "r2" (scenario.world_of [scenario.r2]) =
  mkRes (Ok tt)
        (world (write_status RUN_STATUS_QUEUED "r2"
                  (scenario.world_of [scenario.r2])))
        (events (write_status RUN_STATUS_QUEUED "r2"
                   (scenario.world_of [scenario.r2]))
         ++ run_banner scenario.exec :: [] ++ repeat (Sleep 250) 2) /\
  status_writes "r2"
    (events (_threaded_execution_handler scenario.cancelling_runner 5
               scenario.exec scenario.flow_r2 "r2"
               (scenario.world_of [scenario.r2])))
  = RUN_STATUS_QUEUED :: status_writes "r2" [].
Proof.
  apply (handler_no_terminal_transition scenario.cancelling_runner 5
           scenario.exec scenario.flow_r2 "r2"
           (scenario.world_of [scenario.r2]) _ scenario.r2
           scenario.cancelled [] 2).
  - reflexivity.
  - reflexivity.
  - split; [reflexivity|].
    intros k Hk. destruct k as [|[|k]]; [reflexivity | reflexivity | lia].
  - lia.
  - reflexivity.
  - reflexivity.
Defined.

Lemma final_status_transition (id : string) (r : Run) (s : Status)
    (l : list Run) (sts : list Status) (ths : list Thread) (c : Coach) :
  find_run id l = Some r ->
  final_status id {| statuses := sts;
                     runs := update_run (set_run_status r s) l;
                     threads := ths; coach := c |}
  = Some (status_name s).
Proof.
  intros H. pose proof (find_run_id _ _ _ H) as Hid.
  unfold final_status. cbn [runs].
  replace id with (run_id (set_run_status r s)) at 1 by exact Hid.
  now rewrite find_run_update_run.
Qed.

(** The handler when the finished state calls for the transition to
    [name], logged by [line]. *)
Lemma handler_with_terminal
    (flow_run : FlowRunner) (fuel : nat) (self : Executor) (flow : Flow)
    (run_id : string) (w w1 : World) (r0 r1 : Run) (st : State)
    (ev1 : list Event) (n : nat) (name : string) (line : Event) :
  find_run run_id (runs w) = Some r0 ->
  flow_run fuel flow (run_argument self)
           (world (write_status RUN_STATUS_QUEUED run_id w))
  = mkRes (Ok st) w1 ev1 ->
  find_run run_id (runs w1) = Some r1 ->
  finishes_at st n -> n < fuel ->
  (forall w', terminal_transition st run_id w' =
              (write_status name run_id ;; emit line) w') ->
  status_writes run_id [line] = [] ->
  out (_threaded_execution_handler flow_run fuel self flow run_id w) = Ok tt /\
  final_status run_id
    (world (_threaded_execution_handler flow_run fuel self flow run_id w))
  = Some name /\
  status_writes run_id
    (events (_threaded_execution_handler flow_run fuel self flow run_id w))
  = (RUN_STATUS_QUEUED :: status_writes run_id ev1 ++ [name])%list /\
  (exists pre,
    events (_threaded_execution_handler flow_run fuel self flow run_id w)
    = (pre ++ [SaveRun run_id name; line])%list) /\
  (forall e, In e ev1 ->
     In e (events (_threaded_execution_handler flow_run fuel self flow
                     run_id w))).
Proof.
  intros Hrun Hfr Hrun1 Hfin Hfuel Hterm Hline.
  rewrite handler_eq.
  destruct (write_status_Some RUN_STATUS_QUEUED run_id w r0 Hrun)
    as (s & new & Hs & Hnew & Eq).
  rewrite Eq in Hfr. cbn [world] in Hfr.
  rewrite (bind_eq _ _ Eq).
  rewrite (handler_rest_run _ _ _ _ run_id _ _ _ _ _ Hfr Hfin Hfuel).
  rewrite Hterm.
  destruct (write_status_Some name run_id w1 r1 Hrun1)
    as (s' & new' & Hs' & Hnew' & Eq').
  rewrite (bind_eq _ _ Eq'). cbn [emit out world events].
  split; [reflexivity|]. split; [|split; [|split]].
  - rewrite (final_status_transition _ _ _ _ _ _ _ Hrun1). now rewrite Hs'.
  - rewrite status_writes_app, status_writes_transition.
    rewrite status_writes_banner.
    rewrite !status_writes_app, status_writes_sleeps.
    rewrite status_writes_transition, Hline.
    reflexivity.
  - exists (GetStatus RUN_STATUS_QUEUED :: map SaveStatus new
            ++ [GetRun run_id; SaveRun run_id RUN_STATUS_QUEUED]
            ++ run_banner self :: ev1 ++ repeat (Sleep 250) n
            ++ GetStatus name :: map SaveStatus new' ++ [GetRun run_id])%list.
    simpl. f_equal. rewrite <- !app_assoc. simpl. do 3 f_equal.
    rewrite <- !app_assoc. simpl. do 3 f_equal.
    rewrite <- !app_assoc. reflexivity.
  - intros e He. apply in_or_app. right. right.
    apply in_or_app. now left.
Qed.

(** C6 -- for every dispatched pipeline whose backend state becomes
    finished: when the state is failed, the handler returns having set and
    persisted the Run's Status to [failed] (the last Status written for
    the Run) and its last two effects are that save and the error line
    carrying the state's result; when the state is successful (and not
    failed), the same with [completed] and the success line. *)
Theorem handler_terminal_status
    (flow_run : FlowRunner) (fuel : nat) (self : Executor) (flow : Flow)
    (run_id : string) (w w1 : World) (r0 r1 : Run) (st : State)
    (ev1 : list Event) (n : nat) :
  find_run run_id (runs w) = Some r0 ->
  flow_run fuel flow (run_argument self)
           (world (write_status RUN_STATUS_QUEUED run_id w))
  = mkRes (Ok st) w1 ev1 ->
  find_run run_id (runs w1) = Some r1 ->
  finishes_at st n -> n < fuel ->
  (is_failed st = true ->
   out (_threaded_execution_handler flow_run fuel self flow run_id w) = Ok tt /\
   final_status run_id
     (world (_threaded_execution_handler flow_run fuel self flow run_id w))
   = Some RUN_STATUS_FAILED /\
   status_writes run_id
     (events (_threaded_execution_handler flow_run fuel self flow run_id w))
   = (RUN_STATUS_QUEUED :: status_writes run_id ev1
      ++ [RUN_STATUS_FAILED])%list /\
   exists pre,
     events (_threaded_execution_handler flow_run fuel self flow run_id w)
     = (pre ++ [SaveRun run_id RUN_STATUS_FAILED;
                Log Error ("Job " ++ run_id ++ " failed with error: "
                           ++ result st)])%list) /\
  (is_failed st = false -> is_successful st = true ->
   out (_threaded_execution_handler flow_run fuel self flow run_id w) = Ok tt /\
   final_status run_id
     (world (_threaded_execution_handler flow_run fuel self flow run_id w))
   = Some RUN_STATUS_COMPLETED /\
   status_writes run_id
     (events (_threaded_execution_handler flow_run fuel self flow run_id w))
   = (RUN_STATUS_QUEUED :: status_writes run_id ev1
      ++ [RUN_STATUS_COMPLETED])%list /\
   exists pre,
     events (_threaded_execution_handler flow_run fuel self flow run_id w)
     = (pre ++ [SaveRun run_id RUN_STATUS_COMPLETED;
                Log Info ("Job " ++ run_id
                          ++ " completed successfully")])%list).
Proof.
  intros Hrun Hfr Hrun1 Hfin Hfuel. split.
  - intros Hfailed.
    destruct (handler_with_terminal flow_run fuel self flow run_id w w1 r0 r1
                st ev1 n RUN_STATUS_FAILED
                (Log Error ("Job " ++ run_id ++ " failed with error: "
                            ++ result st))
                Hrun Hfr Hrun1 Hfin Hfuel)
      as (H1 & H2 & H3 & H4 & _).
    + intros w'. unfold terminal_transition. now rewrite Hfailed.
    + reflexivity.
    + auto.
  - intros Hfailed Hsucc.
    destruct (handler_with_terminal flow_run fuel self flow run_id w w1 r0 r1
                st ev1 n RUN_STATUS_COMPLETED
                (Log Info ("Job " ++ run_id ++ " completed successfully"))
                Hrun Hfr Hrun1 Hfin Hfuel)
      as (H1 & H2 & H3 & H4 & _).
    + intros w'. unfold terminal_transition. now rewrite Hfailed, Hsucc.
    + reflexivity.
    + auto.
Qed.

Lemma handler_terminal_status_witness :
  out (_threaded_execution_handler scenario.failing_runner 5 scenario.exec
         scenario.flow_r2 "r2" (scenario.world_of [scenario.r2])) = Ok tt /\
  final_status "r2"
    (world (_threaded_execution_handler scenario.failing_runner 5
              scenario.exec scenario.flow_r2 "r2"
              (scenario.world_of [scenario.r2])))
  = Some RUN_STATUS_FAILED /\
  status_writes "r2"
    (events (_threaded_execution_handler scenario.failing_runner 5
               scenario.exec scenario.flow_r2 "r2"
               (scenario.world_of [scenario.r2])))
  = (RUN_STATUS_QUEUED :: status_writes "r2" [] ++ [RUN_STATUS_FAILED])%list /\
  exists pre,
    events (_threaded_execution_handler scenario.failing_runner 5
              scenario.exec scenario.flow_r2 "r2"
              (scenario.world_of [scenario.r2]))
    = (pre ++ [SaveRun "r2" RUN_STATUS_FAILED;
               Log Error ("Job " ++ "r2" ++ " failed with error: "
                          ++ result scenario.failed_state)])%list.
Proof.
  destruct (handler_terminal_status scenario.failing_runner 5 scenario.exec
              scenario.flow_r2 "r2" (scenario.world_of [scenario.r2])
              (world (write_status RUN_STATUS_QUEUED "r2"
                        (scenario.world_of [scenario.r2])))
              scenario.r2
              (set_run_status scenario.r2
                 {| status_pk := 2; status_name := RUN_STATUS_QUEUED |})
              scenario.failed_state [] 0) as [Hfailed _].
  - reflexivity.
  - reflexivity.
  - reflexivity.
  - split; [reflexivity | intros k Hk; lia].
  - lia.
  - exact (Hfailed eq_refl).
Defined.

(* ================================================================== *)
(** * The flow run *)
(* ================================================================== *)

Lemma bind_events {A B} (c : M A) (k : A -> M B) (w : World) :
  events (bind c k w) =
  (events (c w) ++ match out (c w) with
                   | Ok a => events (k a (world (c w)))
                   | _ => []
                   end)%list.
Proof.
  unfold bind. cbv zeta.
  destruct (out (c w)); cbn [events]; now rewrite ?app_nil_r.
Qed.

Lemma run_task_events {A} (body : M A) (w : World) :
  events (run_task body w) = events (body w).
Proof.
  unfold run_task. cbv zeta.
  destruct (out (body w)); [| destruct (is_Exception e) |]; reflexivity.
Qed.

Lemma run_task_Ok {A} (body : M A) (w w1 : World) (a : A) (ev : list Event) :
  body w = mkRes (Ok a) w1 ev ->
  run_task body w = mkRes (Ok (Success a)) w1 ev.
Proof. intros H. unfold run_task. cbv zeta. now rewrite H. Qed.

Lemma run_task_Raise {A} (body : M A) (w w1 : World) (e : exn)
    (ev : list Event) :
  body w = mkRes (Raise e) w1 ev -> is_Exception e = true ->
  run_task body w = mkRes (Ok (Failed e)) w1 ev.
Proof. intros H He. unfold run_task. cbv zeta. rewrite H. simpl. now rewrite He. Qed.

(** The [setup] task ends in a task state unless it raises something
    that is not an [Exception]. *)
Lemma setup_task (env : Env) (w : World) :
  (forall e, load_config_file_to_envs env = inl e -> is_Exception e = true) ->
  exists s, run_task (setup env) w = mkRes (Ok s) w [] /\
            (load_config_file_to_envs env = inr tt -> task_failed s = false).
Proof.
  intros H. unfold run_task, setup, call. cbv zeta.
  destruct (load_config_file_to_envs env) as [e|[]] eqn:E; simpl.
  - rewrite (H e eq_refl). eexists. split; [reflexivity|]. discriminate.
  - eexists. split; [reflexivity|]. reflexivity.
Qed.

(** The [update_run_status] task always ends in a task state; it keeps
    every Run in the table, and succeeds when its own Run is there. *)
Lemma update_task (id rid : string) (w : World) (r : Run) :
  find_run rid (runs w) = Some r ->
  exists s w1 ev r1,
    run_task (update_run_status id) w = mkRes (Ok s) w1 ev /\
    find_run rid (runs w1) = Some r1 /\
    (id = rid -> task_failed s = false).
Proof.
  intros Hr.
  destruct (find_run id (runs w)) as [r0|] eqn:E.
  - destruct (write_status_Some RUN_STATUS_RUNNING id w r0 E)
      as (s & new & Hs & Hnew & Eq).
    rewrite <- update_run_status_eq in Eq.
    destruct (String.eqb id rid) eqn:Eid.
    + apply String.eqb_eq in Eid. subst rid.
      do 3 eexists. exists (set_run_status r0 s).
      split; [apply (run_task_Ok _ _ _ _ _ Eq)|]. split; [|reflexivity].
      cbn [runs].
      replace id with (run_id (set_run_status r0 s)) at 1
        by exact (find_run_id _ _ _ E).
      apply find_run_update_run.
    + apply String.eqb_neq in Eid.
      do 3 eexists. exists r.
      split; [apply (run_task_Ok _ _ _ _ _ Eq)|]. split; [|congruence].
      cbn [runs]. rewrite find_run_update_run_other; [exact Hr|].
      simpl. rewrite (find_run_id _ _ _ E). exact Eid.
  - destruct (write_status_None RUN_STATUS_RUNNING id w E) as (new & Eq).
    rewrite <- update_run_status_eq in Eq.
    do 3 eexists. exists r.
    split; [apply (run_task_Raise _ _ _ _ _ Eq); reflexivity|].
    split; [exact Hr|]. intros ->. congruence.
Qed.

(** The poll loop of [execute_template], for a process that exits after
    [n] polls. *)
Lemma poll_loop (run_id : string) (p : Process) (n fuel : nat) (w : World) :
  proc_polls p = Some n -> n < fuel ->
  while fuel (poll_is_None p)
    (logger Debug ("Run #" ++ run_id ++ " still running") ;; sleep 10000) 0 w
  = mkRes (Ok tt) w
      (List.concat
         (repeat [Log Debug ("Run #" ++ run_id ++ " still running");
                  Sleep 10000] n)).
Proof.
  intros Hp Hfuel.
  apply (while_emit_runs
           [Log Debug ("Run #" ++ run_id ++ " still running"); Sleep 10000]
           (poll_is_None p) n fuel 0 w).
  - intros j Hj. unfold poll_is_None. rewrite Hp. now apply Nat.ltb_lt.
  - unfold poll_is_None. rewrite Hp. apply Nat.ltb_ge. simpl. lia.
  - exact Hfuel.
Qed.

(** [execute_template] on a process that exits: the task returns, whatever
    the exit code, after logging the two streams. *)
Lemma execute_template_exits (env : Env) (fuel : nat) (rendered run_id : string)
    (p : Process) (n : nat) (w : World) :
  popen env rendered = inr p ->
  proc_polls p = Some n -> n < fuel ->
  execute_template env fuel rendered run_id w =
  mkRes (Ok tt) w
    ([Log Info ("Executing template:" ++ nl ++ rendered); Popen rendered]
     ++ List.concat
          (repeat [Log Debug ("Run #" ++ run_id ++ " still running");
                   Sleep 10000] n)
     ++ [Log Info ("stdout:" ++ nl ++ proc_stdout p);
         Log Info ("stderr:" ++ nl ++ proc_stderr p)])%list.
Proof.
  intros Hpopen Hp Hfuel. unfold execute_template.
  bind_step (logger_eq Info ("Executing template:" ++ nl ++ rendered) w).
  bind_step (emit_eq (Popen rendered) w).
  rewrite Hpopen. bind_step (ret_eq p w).
  bind_step (poll_loop run_id p n fuel w Hp Hfuel).
  bind_step (logger_eq Info ("stdout:" ++ nl ++ proc_stdout p) w).
  reflexivity.
Qed.

(** [execute_template] when the child cannot be started. *)
Lemma execute_template_raises (env : Env) (fuel : nat)
    (rendered run_id : string) (e : exn) (w : World) :
  popen env rendered = inl e ->
  execute_template env fuel rendered run_id w =
  mkRes (Raise e) w
    [Log Info ("Executing template:" ++ nl ++ rendered); Popen rendered].
Proof.
  intros Hpopen. unfold execute_template.
  bind_step (logger_eq Info ("Executing template:" ++ nl ++ rendered) w).
  bind_step (emit_eq (Popen rendered) w).
  rewrite Hpopen. unfold call. rewrite bind_Raise with (e := e) by reflexivity.
  reflexivity.
Qed.

Lemma flow_state_finished (l : list (string * TaskState unit)) (k : nat) :
  is_finished (flow_state l) k = true.
Proof.
  unfold flow_state.
  destruct (existsb (fun p => task_failed (snd p)) l); reflexivity.
Qed.

Lemma flow_state_flags (l : list (string * TaskState unit)) :
  is_failed (flow_state l) = existsb (fun p => task_failed (snd p)) l /\
  is_successful (flow_state l)
  = negb (existsb (fun p => task_failed (snd p)) l).
Proof.
  unfold flow_state.
  destruct (existsb (fun p => task_failed (snd p)) l); split; reflexivity.
Qed.

Lemma render_task (env : Env) (text : string) (kw : list (string * string))
    (w : World) :
  render_template env text kw w =
  match jinja_render env text kw with
  | inl e => mkRes (Raise e) w []
  | inr rendered => mkRes (Ok rendered) w []
  end.
Proof.
  unfold render_template, call. now destruct (jinja_render env text kw).
Qed.

(** A flow whose render task or script task raises an error ends in a
    failed state; the Run is still in the table. *)
Lemma Flow_run_failed (env : Env) (fuel : nat) (flow : Flow)
    (x : option DaskExecutor) (rid : string) (w : World) (r : Run) (e : exn) :
  (forall e', load_config_file_to_envs env = inl e' -> is_Exception e' = true) ->
  find_run rid (runs w) = Some r ->
  is_Exception e = true ->
  (jinja_render env (flow_template_text flow) (flow_kwargs flow) = inl e \/
   exists rendered,
     jinja_render env (flow_template_text flow) (flow_kwargs flow)
     = inr rendered /\
     popen env rendered = inl e) ->
  exists st w1 ev1 r1,
    Flow_run env fuel flow x w = mkRes (Ok st) w1 ev1 /\
    find_run rid (runs w1) = Some r1 /\
    finishes_at st 0 /\
    is_failed st = true.
Proof.
  intros Hsetup Hr He Hcase.
  destruct (setup_task env w Hsetup) as (s1 & E1 & _).
  destruct (update_task (flow_run_id flow) rid w r Hr)
    as (s2 & w1 & evu & r1 & E2 & Hr1 & _).
  unfold Flow_run. bind_step E1. bind_step E2.
  assert (Hflags : forall s, task_failed s = true ->
            is_failed (flow_state [("setup", s1); ("update_run_status", s2);
                                   ("execute_template", s)]) = true).
  { intros s Hs. rewrite (proj1 (flow_state_flags _)). simpl.
    rewrite Hs. now rewrite !orb_true_r. }
  destruct Hcase as [Hrender | (rendered & Hrender & Hpopen)].
  - assert (E3 : run_task (render_template env (flow_template_text flow)
                                           (flow_kwargs flow)) w1
                 = mkRes (Ok (Failed e)) w1 []).
    { apply run_task_Raise; [|exact He]. now rewrite render_task, Hrender. }
    bind_step E3. bind_step (ret_eq (@TriggerFailed unit) w1).
    rewrite ret_eq. cbn [out world events].
    do 3 eexists. exists r1. split; [reflexivity|]. split; [exact Hr1|].
    split; [|now apply Hflags].
    split; [apply flow_state_finished | intros k Hk; lia].
  - assert (E3 : run_task (render_template env (flow_template_text flow)
                                           (flow_kwargs flow)) w1
                 = mkRes (Ok (Success rendered)) w1 []).
    { apply run_task_Ok. now rewrite render_task, Hrender. }
    bind_step E3.
    assert (E4 : run_task (execute_template env fuel rendered
                                            (flow_run_id flow)) w1
                 = mkRes (Ok (Failed e)) w1
                     [Log Info ("Executing template:" ++ nl ++ rendered);
                      Popen rendered]).
    { apply run_task_Raise; [|exact He].
      now apply execute_template_raises. }
    bind_step E4. rewrite ret_eq. cbn [out world events].
    do 3 eexists. exists r1. split; [reflexivity|]. split; [exact Hr1|].
    split; [|now apply Hflags].
    split; [apply flow_state_finished | intros k Hk; lia].
Qed.

(** A flow whose script's process exits ends in a successful state,
    whatever the exit code, after logging the two streams. *)
Lemma Flow_run_success (env : Env) (fuel : nat) (flow : Flow)
    (x : option DaskExecutor) (w : World) (r : Run) (rendered : string)
    (p : Process) (n : nat) :
  load_config_file_to_envs env = inr tt ->
  find_run (flow_run_id flow) (runs w) = Some r ->
  jinja_render env (flow_template_text flow) (flow_kwargs flow)
  = inr rendered ->
  popen env rendered = inr p ->
  proc_polls p = Some n -> n < fuel ->
  exists st w1 evu r1,
    Flow_run env fuel flow x w =
    mkRes (Ok st) w1
      (evu
       ++ [Log Info ("Executing template:" ++ nl ++ rendered); Popen rendered]
       ++ List.concat
            (repeat [Log Debug ("Run #" ++ flow_run_id flow
                                ++ " still running");
                     Sleep 10000] n)
       ++ [Log Info ("stdout:" ++ nl ++ proc_stdout p);
           Log Info ("stderr:" ++ nl ++ proc_stderr p)])%list /\
    find_run (flow_run_id flow) (runs w1) = Some r1 /\
    finishes_at st 0 /\
    is_failed st = false /\
    is_successful st = true.
Proof.
  intros Hsetup Hr Hrender Hpopen Hp Hfuel.
  assert (Hsetup' : forall e', load_config_file_to_envs env = inl e' ->
                               is_Exception e' = true)
    by (intros e' He'; congruence).
  destruct (setup_task env w Hsetup') as (s1 & E1 & Hs1).
  destruct (update_task (flow_run_id flow) (flow_run_id flow) w r Hr)
    as (s2 & w1 & evu & r1 & E2 & Hr1 & Hs2).
  unfold Flow_run. bind_step E1. bind_step E2.
  assert (E3 : run_task (render_template env (flow_template_text flow)
                                         (flow_kwargs flow)) w1
               = mkRes (Ok (Success rendered)) w1 []).
  { apply run_task_Ok. now rewrite render_task, Hrender. }
  bind_step E3.
  bind_step (run_task_Ok _ _ _ _ _
               (execute_template_exits env fuel rendered (flow_run_id flow)
                  p n w1 Hpopen Hp Hfuel)).
  rewrite ret_eq. cbn [out world events].
  do 3 eexists. exists r1. split; [|split; [exact Hr1|split]].
  - rewrite app_nil_r. reflexivity.
  - split; [apply flow_state_finished | intros k Hk; lia].
  - destruct (flow_state_flags [("setup", s1); ("update_run_status", s2);
                                ("execute_template", Success tt)]) as [Hf Hs].
    rewrite Hf, Hs. simpl. rewrite (Hs1 Hsetup), (Hs2 eq_refl). now split.
Qed.

Lemma write_status_run (name id : string) (w : World) (r0 : Run) :
  find_run id (runs w) = Some r0 ->
  exists rq, find_run id (runs (world (write_status name id w))) = Some rq.
Proof.
  intros H.
  destruct (write_status_Some name id w r0 H) as (s & new & _ & _ & Eq).
  rewrite Eq. cbn [world runs]. exists (set_run_status r0 s).
  replace id with (run_id (set_run_status r0 s)) at 1
    by exact (find_run_id _ _ _ H).
  apply find_run_update_run.
Qed.

(* ================================================================== *)
(** * The handler on the flow [execute] builds *)
(* ================================================================== *)

(** C5 (amended) -- for every Run whose rendered script's process exits,
    with whatever exit code, the two streams are captured and logged; the
    exit code is not looked at, so the task succeeds and (the setup task
    succeeding too) the Run's final Status is [completed]. *)
Theorem script_exit_code_not_inspected
    (env : Env) (fuel : nat) (self : Executor) (flow : Flow)
    (run_id : string) (w : World) (r0 : Run) (rendered : string)
    (p : Process) (n : nat) :
  find_run run_id (runs w) = Some r0 ->
  flow_run_id flow = run_id ->
  load_config_file_to_envs env = inr tt ->
  jinja_render env (flow_template_text flow) (flow_kwargs flow)
  = inr rendered ->
  popen env rendered = inr p ->
  proc_polls p = Some n -> n < fuel ->
  out (_threaded_execution_handler (Flow_run env) fuel self flow run_id w)
  = Ok tt /\
  final_status run_id
    (world (_threaded_execution_handler (Flow_run env) fuel self flow
              run_id w))
  = Some RUN_STATUS_COMPLETED /\
  In (Log Info ("stdout:" ++ nl ++ proc_stdout p))
     (events (_threaded_execution_handler (Flow_run env) fuel self flow
                run_id w)) /\
  In (Log Info ("stderr:" ++ nl ++ proc_stderr p))
     (events (_threaded_execution_handler (Flow_run env) fuel self flow
                run_id w)).
Proof.
  intros Hrun Hid Hsetup Hrender Hpopen Hp Hfuel. subst run_id.
  destruct (write_status_run RUN_STATUS_QUEUED _ w r0 Hrun) as (rq & Hrq).
  destruct (Flow_run_success env fuel flow (run_argument self) _ rq rendered
              p n Hsetup Hrq Hrender Hpopen Hp Hfuel)
    as (st & w1 & evu & r1 & Efr & Hr1 & Hfin & Hfailed & Hsucc).
  assert (Hfuel0 : 0 < fuel) by lia.
  destruct (handler_with_terminal (Flow_run env) fuel self flow
              (flow_run_id flow) w w1 r0 r1 st _ 0 RUN_STATUS_COMPLETED
              (Log Info ("Job " ++ flow_run_id flow
                         ++ " completed successfully"))
              Hrun Efr Hr1 Hfin Hfuel0)
    as (H1 & H2 & _ & _ & Hin).
  - intros w'. unfold terminal_transition. now rewrite Hfailed, Hsucc.
  - reflexivity.
  - split; [exact H1|]. split; [exact H2|].
    split; apply Hin; apply in_or_app; right; apply in_or_app; right;
      apply in_or_app; right; simpl; auto.
Qed.

Lemma script_exit_code_not_inspected_witness :
  out (_threaded_execution_handler (Flow_run scenario.env) 5 scenario.exec
         scenario.flow_r2 "r2" (scenario.world_of [scenario.r2]))
  = Ok tt /\
  final_status "r2"
    (world (_threaded_execution_handler (Flow_run scenario.env) 5
              scenario.exec scenario.flow_r2 "r2"
              (scenario.world_of [scenario.r2])))
  = Some RUN_STATUS_COMPLETED /\
  In (Log Info ("stdout:" ++ nl ++ proc_stdout scenario.exit_1))
     (events (_threaded_execution_handler (Flow_run scenario.env) 5
                scenario.exec scenario.flow_r2 "r2"
                (scenario.world_of [scenario.r2]))) /\
  In (Log Info ("stderr:" ++ nl ++ proc_stderr scenario.exit_1))
     (events (_threaded_execution_handler (Flow_run scenario.env) 5
                scenario.exec scenario.flow_r2 "r2"
                (scenario.world_of [scenario.r2]))).
Proof.
  apply (script_exit_code_not_inspected scenario.env 5 scenario.exec
           scenario.flow_r2 "r2" (scenario.world_of [scenario.r2])
           scenario.r2 "import sys; sys.exit(1)" scenario.exit_1 2).
  - reflexivity.
  - reflexivity.
  - reflexivity.
  - reflexivity.
  - reflexivity.
  - reflexivity.
  - lia.
Defined.

(** C5, refuted as stated: [r2] is submitted, discovered and dispatched;
    its rendered script exits with code 1; the handler ends with the Run
    in [completed], not in [failed]. *)
Lemma nonzero_exit_completed_counterexample :
  popen scenario.env "import sys; sys.exit(1)" = inr scenario.exit_1 /\
  proc_returncode scenario.exit_1 = 1%Z /\
  In (Popen "import sys; sys.exit(1)") (events scenario.finished_r2) /\
  out scenario.finished_r2 = Ok tt /\
  final_status "r2" (world scenario.finished_r2) = Some RUN_STATUS_COMPLETED /\
  final_status "r2" (world scenario.finished_r2) <> Some RUN_STATUS_FAILED.
Proof.
  split; [reflexivity|]. split; [reflexivity|].
  split; [vm_compute; tauto|]. split; [reflexivity|].
  split; [reflexivity|]. vm_compute. discriminate.
Qed.

(* ================================================================== *)
(** * [Executor.execute] *)
(* ================================================================== *)

Lemma safe_object_get_Run_eq (id : string) (w : World) :
  safe_object_get_Run id w = mkRes (Ok (find_run id (runs w))) w [GetRun id].
Proof. reflexivity. Qed.

(** [execute], outcome by outcome. *)
Lemma execute_cases (env : Env) (self : Executor) (rid : string) (w : World) :
  match find_run rid (runs w) with
  | None =>
      execute env self rid w =
      mkRes (Raise {| exn_class := AttributeError;
                      exn_msg := "'NoneType' object has no attribute 'script'" |})
            w [GetRun rid]
  | Some run =>
      match get_object env (MINIO_BUCKET env) (run_script_path run) with
      | inl e =>
          execute env self rid w =
          mkRes (Raise e) w
                [GetRun rid;
                 GetObject (MINIO_BUCKET env) (run_script_path run)]
      | inr text =>
          match parse_parameters env (run_parameters_config run) with
          | inl e =>
              execute env self rid w =
              mkRes (Raise e) w
                    [GetRun rid;
                     GetObject (MINIO_BUCKET env) (run_script_path run);
                     Log Info (run_model_config run)]
          | inr parameters =>
              (exists e,
                 exn_class e = TypeError /\
                 execute env self rid w =
                 mkRes (Raise e) w
                       [GetRun rid;
                        GetObject (MINIO_BUCKET env) (run_script_path run);
                        Log Info (run_model_config run)]) \/
              execute env self rid w =
              mkRes (Ok tt)
                    (set_threads w
                       (threads w ++ [thread_for self run text parameters]))
                    [GetRun rid;
                     GetObject (MINIO_BUCKET env) (run_script_path run);
                     Log Info (run_model_config run);
                     ThreadStart rid]
          end
      end
  end.
Proof.
  unfold execute. rewrite (bind_eq _ _ (safe_object_get_Run_eq rid w)).
  cbv beta.
  destruct (find_run rid (runs w)) as [run|] eqn:Hrun; [|reflexivity].
  pose proof (find_run_id _ _ _ Hrun) as Hid.
  bind_step (emit_eq (GetObject (MINIO_BUCKET env) (run_script_path run)) w).
  destruct (get_object env (MINIO_BUCKET env) (run_script_path run))
    as [e|text]; [reflexivity|].
  bind_step (ret_eq text w).
  bind_step (logger_eq Info (run_model_config run) w).
  destruct (parse_parameters env (run_parameters_config run))
    as [e|parameters]; [reflexivity|].
  bind_step (ret_eq parameters w).
  unfold bind_kwargs.
  destruct (find _ parameters) as [p|].
  - left. eexists. split; [|reflexivity]. reflexivity.
  - right.
    bind_step (ret_eq (explicit_kwargs rid (run_model_config run)
                       ++ parameters)%list w).
    unfold thread_start, thread_for, explicit_kwargs.
    cbn [out world events th_run_id]. rewrite Hid. reflexivity.
Qed.

(** C9 (amended) -- only the flow run and the status transitions are
    deferred to the handler thread.  [execute] itself, in its caller's
    thread, looks the Run up in the persistence layer and, when it is
    there, fetches the script from the object store, then reads the model
    and parameters configuration; it writes no Status and changes neither
    table; when it returns it has started exactly one thread, as its last
    action, whose flow holds the text fetched; when it raises it has
    started none. *)
Theorem execute_fetches_in_caller (env : Env) (self : Executor)
    (rid : string) (w : World) :
  statuses (world (execute env self rid w)) = statuses w /\
  runs (world (execute env self rid w)) = runs w /\
  status_writes rid (events (execute env self rid w)) = [] /\
  (exists tail, events (execute env self rid w) = GetRun rid :: tail) /\
  (forall run, find_run rid (runs w) = Some run ->
     exists tail,
       events (execute env self rid w) =
       GetRun rid :: GetObject (MINIO_BUCKET env) (run_script_path run)
       :: tail) /\
  (out (execute env self rid w) = Ok tt ->
     exists run text parameters,
       find_run rid (runs w) = Some run /\
       get_object env (MINIO_BUCKET env) (run_script_path run) = inr text /\
       parse_parameters env (run_parameters_config run) = inr parameters /\
       threads (world (execute env self rid w)) =
       (threads w ++ [thread_for self run text parameters])%list /\
       events (execute env self rid w) =
       [GetRun rid; GetObject (MINIO_BUCKET env) (run_script_path run);
        Log Info (run_model_config run); ThreadStart rid]) /\
  (out (execute env self rid w) <> Ok tt ->
     threads (world (execute env self rid w)) = threads w /\
     started (events (execute env self rid w)) = []).
Proof.
  pose proof (execute_cases env self rid w) as H.
  destruct (find_run rid (runs w)) as [run|] eqn:Hrun.
  2:{ rewrite H. cbn.
      repeat split; eauto; try discriminate; intros ? [=]. }
  destruct (get_object env (MINIO_BUCKET env) (run_script_path run))
    as [e|text] eqn:Hget.
  { rewrite H. cbn.
    repeat split; eauto; try discriminate; intros run' [= <-]; eauto. }
  destruct (parse_parameters env (run_parameters_config run))
    as [e|parameters] eqn:Hparse.
  { rewrite H. cbn.
    repeat split; eauto; try discriminate; intros run' [= <-]; eauto. }
  destruct H as [(e & _ & H) | H].
  { rewrite H. cbn.
    repeat split; eauto; try discriminate; intros run' [= <-]; eauto. }
  rewrite H. cbn.
  split; [reflexivity|]. split; [reflexivity|]. split; [reflexivity|].
  split; [eauto|]. split; [intros run' [= <-]; eauto|].
  split; [|intros Hne; now contradiction Hne].
  intros _. exists run, text, parameters. auto.
Qed.

(** C9, refuted as stated: dispatching [r2], [execute] returns only
    after a lookup in the persistence layer and a fetch from the object
    store, both made in the caller's thread before the handler thread is
    started. *)
Lemma execute_blocking_io_counterexample :
  out (execute scenario.env scenario.exec "r2"
         (scenario.world_of [scenario.r2])) = Ok tt /\
  events (execute scenario.env scenario.exec "r2"
            (scenario.world_of [scenario.r2])) =
  [GetRun "r2"; GetObject "bucket" "scripts/r2.py"; Log Info "{}";
   ThreadStart "r2"] /\
  filter blocking_io
    (events (execute scenario.env scenario.exec "r2"
               (scenario.world_of [scenario.r2]))) =
  [GetRun "r2"; GetObject "bucket" "scripts/r2.py"].
Proof. repeat split. Qed.

(* ================================================================== *)
(** * Failures of the pipeline *)
(* ================================================================== *)

(** C1 (amended) -- a pipeline that fails in the render task or in the
    script task leaves the Run in [failed]: the handler returns, and the
    last Status it persisted is [failed], logged with the state's result.
    A failure of the artifact fetch is raised by [execute] itself, before
    any handler thread exists: nothing is persisted and no thread is
    started, so the Run keeps the Status it had. *)
Theorem pipeline_failure_status
    (env : Env) (fuel : nat) (self : Executor) (flow : Flow)
    (run_id : string) (w : World) (r0 : Run) (e : exn) :
  find_run run_id (runs w) = Some r0 ->
  (get_object env (MINIO_BUCKET env) (run_script_path r0) = inl e ->
   execute env self run_id w =
   mkRes (Raise e) w
         [GetRun run_id; GetObject (MINIO_BUCKET env) (run_script_path r0)])
  /\
  (is_Exception e = true ->
   (forall e', load_config_file_to_envs env = inl e' ->
               is_Exception e' = true) ->
   0 < fuel ->
   (jinja_render env (flow_template_text flow) (flow_kwargs flow) = inl e \/
    exists rendered,
      jinja_render env (flow_template_text flow) (flow_kwargs flow)
      = inr rendered /\
      popen env rendered = inl e) ->
   out (_threaded_execution_handler (Flow_run env) fuel self flow run_id w)
   = Ok tt /\
   final_status run_id
     (world (_threaded_execution_handler (Flow_run env) fuel self flow
               run_id w))
   = Some RUN_STATUS_FAILED /\
   (exists pre msg,
      events (_threaded_execution_handler (Flow_run env) fuel self flow
                run_id w)
      = (pre ++ [SaveRun run_id RUN_STATUS_FAILED; Log Error msg])%list)).
Proof.
  intros Hrun. split.
  - intros Hget. pose proof (execute_cases env self run_id w) as H.
    rewrite Hrun, Hget in H. exact H.
  - intros He Hsetup Hfuel Hcase.
    destruct (write_status_run RUN_STATUS_QUEUED _ w r0 Hrun) as (rq & Hrq).
    destruct (Flow_run_failed env fuel flow (run_argument self) run_id _ rq e
                Hsetup Hrq He Hcase)
      as (st & w1 & ev1 & r1 & Efr & Hr1 & Hfin & Hfailed).
    destruct (handler_with_terminal (Flow_run env) fuel self flow run_id
                w w1 r0 r1 st ev1 0 RUN_STATUS_FAILED
                (Log Error ("Job " ++ run_id ++ " failed with error: "
                            ++ result st))
                Hrun Efr Hr1 Hfin Hfuel)
      as (H1 & H2 & _ & (pre & H4) & _).
    + intros w'. unfold terminal_transition. now rewrite Hfailed.
    + reflexivity.
    + split; [exact H1|]. split; [exact H2|]. eauto.
Qed.

Lemma pipeline_failure_status_witness :
  out (_threaded_execution_handler (Flow_run scenario.env_bad_template) 5
         scenario.exec scenario.flow_r2 "r2"
         (scenario.world_of [scenario.r2])) = Ok tt /\
  final_status "r2"
    (world (_threaded_execution_handler (Flow_run scenario.env_bad_template)
              5 scenario.exec scenario.flow_r2 "r2"
              (scenario.world_of [scenario.r2])))
  = Some RUN_STATUS_FAILED /\
  (exists pre msg,
     events (_threaded_execution_handler
               (Flow_run scenario.env_bad_template) 5 scenario.exec
               scenario.flow_r2 "r2" (scenario.world_of [scenario.r2]))
     = (pre ++ [SaveRun "r2" RUN_STATUS_FAILED; Log Error msg])%list).
Proof.
  destruct (pipeline_failure_status scenario.env_bad_template 5 scenario.exec
              scenario.flow_r2 "r2" (scenario.world_of [scenario.r2])
              scenario.r2
              {| exn_class := TemplateError; exn_msg := "unexpected '}'" |}
              eq_refl) as [_ H].
  apply H.
  - reflexivity.
  - intros e' He'. discriminate He'.
  - lia.
  - left. reflexivity.
Defined.

(** C1, refuted as stated: the script of [r1] is missing from the object
    store, so its pipeline fails at the artifact fetch; the poll cycle
    ends with no thread started and no Status written, and after this
    cycle, as after three of them, [r1] is in [created], not in
    [failed]. *)
Lemma fetch_failure_counterexample :
  get_object scenario.env "bucket" "scripts/r1.py" = inl scenario.no_such_key /\
  In (GetObject "bucket" "scripts/r1.py") (events scenario.dispatched_r1) /\
  out scenario.dispatched_r1 = Ok tt /\
  threads (world scenario.dispatched_r1) = [] /\
  status_writes "r1" (events scenario.dispatched_r1) = [] /\
  final_status "r1" (world scenario.dispatched_r1) = Some RUN_STATUS_CREATED /\
  final_status "r1" (world scenario.dispatched_r1) <> Some RUN_STATUS_FAILED /\
  final_status "r1"
    (world (_threaded_scheduler scenario.env 3 (scenario.world_of [scenario.r1])))
  = Some RUN_STATUS_CREATED /\
  threads
    (world (_threaded_scheduler scenario.env 3 (scenario.world_of [scenario.r1])))
  = [].
Proof.
  split; [reflexivity|]. split; [vm_compute; tauto|].
  split; [reflexivity|]. split; [reflexivity|]. split; [reflexivity|].
  split; [reflexivity|]. split; [vm_compute; discriminate|].
  split; reflexivity.
Qed.

(* ================================================================== *)
(** * The Status values one handler persists *)
(* ================================================================== *)

Lemma status_writes_concat_repeat (id : string) (body : list Event) (m : nat) :
  status_writes id body = [] ->
  status_writes id (List.concat (repeat body m)) = [].
Proof.
  intros H. induction m as [|m IH]; simpl; [reflexivity|].
  now rewrite status_writes_app, H, IH.
Qed.

Lemma while_quiet (id : string) (body_events : list Event)
    (cond : nat -> bool) (fuel k : nat) (w : World) :
  status_writes id body_events = [] ->
  status_writes id
    (events (while fuel cond (fun w' => mkRes (Ok tt) w' body_events) k w))
  = [].
Proof.
  intros H.
  destruct (while_emit_any body_events cond fuel k w) as (m & _ & -> & _).
  now apply status_writes_concat_repeat.
Qed.

Lemma call_events {A} (r : exn + A) (w : World) : events (call r w) = [].
Proof. now destruct r. Qed.

Lemma write_status_writes (rid name id : string) (w : World) :
  status_writes rid (events (write_status name id w)) = [] \/
  status_writes rid (events (write_status name id w)) = [name].
Proof.
  destruct (find_run id (runs w)) as [r0|] eqn:E.
  - destruct (write_status_Some name id w r0 E) as (s & new & _ & _ & ->).
    cbn [events]. simpl. rewrite status_writes_SaveStatus. simpl.
    destruct (String.eqb id rid); auto.
  - destruct (write_status_None name id w E) as (new & ->).
    cbn [events]. simpl. rewrite status_writes_SaveStatus. simpl. auto.
Qed.

Lemma execute_template_quiet (rid : string) (env : Env) (fuel : nat)
    (rendered id : string) (w : World) :
  status_writes rid (events (execute_template env fuel rendered id w)) = [].
Proof.
  unfold execute_template.
  rewrite bind_events, status_writes_app. cbn [logger emit events out world].
  rewrite bind_events, status_writes_app. cbn [emit events out world].
  rewrite bind_events, status_writes_app, call_events.
  destruct (popen env rendered) as [e|p]; [reflexivity|].
  cbn [call ret out world].
  rewrite bind_events, status_writes_app.
  change (logger Debug ("Run #" ++ id ++ " still running") ;; sleep 10000)
    with (fun w' : World =>
            mkRes (Ok tt) w'
              [Log Debug ("Run #" ++ id ++ " still running"); Sleep 10000]).
  rewrite (while_quiet rid
             [Log Debug ("Run #" ++ id ++ " still running"); Sleep 10000]
             (poll_is_None p) fuel 0 w eq_refl).
  destruct (out (while _ _ _ _ _)); reflexivity.
Qed.

(** The flow run writes at most [running]. *)
Lemma Flow_run_writes (rid : string) (env : Env) (fuel : nat) (flow : Flow)
    (x : option DaskExecutor) (w : World) :
  status_writes rid (events (Flow_run env fuel flow x w)) = [] \/
  status_writes rid (events (Flow_run env fuel flow x w))
  = [RUN_STATUS_RUNNING].
Proof.
  remember (status_writes rid (events (Flow_run env fuel flow x w))) as X
    eqn:HX.
  unfold Flow_run in HX.
  rewrite bind_events, status_writes_app, run_task_events in HX.
  unfold setup at 1 in HX. rewrite call_events in HX.
  destruct (out (run_task (setup env) w)) as [s1| |]; [|now left..].
  rewrite bind_events, status_writes_app, run_task_events in HX.
  rewrite update_run_status_eq in HX.
  destruct (out (run_task (update_run_status _) _)) as [s2| |].
  - rewrite bind_events, status_writes_app, run_task_events in HX.
    unfold render_template at 1 in HX. rewrite call_events in HX.
    assert (Hrest : forall w',
      status_writes rid
        match out (run_task (render_template env (flow_template_text flow)
                               (flow_kwargs flow)) w') with
        | Ok s_render =>
            events
              ((s_execute <- match s_render with
                             | Success rendered =>
                                 run_task (execute_template env fuel rendered
                                             (flow_run_id flow))
                             | _ => ret TriggerFailed
                             end ;;
                ret (flow_state [("setup", s1); ("update_run_status", s2);
                                 ("execute_template", s_execute)]))
                 (world (run_task (render_template env
                                     (flow_template_text flow)
                                     (flow_kwargs flow)) w')))
        | _ => []
        end = []).
    { clear HX. intros w'.
      destruct (out (run_task (render_template env (flow_template_text flow)
                                 (flow_kwargs flow)) w')) as [s3| |];
        [|reflexivity..].
      rewrite bind_events, status_writes_app.
      destruct s3 as [rendered| |].
      - rewrite run_task_events, execute_template_quiet.
        destruct (out (run_task _ _)); reflexivity.
      - reflexivity.
      - reflexivity. }
    rewrite Hrest in HX. simpl in HX. rewrite app_nil_r in HX. subst X.
    apply write_status_writes.
  - simpl in HX. rewrite app_nil_r in HX. subst X. apply write_status_writes.
  - simpl in HX. rewrite app_nil_r in HX. subst X. apply write_status_writes.
Qed.

Lemma terminal_transition_writes (rid : string) (st : State) (w : World) :
  status_writes rid (events (terminal_transition st rid w)) = [] \/
  status_writes rid (events (terminal_transition st rid w))
  = [RUN_STATUS_COMPLETED] \/
  status_writes rid (events (terminal_transition st rid w))
  = [RUN_STATUS_FAILED].
Proof.
  unfold terminal_transition.
  destruct (is_failed st); [|destruct (is_successful st)].
  - rewrite bind_events, status_writes_app.
    assert (Hlog : forall o : outcome unit,
              status_writes rid
                match o with
                | Ok a => events (logger Error
                            ("Job " ++ rid ++ " failed with error: "
                             ++ result st)
                            (world (write_status RUN_STATUS_FAILED rid w)))
                | _ => []
                end = []) by (intros [ | | ]; reflexivity).
    rewrite Hlog, app_nil_r.
    destruct (write_status_writes rid RUN_STATUS_FAILED rid w); auto.
  - rewrite bind_events, status_writes_app.
    assert (Hlog : forall o : outcome unit,
              status_writes rid
                match o with
                | Ok a => events (logger Info
                            ("Job " ++ rid ++ " completed successfully")
                            (world (write_status RUN_STATUS_COMPLETED rid w)))
                | _ => []
                end = []) by (intros [ | | ]; reflexivity).
    rewrite Hlog, app_nil_r.
    destruct (write_status_writes rid RUN_STATUS_COMPLETED rid w); auto.
  - now left.
Qed.

(** After the first transition the handler writes at most [running]
    (in the flow run) and then at most one terminal status. *)
Lemma handler_rest_writes (rid : string) (env : Env) (fuel : nat)
    (self : Executor) (flow : Flow) (w : World) :
  exists a b,
    status_writes rid
      (events (handler_rest (Flow_run env) fuel self flow rid w))
    = (a ++ b)%list /\
    (a = [] \/ a = [RUN_STATUS_RUNNING]) /\
    (b = [] \/ b = [RUN_STATUS_COMPLETED] \/ b = [RUN_STATUS_FAILED]).
Proof.
  unfold handler_rest.
  rewrite bind_events, status_writes_app.
  rewrite (bind_events (emit (run_banner self))).
  cbn [emit out world events app]. rewrite status_writes_banner.
  eexists. eexists. split; [reflexivity|].
  split; [apply Flow_run_writes|].
  destruct (out ((emit (run_banner self) ;;
                  Flow_run env fuel flow (run_argument self)) w))
    as [st| |]; [|now left..].
  rewrite bind_events, status_writes_app.
  change (sleep 250) with (fun w' : World => mkRes (Ok tt) w' [Sleep 250]).
  rewrite (while_quiet rid [Sleep 250] _ fuel 0 _ eq_refl).
  destruct (out (while _ _ _ _ _)); [|now left..].
  apply terminal_transition_writes.
Qed.

(** C2 (amended) -- for every run of the execution handler, whatever its
    end, the Status values it persists for its Run are none at all, or
    [queued] first and then a subsequence of [running] and one terminal
    status: after [created], written at submission, the sequence is a
    subsequence of created, queued, running, completed|failed; no other
    status is written without [queued] written first, and [completed] and
    [failed] are never both written. *)
Theorem handler_status_sequence (env : Env) (fuel : nat) (self : Executor)
    (flow : Flow) (run_id : string) (w : World) :
  lifecycle_ok
    (status_writes run_id
       (events (_threaded_execution_handler (Flow_run env) fuel self flow
                  run_id w)))
  = true.
Proof.
  rewrite handler_eq.
  destruct (find_run run_id (runs w)) as [r0|] eqn:Hrun.
  - destruct (write_status_Some RUN_STATUS_QUEUED run_id w r0 Hrun)
      as (s & new & _ & _ & Eq).
    rewrite (bind_eq _ _ Eq). cbn [events].
    rewrite status_writes_app, status_writes_transition.
    destruct (handler_rest_writes run_id env fuel self flow
                {| statuses := statuses w ++ new;
                   runs := update_run (set_run_status r0 s) (runs w);
                   threads := threads w; coach := coach w |})
      as (a & b & -> & Ha & Hb).
    destruct Ha as [-> | ->]; destruct Hb as [-> | [-> | ->]]; reflexivity.
  - destruct (write_status_None RUN_STATUS_QUEUED run_id w Hrun) as (new & Eq).
    rewrite bind_Raise
      with (e := {| exn_class := AttributeError;
                    exn_msg := "'NoneType' object has no attribute 'status'" |})
      by (now rewrite Eq).
    rewrite Eq. cbn [events]. simpl.
    rewrite status_writes_SaveStatus. reflexivity.
Qed.

(** C2, refuted as stated: for [r2], submitted in [created], discovered,
    dispatched and run to its end, the Status values persisted are
    queued, running, completed; with [created] before them this is not a
    subsequence of created, queued, completed nor of created, queued,
    failed. *)
Lemma running_written_counterexample :
  out scenario.finished_r2 = Ok tt /\
  status_writes "r2" (events scenario.finished_r2) =
  [RUN_STATUS_QUEUED; RUN_STATUS_RUNNING; RUN_STATUS_COMPLETED] /\
  subseqb (RUN_STATUS_CREATED :: status_writes "r2" (events scenario.finished_r2))
          [RUN_STATUS_CREATED; RUN_STATUS_QUEUED; RUN_STATUS_COMPLETED]
  = false /\
  subseqb (RUN_STATUS_CREATED :: status_writes "r2" (events scenario.finished_r2))
          [RUN_STATUS_CREATED; RUN_STATUS_QUEUED; RUN_STATUS_FAILED]
  = false.
Proof. repeat split. Qed.

(* ================================================================== *)
(** * The supervisor's poll cycle *)
(* ================================================================== *)

(** One turn of the [for] loop: ensure the singletons, then [execute]. *)
Lemma dispatch_eq (env : Env) (run : Run) (w : World) :
  dispatch env run w =
  mkRes (out (execute env (ensured_executor env (coach w)) (run_id run)
                (set_coach w (ensured env (coach w)))))
        (world (execute env (ensured_executor env (coach w)) (run_id run)
                  (set_coach w (ensured env (coach w)))))
        (Log Info ("Sending new run (" ++ str_Run env run
                   ++ ") to the executor")
         :: init_logs (coach w)
         ++ events (execute env (ensured_executor env (coach w)) (run_id run)
                      (set_coach w (ensured env (coach w))))).
Proof.
  destruct w as [sts rs ths [[s|] [ex|] th]]; reflexivity.
Qed.

Lemma ensured_idempotent (env : Env) (c : Coach) :
  ensured env (ensured env c) = ensured env c.
Proof. reflexivity. Qed.

Lemma init_logs_quiet (c : Coach) :
  lookups (init_logs c) = [] /\ started (init_logs c) = [] /\
  sleeps (init_logs c) = [].
Proof.
  unfold init_logs.
  destruct (coach_scheduler c), (coach_executor c); repeat split.
Qed.

(** What [execute] does, as the poll cycle sees it. *)
Lemma execute_summary (env : Env) (self : Executor) (rid : string)
    (w : World) :
  runs (world (execute env self rid w)) = runs w /\
  statuses (world (execute env self rid w)) = statuses w /\
  coach (world (execute env self rid w)) = coach w /\
  lookups (events (execute env self rid w)) = [rid] /\
  sleeps (events (execute env self rid w)) = [] /\
  ((out (execute env self rid w) = Ok tt /\
    started (events (execute env self rid w)) = [rid]) \/
   (exists e, out (execute env self rid w) = Raise e /\
              started (events (execute env self rid w)) = [] /\
              (errors_only env -> is_Exception e = true))).
Proof.
  pose proof (execute_cases env self rid w) as H.
  destruct (find_run rid (runs w)) as [run|].
  2:{ rewrite H. cbn. repeat split. right. eexists. repeat split. }
  destruct (get_object env (MINIO_BUCKET env) (run_script_path run))
    as [e|text] eqn:Hget.
  { rewrite H. cbn. repeat split. right. exists e. repeat split.
    intros [Hg _]. eapply Hg; eauto. }
  destruct (parse_parameters env (run_parameters_config run))
    as [e|parameters] eqn:Hparse.
  { rewrite H. cbn. repeat split. right. exists e. repeat split.
    intros [_ Hp]. eapply Hp; eauto. }
  destruct H as [(e & He & H) | H].
  { rewrite H. cbn. repeat split. right. exists e. repeat split.
    intros _. unfold is_Exception. now rewrite He. }
  rewrite H. cbn. repeat split. left. split; reflexivity.
Qed.

(** One turn of the loop, as the rest of the cycle sees it. *)
Lemma dispatch_summary (env : Env) (run : Run) (w : World) :
  runs (world (dispatch env run w)) = runs w /\
  statuses (world (dispatch env run w)) = statuses w /\
  coach (world (dispatch env run w)) = ensured env (coach w) /\
  lookups (events (dispatch env run w)) = [run_id run] /\
  sleeps (events (dispatch env run w)) = [] /\
  ((out (dispatch env run w) = Ok tt /\
    started (events (dispatch env run w)) = [run_id run]) \/
   (exists e, out (dispatch env run w) = Raise e /\
              started (events (dispatch env run w)) = [] /\
              (errors_only env -> is_Exception e = true))).
Proof.
  rewrite dispatch_eq. cbn [out world events].
  destruct (execute_summary env (ensured_executor env (coach w)) (run_id run)
              (set_coach w (ensured env (coach w))))
    as (Hruns & Hsts & Hcoach & Hlook & Hsleep & Hout).
  destruct (init_logs_quiet (coach w)) as (Hl & Hs & Hz).
  remember (execute env (ensured_executor env (coach w)) (run_id run)
              (set_coach w (ensured env (coach w)))) as ex eqn:Hex.
  remember (init_logs (coach w)) as logs eqn:Hlogs.
  cbn [lookups started sleeps].
  rewrite lookups_app, started_app, sleeps_app, Hl, Hs, Hz, Hlook, Hsleep.
  repeat split; auto.
Qed.

(** The [for] loop over the discovered Runs: every Run up to the first
    whose dispatch raises is looked up, in order, and a thread is started
    for each one whose dispatch returned. *)
Lemma for_each_dispatch (env : Env) (l : list Run) :
  forall w : World,
    runs (world (for_each l (dispatch env) w)) = runs w /\
    statuses (world (for_each l (dispatch env) w)) = statuses w /\
    coach (world (for_each l (dispatch env) w))
    = match l with [] => coach w | _ :: _ => ensured env (coach w) end /\
    sleeps (events (for_each l (dispatch env) w)) = [] /\
    ((out (for_each l (dispatch env) w) = Ok tt /\
      lookups (events (for_each l (dispatch env) w)) = map run_id l /\
      started (events (for_each l (dispatch env) w)) = map run_id l) \/
     (exists e pre x post,
        out (for_each l (dispatch env) w) = Raise e /\
        l = (pre ++ x :: post)%list /\
        lookups (events (for_each l (dispatch env) w))
        = map run_id (pre ++ [x]) /\
        started (events (for_each l (dispatch env) w)) = map run_id pre /\
        (errors_only env -> is_Exception e = true))).
Proof.
  induction l as [|x l IH]; intros w.
  - cbn. repeat split. left. repeat split.
  - cbn [for_each].
    destruct (dispatch_summary env x w)
      as (Hruns & Hsts & Hcoach & Hlook & Hsleep & Hout).
    destruct Hout as [[Hok Hstart] | (e & Hraise & Hstart & He)].
    + rewrite (bind_Ok _ _ _ _ Hok). cbn [out world events].
      destruct (IH (world (dispatch env x w)))
        as (IHruns & IHsts & IHcoach & IHsleep & IHout).
      rewrite IHruns, IHsts, IHcoach, Hruns, Hsts, Hcoach.
      rewrite lookups_app, started_app, sleeps_app.
      rewrite Hlook, Hstart, Hsleep, IHsleep.
      split; [reflexivity|]. split; [reflexivity|].
      split; [now destruct l|]. split; [reflexivity|].
      destruct IHout as [(IHok & IHlook & IHstart)
                        | (e & pre & y & post & IHraise & -> & IHlook
                           & IHstart & IHe)].
      * left. rewrite IHok, IHlook, IHstart. repeat split.
      * right. exists e, (x :: pre), y, post.
        rewrite IHraise, IHlook, IHstart. repeat split. exact IHe.
    + rewrite (bind_Raise _ _ _ _ Hraise). cbn [out world events].
      rewrite Hruns, Hsts, Hcoach, Hlook, Hstart, Hsleep.
      repeat split. right. exists e, [], x, l. repeat split. exact He.
Qed.

Lemma poll_reachable (env : Env) (w : World) :
  persistence_reachable env = true ->
  poll_and_dispatch env w =
  mkRes (out (for_each (discovered w) (dispatch env) w))
        (world (for_each (discovered w) (dispatch env) w))
        (QueryRuns RUN_STATUS_CREATED
         :: events (for_each (discovered w) (dispatch env) w)).
Proof.
  intros H. unfold poll_and_dispatch.
  assert (E : Run_objects_filter_status env RUN_STATUS_CREATED w
              = mkRes (Ok (discovered w)) w [QueryRuns RUN_STATUS_CREATED]).
  { unfold Run_objects_filter_status. now rewrite H. }
  now rewrite (bind_eq _ _ E).
Qed.

Lemma poll_unreachable (env : Env) (w : World) :
  persistence_reachable env = false ->
  poll_and_dispatch env w =
  mkRes (Raise {| exn_class := OperationalError;
                  exn_msg := "could not connect to the database" |})
        w [QueryRuns RUN_STATUS_CREATED].
Proof.
  intros H. unfold poll_and_dispatch.
  rewrite bind_Raise
    with (e := {| exn_class := OperationalError;
                  exn_msg := "could not connect to the database" |});
    unfold Run_objects_filter_status; now rewrite H.
Qed.

(** The [try] block never sleeps and always ends, normally or with an
    exception. *)
Lemma poll_summary (env : Env) (w : World) :
  sleeps (events (poll_and_dispatch env w)) = [] /\
  (out (poll_and_dispatch env w) = Ok tt \/
   exists e, out (poll_and_dispatch env w) = Raise e /\
             (errors_only env -> is_Exception e = true)).
Proof.
  destruct (persistence_reachable env) eqn:H.
  - rewrite (poll_reachable env w H). cbn [out events sleeps].
    destruct (for_each_dispatch env (discovered w) w)
      as (_ & _ & _ & Hsleep & Hout).
    split; [exact Hsleep|].
    destruct Hout as [(Hok & _) | (e & pre & x & post & Hraise & _ & _ & _ & He)].
    + now left.
    + right. now exists e.
  - rewrite (poll_unreachable env w H). cbn [out events sleeps].
    split; [reflexivity|]. right. eexists. split; [reflexivity|].
    reflexivity.
Qed.

(** C7 (amended) -- in every poll cycle the Supervisor first queries the
    persistence layer for the Runs whose Status is [created], then walks
    the Runs discovered in the order of the answer; for each one it
    reaches it ensures the Scheduler and the Executor (what exists is
    kept, what is missing is created, the Executor with the Scheduler)
    and calls [execute] once.  When every call returns, each discovered
    Run has been passed to [execute] exactly once and has one thread
    started for it; when a call raises, the Runs after that one are not
    dispatched in this cycle. *)
Theorem poll_dispatches_in_order (env : Env) (w : World) :
  persistence_reachable env = true ->
  (exists tail, events (poll_and_dispatch env w)
                = QueryRuns RUN_STATUS_CREATED :: tail) /\
  (discovered w <> [] ->
   exists s ex,
     coach_scheduler (coach (world (poll_and_dispatch env w))) = Some s /\
     coach_executor (coach (world (poll_and_dispatch env w))) = Some ex /\
     (forall s0, coach_scheduler (coach w) = Some s0 -> s = s0) /\
     (forall ex0, coach_executor (coach w) = Some ex0 -> ex = ex0) /\
     (coach_executor (coach w) = None -> ex = Executor__init__ s false)) /\
  (out (poll_and_dispatch env w) = Ok tt ->
   lookups (events (poll_and_dispatch env w)) = map run_id (discovered w) /\
   started (events (poll_and_dispatch env w)) = map run_id (discovered w)) /\
  (forall e, out (poll_and_dispatch env w) = Raise e ->
   exists pre x post,
     discovered w = (pre ++ x :: post)%list /\
     lookups (events (poll_and_dispatch env w)) = map run_id (pre ++ [x]) /\
     started (events (poll_and_dispatch env w)) = map run_id pre).
Proof.
  intros H. rewrite (poll_reachable env w H). cbn [out world events].
  destruct (for_each_dispatch env (discovered w) w)
    as (_ & _ & Hcoach & _ & Hout).
  split; [eauto|]. split; [|split].
  - intros Hne. rewrite Hcoach.
    destruct (discovered w) as [|x l]; [congruence|].
    exists (ensured_scheduler env (coach w)), (ensured_executor env (coach w)).
    unfold ensured_executor, ensured_scheduler. cbn.
    repeat split.
    + intros s0 ->. reflexivity.
    + intros ex0 ->. reflexivity.
    + intros ->. reflexivity.
  - intros Hok. cbn [lookups started].
    destruct Hout as [(_ & Hlook & Hstart)
                     | (e & pre & x & post & Hraise & _)];
      [now split | congruence].
  - intros e He. cbn [lookups started].
    destruct Hout as [(Hok & _)
                     | (e' & pre & x & post & _ & Hl & Hlook & Hstart & _)];
      [congruence|].
    exists pre, x, post. now repeat split.
Qed.

Lemma poll_dispatches_in_order_witness :
  lookups (events (poll_and_dispatch scenario.env
                     (scenario.world_of [scenario.r2]))) = ["r2"] /\
  started (events (poll_and_dispatch scenario.env
                     (scenario.world_of [scenario.r2]))) = ["r2"].
Proof.
  destruct (poll_dispatches_in_order scenario.env
              (scenario.world_of [scenario.r2]) eq_refl)
    as (_ & _ & Hok & _).
  exact (Hok eq_refl).
Defined.

(** C7, refuted as stated: the poll discovers [r1] and [r2]; the dispatch
    of [r1] raises (its script is missing), the error is logged, and the
    cycle ends without [execute] having been called for [r2]: no lookup
    of it, no thread for it. *)
Lemma undispatched_run_counterexample :
  map run_id (discovered (scenario.world_of [scenario.r1; scenario.r2]))
  = ["r1"; "r2"] /\
  out scenario.dispatched_r1_r2 = Ok tt /\
  lookups (events scenario.dispatched_r1_r2) = ["r1"] /\
  started (events scenario.dispatched_r1_r2) = [] /\
  threads (world scenario.dispatched_r1_r2) = [] /\
  In (Log Error "Error in scheduler: NoSuchKey")
     (events scenario.dispatched_r1_r2).
Proof.
  split; [reflexivity|]. split; [reflexivity|]. split; [reflexivity|].
  split; [reflexivity|]. split; [reflexivity|]. vm_compute. tauto.
Qed.

(** One turn of the loop, when the [try] block raises errors only. *)
Lemma scheduler_cycle_spec (env : Env) (w : World) :
  errors_only env ->
  out (scheduler_cycle env w) = Ok tt /\
  world (scheduler_cycle env w) = world (poll_and_dispatch env w) /\
  events (scheduler_cycle env w) =
  (events (poll_and_dispatch env w)
   ++ match out (poll_and_dispatch env w) with
      | Raise e => [Log Error ("Error in scheduler: " ++ str_exn e)]
      | _ => []
      end
   ++ [Log Info ("Scheduler sleeping for "
                 ++ str_int (SCHEDULER_SLEEP_TIME env) ++ " seconds");
       Sleep (1000 * SCHEDULER_SLEEP_TIME env)])%list /\
  sleeps (events (scheduler_cycle env w)) = [(1000 * SCHEDULER_SLEEP_TIME env)%Z].
Proof.
  intros Herr.
  destruct (poll_summary env w) as (Hsleep & [Hok | (e & Hraise & He)]).
  - unfold scheduler_cycle, try_except_finally. cbv zeta. rewrite Hok.
    cbn [out world events bind logger sleep emit app].
    repeat split. now rewrite sleeps_app, Hsleep.
  - unfold scheduler_cycle, try_except_finally. cbv zeta.
    rewrite Hraise, (He Herr).
    cbn [out world events bind logger sleep emit app].
    repeat split. now rewrite sleeps_app, Hsleep.
Qed.

(** The loop itself: after any number of turns it is still running, and
    it has slept once per turn. *)
Lemma scheduler_loop (env : Env) :
  errors_only env ->
  forall (n k : nat) (w : World),
    out (while n (fun _ => true) (scheduler_cycle env) k w) = OutOfFuel /\
    sleeps (events (while n (fun _ => true) (scheduler_cycle env) k w))
    = repeat (1000 * SCHEDULER_SLEEP_TIME env)%Z n.
Proof.
  intros Herr. induction n as [|n IH]; intros k w.
  - split; reflexivity.
  - cbn [while].
    destruct (scheduler_cycle_spec env w Herr) as (Hok & _ & _ & Hsleep).
    rewrite (bind_Ok _ _ _ _ Hok). cbn [out events].
    destruct (IH (S k) (world (scheduler_cycle env w))) as (IHout & IHsleep).
    rewrite sleeps_app, Hsleep, IHout, IHsleep. split; reflexivity.
Qed.

(** C4 -- every error raised inside a poll cycle, whether by the query
    or by a dispatch, is caught and logged; the cycle then logs that it
    sleeps and sleeps the configured interval, exactly once, as it does
    when the cycle raised nothing; the turn ends normally, so the loop
    goes on: after any number of turns it has not returned and has slept
    the interval once per turn. *)
Theorem scheduler_survives_errors (env : Env) (w : World) :
  errors_only env ->
  (out (scheduler_cycle env w) = Ok tt /\
   world (scheduler_cycle env w) = world (poll_and_dispatch env w) /\
   events (scheduler_cycle env w) =
   (events (poll_and_dispatch env w)
    ++ match out (poll_and_dispatch env w) with
       | Raise e => [Log Error ("Error in scheduler: " ++ str_exn e)]
       | _ => []
       end
    ++ [Log Info ("Scheduler sleeping for "
                  ++ str_int (SCHEDULER_SLEEP_TIME env) ++ " seconds");
        Sleep (1000 * SCHEDULER_SLEEP_TIME env)])%list /\
   sleeps (events (scheduler_cycle env w))
   = [(1000 * SCHEDULER_SLEEP_TIME env)%Z]) /\
  (forall n,
     out (_threaded_scheduler env n w) = OutOfFuel /\
     sleeps (events (_threaded_scheduler env n w))
     = repeat (1000 * SCHEDULER_SLEEP_TIME env)%Z n).
Proof.
  intros Herr. split.
  - now apply scheduler_cycle_spec.
  - intros n. unfold _threaded_scheduler. now apply scheduler_loop.
Qed.

Lemma scheduler_survives_errors_witness :
  out (poll_and_dispatch scenario.env (scenario.world_of [scenario.r1]))
  = Raise scenario.no_such_key /\
  out scenario.dispatched_r1 = Ok tt /\
  events scenario.dispatched_r1 =
  (events (poll_and_dispatch scenario.env (scenario.world_of [scenario.r1]))
   ++ [Log Error "Error in scheduler: NoSuchKey"]
   ++ [Log Info "Scheduler sleeping for 5 seconds"; Sleep 5000])%list /\
  out (_threaded_scheduler scenario.env 3 (scenario.world_of [scenario.r1]))
  = OutOfFuel /\
  sleeps (events (_threaded_scheduler scenario.env 3
                    (scenario.world_of [scenario.r1])))
  = [5000%Z; 5000%Z; 5000%Z].
Proof.
  assert (Herr : errors_only scenario.env).
  { split.
    - intros b p e. cbn.
      destruct (String.eqb p "scripts/r2.py"); [discriminate|].
      intros [= <-]. reflexivity.
    - intros s e. cbn. discriminate. }
  destruct (scheduler_survives_errors scenario.env
              (scenario.world_of [scenario.r1]) Herr)
    as ((Hok & _ & Hev & _) & Hloop).
  destruct (Hloop 3) as (Hout & Hsleeps).
  split; [reflexivity|]. split; [exact Hok|]. split; [exact Hev|].
  split; [exact Hout | exact Hsleeps].
Defined.

(* ================================================================== *)
(** * The submission command *)
(* ================================================================== *)

(** C3 -- the claim is that a submission whose script, job config and
    model config exist persists a Run in [created] and returns its id.
    What [submit] does on such a submission: with the configuration file
    in place and the three paths existing, it reaches [json.load] on the
    job config, and the module never imports [json]; the lookup of the
    name raises [NameError], nothing has been persisted and no run id is
    printed. *)
Theorem submit_raises_NameError (env : Env)
    (python_script job_config model_config : string) (w : World) :
  path_exists env (COACH_DEFAULT_CONFIG_PATH env) = true ->
  load_config_file_to_envs env = inr tt ->
  path_exists env python_script = true ->
  path_exists env job_config = true ->
  path_exists env model_config = true ->
  cli.submit env python_script job_config model_config w =
  mkRes (Raise {| exn_class := NameError;
                  exn_msg := "name 'json' is not defined" |})
        w [].
Proof.
  intros Hcfg Hload Hps Hjc Hmc.
  unfold cli.submit, cli.submit_in, cli.check_config.
  rewrite Hcfg. cbn [negb].
  unfold bind at 1. cbv zeta. unfold bind at 1. cbv zeta.
  rewrite Hload. cbn [call ret out world events app negb].
  rewrite Hps, Hjc, Hmc. reflexivity.
Qed.

Lemma submit_raises_NameError_witness :
  cli.submit scenario.env "train.py" "job.json" "model.json"
             (scenario.world_of []) =
  mkRes (Raise {| exn_class := NameError;
                  exn_msg := "name 'json' is not defined" |})
        (scenario.world_of []) [].
Proof.
  apply (submit_raises_NameError scenario.env "train.py" "job.json"
           "model.json" (scenario.world_of []));
    reflexivity.
Defined.

(** Were [json] bound in the module, the same submission would stop one
    step later: class [Coach] has no attribute [submit_job]. *)
Lemma submit_with_json_AttributeError (env : Env)
    (python_script job_config model_config jc mc : string) (w : World) :
  path_exists env (COACH_DEFAULT_CONFIG_PATH env) = true ->
  load_config_file_to_envs env = inr tt ->
  path_exists env python_script = true ->
  path_exists env job_config = true ->
  path_exists env model_config = true ->
  json_load env job_config = inr jc ->
  json_load env model_config = inr mc ->
  out (cli.submit_in ("json" :: cli.module_globals) env python_script
         job_config model_config w)
  = Raise {| exn_class := AttributeError;
             exn_msg := "'Coach' object has no attribute 'submit_job'" |} /\
  runs (world (cli.submit_in ("json" :: cli.module_globals) env python_script
                 job_config model_config w)) = runs w.
Proof.
  intros Hcfg Hload Hps Hjc Hmc Hj Hm.
  unfold cli.submit_in, cli.check_config.
  rewrite Hcfg. cbn [negb].
  unfold bind at 1. cbv zeta. unfold bind at 1. cbv zeta.
  rewrite Hload. cbn [call ret out world events app negb].
  rewrite Hps, Hjc, Hmc. cbn [negb].
  unfold cli.load_global. cbn [existsb String.eqb Ascii.eqb Bool.eqb orb].
  unfold bind at 1. cbv zeta. cbn [ret out world events].
  unfold bind at 1. cbv zeta. rewrite Hj. cbn [call ret out world events].
  unfold bind at 1. cbv zeta. cbn [ret out world events].
  unfold bind at 1. cbv zeta. rewrite Hm. cbn [call ret out world events].
  split; reflexivity.
Qed.

(* ================================================================== *)
(** * Relations kept by a computation *)
(* ================================================================== *)

Section Preservation.

Variable R : World -> World -> Prop.
Hypothesis R_refl : forall w, R w w.
Hypothesis R_trans : forall w1 w2 w3, R w1 w2 -> R w2 w3 -> R w1 w3.

Lemma preserves_ret {A} (a : A) : preserves R (ret a).
Proof. intros w. apply R_refl. Qed.

Lemma preserves_emit (e : Event) : preserves R (emit e).
Proof. intros w. apply R_refl. Qed.

Lemma preserves_raise {A} (e : exn) : preserves R (@raise A e).
Proof. intros w. apply R_refl. Qed.

Lemma preserves_call {A} (r : exn + A) : preserves R (call r).
Proof. destruct r; intros w; apply R_refl. Qed.

Lemma preserves_bind {A B} (c : M A) (k : A -> M B) :
  preserves R c -> (forall a, preserves R (k a)) -> preserves R (bind c k).
Proof.
  intros Hc Hk w. unfold bind. cbv zeta.
  destruct (out (c w)) as [a| |] eqn:E; cbn [world]; try apply Hc.
  eapply R_trans; [apply Hc | apply Hk].
Qed.

Lemma preserves_while (cond : nat -> bool) (body : M unit) :
  preserves R body ->
  forall fuel k, preserves R (while fuel cond body k).
Proof.
  intros Hb. induction fuel as [|fuel IH]; intros k.
  - intros w. apply R_refl.
  - cbn [while]. destruct (cond k).
    + apply preserves_bind; [exact Hb | intros _; apply IH].
    + apply preserves_ret.
Qed.

Lemma preserves_for_each {A} (body : A -> M unit) (l : list A) :
  (forall a, preserves R (body a)) -> preserves R (for_each l body).
Proof.
  intros Hb. induction l as [|x l IH]; cbn [for_each].
  - apply preserves_ret.
  - apply preserves_bind; [apply Hb | intros _; exact IH].
Qed.

Lemma preserves_run_task {A} (body : M A) :
  preserves R body -> preserves R (run_task body).
Proof.
  intros Hb w. unfold run_task. cbv zeta.
  destruct (out (body w)); [| destruct (is_Exception e) |]; apply Hb.
Qed.

Lemma preserves_try_except_finally (body : M unit) (handler : exn -> M unit)
    (fin : M unit) :
  preserves R body -> (forall e, preserves R (handler e)) -> preserves R fin ->
  preserves R (try_except_finally body handler fin).
Proof.
  intros Hb Hh Hf w. unfold try_except_finally. cbv zeta.
  destruct (out (body w)) as [[]|e|]; cbn [world].
  - eapply R_trans; [apply Hb | apply Hf].
  - destruct (is_Exception e); cbn [world].
    + eapply R_trans; [apply Hb|].
      apply (preserves_bind (handler e) (fun _ => fin)); auto.
    + eapply R_trans; [apply Hb|].
      apply (preserves_bind fin (fun _ => raise e));
        [exact Hf | intros _; apply preserves_raise].
  - apply Hb.
Qed.

End Preservation.

(* ================================================================== *)
(** * What a handler may change *)
(* ================================================================== *)

Lemma set_run_status_same (r : Run) : set_run_status r (run_status r) = r.
Proof. now destruct r. Qed.

Lemma handler_frame_refl (rid : string) (w : World) : handler_frame rid w w.
Proof.
  repeat split; auto.
  - intros r Hr. exists (run_status r). now rewrite set_run_status_same.
  - exists []. now rewrite app_nil_r.
Qed.

Lemma handler_frame_trans (rid : string) (w1 w2 w3 : World) :
  handler_frame rid w1 w2 -> handler_frame rid w2 w3 ->
  handler_frame rid w1 w3.
Proof.
  intros (Ht & Hc & Hi & Ho & Hs & (n1 & Hn1) & Hd)
         (Ht' & Hc' & Hi' & Ho' & Hs' & (n2 & Hn2) & Hd').
  repeat split; try congruence.
  - intros id Hid. rewrite (Ho' id Hid). now apply Ho.
  - intros r Hr. destruct (Hs r Hr) as (s & Hs2).
    destruct (Hs' _ Hs2) as (s' & Hs3). exists s'. exact Hs3.
  - exists (n1 ++ n2)%list. now rewrite Hn2, Hn1, app_assoc.
  - auto.
Qed.

Lemma find_status_None_names (name : string) (l : list Status) :
  find_status name l = None -> ~ In name (map status_name l).
Proof.
  unfold find_status. induction l as [|x l IH]; simpl; intros H; [tauto|].
  destruct (String.eqb (status_name x) name) eqn:E; [discriminate|].
  apply String.eqb_neq in E. intros [Hx | Hin]; [congruence | now apply IH].
Qed.

Lemma map_run_id_update_run (r r0 : Run) (l : list Run) :
  find_run (run_id r) l = Some r0 ->
  map run_id (update_run r l) = map run_id l.
Proof.
  unfold find_run. induction l as [|x l IH]; simpl; [discriminate|].
  destruct (String.eqb (run_id x) (run_id r)) eqn:E; simpl.
  - intros _. apply String.eqb_eq in E. now rewrite E.
  - intros H. now rewrite IH.
Qed.

(** One status transition of Run [rid] stays within the frame. *)
Lemma write_status_frame (name rid : string) :
  preserves (handler_frame rid) (write_status name rid).
Proof.
  intros w.
  assert (Hsts : exists new,
            (new = [] \/
             (find_status name (statuses w) = None /\
              new = [{| status_pk := fresh_pk (statuses w);
                        status_name := name |}])) /\
            statuses (world (write_status name rid w))
            = (statuses w ++ new)%list).
  { destruct (find_run rid (runs w)) as [r0|] eqn:Hrun.
    - destruct (get_or_create_Status_cases name w) as [(s & Hs & E) | (Hs & E)];
        unfold write_status; rewrite (bind_eq _ _ E);
        unfold bind, safe_object_get_Run; cbv zeta; simpl; rewrite Hrun; simpl.
      + exists []. split; [now left | now rewrite app_nil_r].
      + eexists. split; [right; split; [exact Hs | reflexivity]|]. reflexivity.
    - destruct (get_or_create_Status_cases name w) as [(s & Hs & E) | (Hs & E)];
        unfold write_status; rewrite (bind_eq _ _ E);
        unfold bind, safe_object_get_Run; cbv zeta; simpl; rewrite Hrun; simpl.
      + exists []. split; [now left | now rewrite app_nil_r].
      + eexists. split; [right; split; [exact Hs | reflexivity]|]. reflexivity. }
  destruct Hsts as (new & Hnew & Hsts).
  assert (Hnames : NoDup (map status_name (statuses w)) ->
                   NoDup (map status_name
                            (statuses (world (write_status name rid w))))).
  { intros Hnd. rewrite Hsts.
    destruct Hnew as [-> | (Hnone & ->)]; [now rewrite app_nil_r|].
    rewrite map_app. simpl.
    apply NoDup_rev in Hnd. rewrite <- (rev_involutive (_ ++ _)).
    apply NoDup_rev. rewrite rev_app_distr. simpl. constructor; [|exact Hnd].
    rewrite <- in_rev. now apply find_status_None_names. }
  destruct (find_run rid (runs w)) as [r0|] eqn:Hrun.
  - destruct (write_status_Some name rid w r0 Hrun)
      as (s & new' & Hs & _ & Eq).
    rewrite Eq in Hsts, Hnames |- *. cbn [world statuses] in Hsts, Hnames.
    repeat split; cbn [world threads coach runs statuses]; auto.
    + apply (map_run_id_update_run (set_run_status r0 s) r0).
      cbn [set_run_status run_id]. now rewrite (find_run_id _ _ _ Hrun).
    + intros id Hid. apply find_run_update_run_other.
      cbn [set_run_status run_id]. rewrite (find_run_id _ _ _ Hrun). congruence.
    + intros r Hr. rewrite Hrun in Hr. injection Hr as <-. exists s.
      replace rid with (run_id (set_run_status r0 s)) at 1
        by exact (find_run_id _ _ _ Hrun).
      apply find_run_update_run.
    + eauto.
  - destruct (write_status_None name rid w Hrun) as (new' & Eq).
    rewrite Eq in Hsts, Hnames |- *. cbn [world statuses] in Hsts, Hnames.
    repeat split; cbn [world threads coach runs statuses]; auto.
    + intros r Hr. congruence.
    + eauto.
Qed.

(** Solves [preserves R c] for a computation built from the monad's
    combinators, given that [R] is reflexive and transitive. *)
Ltac preserve Hrefl Htrans :=
  repeat first
    [ apply (preserves_bind _ Htrans); [|intros ?]
    | apply (preserves_ret _ Hrefl)
    | apply (preserves_emit _ Hrefl)
    | apply (preserves_raise _ Hrefl)
    | apply (preserves_call _ Hrefl)
    | apply (preserves_run_task _)
    | apply (preserves_while _ Hrefl Htrans)
    | apply (preserves_for_each _ Hrefl Htrans); intros ? ].

Lemma execute_template_preserves (R : World -> World -> Prop)
    (Hrefl : forall w, R w w)
    (Htrans : forall w1 w2 w3, R w1 w2 -> R w2 w3 -> R w1 w3)
    (env : Env) (fuel : nat) (rendered id : string) :
  preserves R (execute_template env fuel rendered id).
Proof. unfold execute_template, logger, sleep. preserve Hrefl Htrans. Qed.

Lemma update_run_status_frame (rid : string) :
  preserves (handler_frame rid) (update_run_status rid).
Proof. intros w. rewrite update_run_status_eq. apply write_status_frame. Qed.

Lemma Flow_run_frame (rid : string) (env : Env) (fuel : nat) (flow : Flow)
    (x : option DaskExecutor) :
  flow_run_id flow = rid ->
  preserves (handler_frame rid) (Flow_run env fuel flow x).
Proof.
  intros H. subst rid. unfold Flow_run, setup, render_template.
  apply (preserves_bind _ (handler_frame_trans _)); [|intros s1].
  { preserve (handler_frame_refl (flow_run_id flow))
             (handler_frame_trans (flow_run_id flow)). }
  apply (preserves_bind _ (handler_frame_trans _)); [|intros s2].
  { apply preserves_run_task. apply update_run_status_frame. }
  apply (preserves_bind _ (handler_frame_trans _)); [|intros s3].
  { preserve (handler_frame_refl (flow_run_id flow))
             (handler_frame_trans (flow_run_id flow)). }
  apply (preserves_bind _ (handler_frame_trans _)); [|intros s4].
  { destruct s3.
    - apply preserves_run_task.
      apply execute_template_preserves;
        [apply handler_frame_refl | apply handler_frame_trans].
    - apply (preserves_ret _ (handler_frame_refl _)).
    - apply (preserves_ret _ (handler_frame_refl _)). }
  apply (preserves_ret _ (handler_frame_refl _)).
Qed.

(** The handler of a flow built for its own Run stays within the frame,
    whatever its end. *)
Lemma handler_frame_holds (env : Env) (fuel : nat) (self : Executor)
    (flow : Flow) (rid : string) :
  flow_run_id flow = rid ->
  preserves (handler_frame rid)
    (_threaded_execution_handler (Flow_run env) fuel self flow rid).
Proof.
  intros Hid w. rewrite handler_eq. revert w.
  apply (preserves_bind _ (handler_frame_trans _)); [|intros _].
  { apply write_status_frame. }
  unfold handler_rest.
  apply (preserves_bind _ (handler_frame_trans _)); [|intros st].
  { apply (preserves_bind _ (handler_frame_trans _)); [|intros _].
    - apply (preserves_emit _ (handler_frame_refl _)).
    - now apply Flow_run_frame. }
  apply (preserves_bind _ (handler_frame_trans _)); [|intros _].
  { apply (preserves_while _ (handler_frame_refl _) (handler_frame_trans _)).
    apply (preserves_emit _ (handler_frame_refl _)). }
  unfold terminal_transition.
  destruct (is_failed st); [|destruct (is_successful st)].
  - apply (preserves_bind _ (handler_frame_trans _)); [|intros _].
    + apply write_status_frame.
    + apply (preserves_emit _ (handler_frame_refl _)).
  - apply (preserves_bind _ (handler_frame_trans _)); [|intros _].
    + apply write_status_frame.
    + apply (preserves_emit _ (handler_frame_refl _)).
  - apply (preserves_ret _ (handler_frame_refl _)).
Qed.

(** X4 -- a handler is confined to its own Run: whatever its end
    (returned, raised, still running), the row of every other Run is as
    it was, Status included, no thread has been started and the [Coach]
    is untouched. *)
Theorem handler_leaves_other_runs (env : Env) (fuel : nat) (self : Executor)
    (flow : Flow) (run_id : string) (w : World) :
  flow_run_id flow = run_id ->
  threads (world (_threaded_execution_handler (Flow_run env) fuel self flow
                    run_id w)) = threads w /\
  coach (world (_threaded_execution_handler (Flow_run env) fuel self flow
                  run_id w)) = coach w /\
  forall id, id <> run_id ->
    find_run id (runs (world (_threaded_execution_handler (Flow_run env) fuel
                                self flow run_id w)))
    = find_run id (runs w).
Proof.
  intros Hid.
  destruct (handler_frame_holds env fuel self flow run_id Hid w)
    as (Ht & Hc & _ & Ho & _).
  auto.
Qed.

Lemma handler_leaves_other_runs_witness :
  find_run "r1"
    (runs (world (_threaded_execution_handler (Flow_run scenario.env) 5
                    scenario.exec scenario.flow_r2 "r2"
                    (scenario.world_of [scenario.r1; scenario.r2]))))
  = Some scenario.r1.
Proof.
  destruct (handler_leaves_other_runs scenario.env 5 scenario.exec
              scenario.flow_r2 "r2"
              (scenario.world_of [scenario.r1; scenario.r2]) eq_refl)
    as (_ & _ & Ho).
  rewrite (Ho "r1"); [reflexivity | discriminate].
Defined.

(** X5 -- of its own Run a handler changes the Status only: whatever its
    end, the Run table holds the same ids in the same order (no row
    added, removed or moved), and the Run's row is the one it found with
    at most another Status: script path, model and parameters
    configuration are as submitted. *)
Theorem handler_changes_status_only (env : Env) (fuel : nat)
    (self : Executor) (flow : Flow) (rid : string) (w : World) :
  flow_run_id flow = rid ->
  map run_id
    (runs (world (_threaded_execution_handler (Flow_run env) fuel self flow
                    rid w)))
  = map run_id (runs w) /\
  forall r, find_run rid (runs w) = Some r ->
    exists s,
      find_run rid
        (runs (world (_threaded_execution_handler (Flow_run env) fuel self
                        flow rid w)))
      = Some (set_run_status r s).
Proof.
  intros Hid.
  destruct (handler_frame_holds env fuel self flow rid Hid w)
    as (_ & _ & Hi & _ & Hs & _).
  auto.
Qed.

Lemma handler_changes_status_only_witness :
  exists s,
    find_run "r2"
      (runs (world (_threaded_execution_handler (Flow_run scenario.env) 5
                      scenario.exec scenario.flow_r2 "r2"
                      (scenario.world_of [scenario.r1; scenario.r2]))))
    = Some (set_run_status scenario.r2 s).
Proof.
  destruct (handler_changes_status_only scenario.env 5 scenario.exec
              scenario.flow_r2 "r2"
              (scenario.world_of [scenario.r1; scenario.r2]) eq_refl)
    as (_ & Hs).
  apply Hs. reflexivity.
Defined.

(** X6 -- a handler only adds to the Status table: whatever its end, the
    rows that were there are there, unchanged and in place, new rows
    coming after them; and when no two rows had the same name before,
    none have after. *)
Theorem handler_status_table_grows (env : Env) (fuel : nat)
    (self : Executor) (flow : Flow) (rid : string) (w : World) :
  flow_run_id flow = rid ->
  (exists new,
     statuses (world (_threaded_execution_handler (Flow_run env) fuel self
                        flow rid w))
     = (statuses w ++ new)%list) /\
  (NoDup (map status_name (statuses w)) ->
   NoDup (map status_name
            (statuses (world (_threaded_execution_handler (Flow_run env) fuel
                                self flow rid w))))).
Proof.
  intros Hid.
  destruct (handler_frame_holds env fuel self flow rid Hid w)
    as (_ & _ & _ & _ & _ & Hn & Hd).
  auto.
Qed.

Lemma handler_status_table_grows_witness :
  NoDup (map status_name
           (statuses (world (_threaded_execution_handler
                               (Flow_run scenario.env) 5 scenario.exec
                               scenario.flow_r2 "r2"
                               (scenario.world_of [scenario.r2]))))).
Proof.
  destruct (handler_status_table_grows scenario.env 5 scenario.exec
              scenario.flow_r2 "r2" (scenario.world_of [scenario.r2]) eq_refl)
    as (_ & Hd).
  apply Hd. repeat constructor; simpl; tauto.
Defined.

(* ================================================================== *)
(** * Ends of the handler other than a terminal transition *)
(* ================================================================== *)

Lemma bind_eq_Raise {A B} (c : M A) (k : A -> M B) {w w1 : World} {e : exn}
    {ev : list Event} :
  c w = mkRes (Raise e) w1 ev -> bind c k w = mkRes (Raise e) w1 ev.
Proof. intros H. unfold bind. cbv zeta. now rewrite H. Qed.

Lemma bind_eq_OutOfFuel {A B} (c : M A) (k : A -> M B) {w w1 : World}
    {ev : list Event} :
  c w = mkRes OutOfFuel w1 ev -> bind c k w = mkRes OutOfFuel w1 ev.
Proof. intros H. unfold bind. cbv zeta. now rewrite H. Qed.

(** A loop whose condition never turns false uses up any fuel. *)
Lemma while_forever (body_events : list Event) (cond : nat -> bool) :
  (forall k, cond k = true) ->
  forall (fuel k : nat) (w : World),
    while fuel cond (fun w' => mkRes (Ok tt) w' body_events) k w =
    mkRes OutOfFuel w (List.concat (repeat body_events fuel)).
Proof.
  intros Hc. induction fuel as [|fuel IH]; intros k w.
  - reflexivity.
  - cbn [while]. rewrite Hc. unfold bind. cbv zeta. cbn [out world events].
    rewrite IH. reflexivity.
Qed.





(** X3 -- a handler whose Run is not in the table dies on its first
    transition: after the get-or-create of [queued] (which may add the
    row) and the lookup of the Run it raises [AttributeError]; the flow
    is never run, nothing is logged, and the Run table is as it was. *)
Theorem handler_missing_run (flow_run : FlowRunner) (fuel : nat)
    (self : Executor) (flow : Flow) (rid : string) (w : World) :
  find_run rid (runs w) = None ->
  out (_threaded_execution_handler flow_run fuel self flow rid w)
  = Raise {| exn_class := AttributeError;
             exn_msg := "'NoneType' object has no attribute 'status'" |} /\
  runs (world (_threaded_execution_handler flow_run fuel self flow rid w))
  = runs w /\
  exists new,
    statuses (world (_threaded_execution_handler flow_run fuel self flow
                       rid w))
    = (statuses w ++ new)%list /\
    events (_threaded_execution_handler flow_run fuel self flow rid w)
    = (GetStatus RUN_STATUS_QUEUED :: map SaveStatus new ++ [GetRun rid])%list.
Proof.
  intros Hrun. rewrite handler_eq.
  destruct (write_status_None RUN_STATUS_QUEUED rid w Hrun) as (new & Eq).
  rewrite (bind_eq_Raise _ _ Eq). cbn [out world events runs statuses].
  split; [reflexivity|]. split; [reflexivity|]. exists new. now split.
Qed.

Lemma handler_missing_run_witness :
  out (_threaded_execution_handler (Flow_run scenario.env) 5 scenario.exec
         scenario.flow_r2 "r2" (scenario.world_of [scenario.r1]))
  = Raise {| exn_class := AttributeError;
             exn_msg := "'NoneType' object has no attribute 'status'" |}.
Proof.
  apply (handler_missing_run (Flow_run scenario.env) 5 scenario.exec
           scenario.flow_r2 "r2" (scenario.world_of [scenario.r1])).
  reflexivity.
Defined.

(** X7 -- the handler catches nothing: when the flow run itself raises,
    the exception ends the handler; the Run keeps the Status written
    last ([queued], or what the flow run had written), no terminal
    Status is written and nothing is logged about the failure. *)
Theorem handler_backend_raises (flow_run : FlowRunner) (fuel : nat)
    (self : Executor) (flow : Flow) (rid : string) (w w1 : World) (r0 : Run)
    (e : exn) (ev1 : list Event) :
  find_run rid (runs w) = Some r0 ->
  flow_run fuel flow (run_argument self)
           (world (write_status RUN_STATUS_QUEUED rid w))
  = mkRes (Raise e) w1 ev1 ->
  _threaded_execution_handler flow_run fuel self flow rid w =
  mkRes (Raise e) w1
        (events (write_status RUN_STATUS_QUEUED rid w)
         ++ run_banner self :: ev1) /\
  status_writes rid
    (events (_threaded_execution_handler flow_run fuel self flow rid w))
  = RUN_STATUS_QUEUED :: status_writes rid ev1.
Proof.
  intros Hrun Hfr. rewrite handler_eq.
  destruct (write_status_Some RUN_STATUS_QUEUED rid w r0 Hrun)
    as (s & new & Hs & Hnew & Eq).
  rewrite Eq in Hfr |- *. cbn [world events] in Hfr |- *.
  rewrite (bind_eq _ _ Eq). unfold handler_rest.
  assert (E : (emit (run_banner self) ;;
               flow_run fuel flow (run_argument self))
                {| statuses := statuses w ++ new;
                   runs := update_run (set_run_status r0 s) (runs w);
                   threads := threads w; coach := coach w |}
              = mkRes (Raise e) w1 (run_banner self :: ev1)).
  { unfold bind, emit. cbv zeta. simpl. rewrite Hfr. reflexivity. }
  rewrite (bind_eq_Raise _ _ E). cbn [out world events].
  split; [reflexivity|].
  rewrite status_writes_app, status_writes_transition, status_writes_banner.
  reflexivity.
Qed.

Lemma handler_backend_raises_witness :
  _threaded_execution_handler scenario.raising_runner 5 scenario.exec
    scenario.flow_r2 "r2" (scenario.world_of [scenario.r2]) =
  mkRes (Raise scenario.unreachable)
        (world (write_status RUN_STATUS_QUEUED "r2"
                  (scenario.world_of [scenario.r2])))
        (events (write_status RUN_STATUS_QUEUED "r2"
                   (scenario.world_of [scenario.r2]))
         ++ run_banner scenario.exec :: []) /\
  status_writes "r2"
    (events (_threaded_execution_handler scenario.raising_runner 5
               scenario.exec scenario.flow_r2 "r2"
               (scenario.world_of [scenario.r2])))
  = RUN_STATUS_QUEUED :: status_writes "r2" [].
Proof.
  apply (handler_backend_raises scenario.raising_runner 5 scenario.exec
           scenario.flow_r2 "r2" (scenario.world_of [scenario.r2]) _
           scenario.r2 scenario.unreachable []).
  - reflexivity.
  - reflexivity.
Defined.

(** X8 -- the wait for the finished state has no bound: when the state
    the flow run returned never reports itself finished, the handler is
    still polling after any number of polls, having slept 0.25 s after
    each one and written no Status since the flow run. *)
Theorem handler_state_never_finished (flow_run : FlowRunner) (fuel : nat)
    (self : Executor) (flow : Flow) (rid : string) (w w1 : World) (r0 : Run)
    (st : State) (ev1 : list Event) :
  find_run rid (runs w) = Some r0 ->
  flow_run fuel flow (run_argument self)
           (world (write_status RUN_STATUS_QUEUED rid w))
  = mkRes (Ok st) w1 ev1 ->
  (forall k, is_finished st k = false) ->
  _threaded_execution_handler flow_run fuel self flow rid w =
  mkRes OutOfFuel w1
        (events (write_status RUN_STATUS_QUEUED rid w)
         ++ run_banner self :: ev1 ++ repeat (Sleep 250) fuel).
Proof.
  intros Hrun Hfr Hnever. rewrite handler_eq.
  destruct (write_status_Some RUN_STATUS_QUEUED rid w r0 Hrun)
    as (s & new & Hs & Hnew & Eq).
  rewrite Eq in Hfr |- *. cbn [world events] in Hfr |- *.
  rewrite (bind_eq _ _ Eq). unfold handler_rest.
  assert (E : (emit (run_banner self) ;;
               flow_run fuel flow (run_argument self))
                {| statuses := statuses w ++ new;
                   runs := update_run (set_run_status r0 s) (runs w);
                   threads := threads w; coach := coach w |}
              = mkRes (Ok st) w1 (run_banner self :: ev1)).
  { unfold bind, emit. cbv zeta. simpl. rewrite Hfr. reflexivity. }
  rewrite (bind_eq _ _ E).
  assert (W : while fuel (fun k => negb (is_finished st k)) (sleep 250) 0 w1
              = mkRes OutOfFuel w1 (repeat (Sleep 250) fuel)).
  { rewrite <- concat_repeat_singleton.
    apply (while_forever [Sleep 250] (fun k => negb (is_finished st k))).
    intros k. now rewrite Hnever. }
  rewrite (bind_eq_OutOfFuel _ _ W). reflexivity.
Qed.

Lemma handler_state_never_finished_witness :
  _threaded_execution_handler scenario.pending_runner 7 scenario.exec
    scenario.flow_r2 "r2" (scenario.world_of [scenario.r2]) =
  mkRes OutOfFuel
        (world (write_status RUN_STATUS_QUEUED "r2"
                  (scenario.world_of [scenario.r2])))
        (events (write_status RUN_STATUS_QUEUED "r2"
                   (scenario.world_of [scenario.r2]))
         ++ run_banner scenario.exec :: [] ++ repeat (Sleep 250) 7).
Proof.
  apply (handler_state_never_finished scenario.pending_runner 7 scenario.exec
           scenario.flow_r2 "r2" (scenario.world_of [scenario.r2]) _
           scenario.r2 scenario.pending []).
  - reflexivity.
  - reflexivity.
  - intros k. reflexivity.
Defined.

(* ================================================================== *)
(** * The flow run, step by step *)
(* ================================================================== *)


Lemma setup_task_exact (env : Env) (w : World) :
  (forall e, load_config_file_to_envs env = inl e -> is_Exception e = true) ->
  exists s1,
    run_task (setup env) w = mkRes (Ok s1) w [] /\
    task_failed s1 = match load_config_file_to_envs env with
                     | inl _ => true
                     | inr _ => false
                     end.
Proof.
  intros H. unfold run_task, setup, call. cbv zeta.
  destruct (load_config_file_to_envs env) as [e|[]] eqn:E; simpl.
  - rewrite (H e eq_refl). eexists. split; reflexivity.
  - eexists. split; reflexivity.
Qed.

Lemma update_task_exact (id : string) (w : World) (r : Run) :
  find_run id (runs w) = Some r ->
  exists s new,
    status_name s = RUN_STATUS_RUNNING /\
    run_task (update_run_status id) w =
    mkRes (Ok (Success tt))
          {| statuses := statuses w ++ new;
             runs := update_run (set_run_status r s) (runs w);
             threads := threads w;
             coach := coach w |}
          (GetStatus RUN_STATUS_RUNNING
           :: map SaveStatus new ++ [GetRun id; SaveRun id RUN_STATUS_RUNNING]).
Proof.
  intros H.
  destruct (write_status_Some RUN_STATUS_RUNNING id w r H)
    as (s & new & Hs & _ & Eq).
  rewrite <- update_run_status_eq in Eq.
  exists s, new. split; [exact Hs|]. now apply run_task_Ok.
Qed.


(** The flow run up to the script task, when the Run is there and the
    template renders. *)
Lemma Flow_run_to_script (env : Env) (fuel : nat) (flow : Flow)
    (x : option DaskExecutor) (w : World) (r : Run) (rendered : string) :
  (forall e, load_config_file_to_envs env = inl e -> is_Exception e = true) ->
  find_run (flow_run_id flow) (runs w) = Some r ->
  jinja_render env (flow_template_text flow) (flow_kwargs flow)
  = inr rendered ->
  exists s1 s new,
    task_failed s1 = match load_config_file_to_envs env with
                     | inl _ => true
                     | inr _ => false
                     end /\
    status_name s = RUN_STATUS_RUNNING /\
    forall r4 : Res (TaskState unit),
      run_task (execute_template env fuel rendered (flow_run_id flow))
        {| statuses := statuses w ++ new;
           runs := update_run (set_run_status r s) (runs w);
           threads := threads w;
           coach := coach w |} = r4 ->
      Flow_run env fuel flow x w =
      mkRes (match out r4 with
             | Ok s4 => Ok (flow_state [("setup", s1);
                                        ("update_run_status", Success tt);
                                        ("execute_template", s4)])
             | Raise e => Raise e
             | OutOfFuel => OutOfFuel
             end)
            (world r4)
            ((GetStatus RUN_STATUS_RUNNING
              :: map SaveStatus new
              ++ [GetRun (flow_run_id flow);
                  SaveRun (flow_run_id flow) RUN_STATUS_RUNNING])
             ++ events r4).
Proof.
  intros Hsetup Hr Hrender.
  destruct (setup_task_exact env w Hsetup) as (s1 & E1 & Hs1).
  destruct (update_task_exact (flow_run_id flow) w r Hr)
    as (s & new & Hs & E2).
  exists s1, s, new. split; [exact Hs1|]. split; [exact Hs|].
  intros r4 E4. unfold Flow_run. bind_step E1. bind_step E2.
  set (w1 := {| statuses := statuses w ++ new;
                runs := update_run (set_run_status r s) (runs w);
                threads := threads w; coach := coach w |}) in *.
  assert (E3 : run_task (render_template env (flow_template_text flow)
                                         (flow_kwargs flow)) w1
               = mkRes (Ok (Success rendered)) w1 []).
  { apply run_task_Ok. now rewrite render_task, Hrender. }
  bind_step E3.
  destruct r4 as [[s4|e|] w4 ev4]; cbn [out world events].
  - bind_step E4. rewrite ret_eq. cbn [out world events app].
    now rewrite app_nil_r.
  - rewrite (bind_eq_Raise _ _ E4). reflexivity.
  - rewrite (bind_eq_OutOfFuel _ _ E4). reflexivity.
Qed.


Lemma status_writes_script_lines (rid rendered id : string) (n : nat)
    (tail : list Event) :
  status_writes rid
    ([Log Info ("Executing template:" ++ nl ++ rendered); Popen rendered]
     ++ List.concat
          (repeat [Log Debug ("Run #" ++ id ++ " still running");
                   Sleep 10000] n)
     ++ tail)%list
  = status_writes rid tail.
Proof.
  cbn [app status_writes]. rewrite status_writes_app.
  now rewrite status_writes_concat_repeat.
Qed.

(** The flow run on a script that exits: the state is failed exactly
    when the setup task failed. *)
Lemma Flow_run_script_exits (env : Env) (fuel : nat) (flow : Flow)
    (x : option DaskExecutor) (w : World) (r : Run) (rendered : string)
    (p : Process) (n : nat) :
  (forall e, load_config_file_to_envs env = inl e -> is_Exception e = true) ->
  find_run (flow_run_id flow) (runs w) = Some r ->
  jinja_render env (flow_template_text flow) (flow_kwargs flow)
  = inr rendered ->
  popen env rendered = inr p ->
  proc_polls p = Some n -> n < fuel ->
  exists st w1 ev1 r1,
    Flow_run env fuel flow x w = mkRes (Ok st) w1 ev1 /\
    find_run (flow_run_id flow) (runs w1) = Some r1 /\
    finishes_at st 0 /\
    is_failed st = match load_config_file_to_envs env with
                   | inl _ => true
                   | inr _ => false
                   end /\
    is_successful st = negb (is_failed st) /\
    status_writes (flow_run_id flow) ev1 = [RUN_STATUS_RUNNING] /\
    In (Popen rendered) ev1 /\
    In (Log Info ("stdout:" ++ nl ++ proc_stdout p)) ev1 /\
    In (Log Info ("stderr:" ++ nl ++ proc_stderr p)) ev1.
Proof.
  intros Hsetup Hr Hrender Hpopen Hp Hfuel.
  destruct (Flow_run_to_script env fuel flow x w r rendered Hsetup Hr Hrender)
    as (s1 & s & new & Hs1 & Hs & HF).
  specialize (HF _ (run_task_Ok _ _ _ _ _
                      (execute_template_exits env fuel rendered
                         (flow_run_id flow) p n _ Hpopen Hp Hfuel))).
  cbn [out world events] in HF.
  do 3 eexists. exists (set_run_status r s).
  split; [exact HF|]. split; [|split; [|split; [|split; [|split]]]].
  - cbn [runs].
    replace (flow_run_id flow) with (run_id (set_run_status r s)) at 1
      by exact (find_run_id _ _ _ Hr).
    apply find_run_update_run.
  - split; [apply flow_state_finished | intros k Hk; lia].
  - rewrite (proj1 (flow_state_flags _)). simpl. rewrite Hs1.
    now destruct (load_config_file_to_envs env).
  - destruct (flow_state_flags [("setup", s1);
                                ("update_run_status", Success tt);
                                ("execute_template", Success tt)]) as [Hf Hsu].
    now rewrite Hsu, Hf.
  - rewrite status_writes_app, status_writes_transition.
    now rewrite status_writes_script_lines.
  - repeat split; apply in_or_app; right.
    + right. now left.
    + apply in_or_app; right. apply in_or_app; right. now left.
    + apply in_or_app; right. apply in_or_app; right. right. now left.
Qed.

(** X10 -- the script does not wait for the setup task: when loading the
    configuration fails in [setup], the script is started all the same,
    runs to its exit and has its streams logged; the flow is failed
    through its setup task, and the Run goes queued, running, failed. *)
Theorem setup_failure_script_still_runs (env : Env) (fuel : nat)
    (self : Executor) (flow : Flow) (rid : string) (w : World) (r0 : Run)
    (e0 : exn) (rendered : string) (p : Process) (n : nat) :
  find_run rid (runs w) = Some r0 ->
  flow_run_id flow = rid ->
  load_config_file_to_envs env = inl e0 ->
  is_Exception e0 = true ->
  jinja_render env (flow_template_text flow) (flow_kwargs flow)
  = inr rendered ->
  popen env rendered = inr p ->
  proc_polls p = Some n -> n < fuel ->
  out (_threaded_execution_handler (Flow_run env) fuel self flow rid w)
  = Ok tt /\
  final_status rid
    (world (_threaded_execution_handler (Flow_run env) fuel self flow rid w))
  = Some RUN_STATUS_FAILED /\
  status_writes rid
    (events (_threaded_execution_handler (Flow_run env) fuel self flow rid w))
  = [RUN_STATUS_QUEUED; RUN_STATUS_RUNNING; RUN_STATUS_FAILED] /\
  In (Popen rendered)
     (events (_threaded_execution_handler (Flow_run env) fuel self flow
                rid w)) /\
  In (Log Info ("stdout:" ++ nl ++ proc_stdout p))
     (events (_threaded_execution_handler (Flow_run env) fuel self flow
                rid w)).
Proof.
  intros Hrun Hid Hload He0 Hrender Hpopen Hp Hfuel. subst rid.
  assert (Hsetup : forall e, load_config_file_to_envs env = inl e ->
                             is_Exception e = true)
    by (intros e He; congruence).
  destruct (write_status_run RUN_STATUS_QUEUED _ w r0 Hrun) as (rq & Hrq).
  destruct (Flow_run_script_exits env fuel flow (run_argument self) _ rq
              rendered p n Hsetup Hrq Hrender Hpopen Hp Hfuel)
    as (st & w1 & ev1 & r1 & Efr & Hr1 & Hfin & Hfailed & _ & Hw & Hi1 & Hi2
        & _).
  rewrite Hload in Hfailed.
  assert (Hfuel0 : 0 < fuel) by lia.
  destruct (handler_with_terminal (Flow_run env) fuel self flow
              (flow_run_id flow) w w1 r0 r1 st ev1 0 RUN_STATUS_FAILED
              (Log Error ("Job " ++ flow_run_id flow ++ " failed with error: "
                          ++ result st))
              Hrun Efr Hr1 Hfin Hfuel0)
    as (H1 & H2 & H3 & _ & Hin).
  - intros w'. unfold terminal_transition. now rewrite Hfailed.
  - reflexivity.
  - rewrite H3, Hw. repeat split; auto.
Qed.

Lemma setup_failure_script_still_runs_witness :
  out (_threaded_execution_handler (Flow_run scenario.env_setup_fails) 5
         scenario.exec scenario.flow_r2 "r2"
         (scenario.world_of [scenario.r2])) = Ok tt /\
  final_status "r2"
    (world (_threaded_execution_handler (Flow_run scenario.env_setup_fails) 5
              scenario.exec scenario.flow_r2 "r2"
              (scenario.world_of [scenario.r2])))
  = Some RUN_STATUS_FAILED /\
  status_writes "r2"
    (events (_threaded_execution_handler (Flow_run scenario.env_setup_fails)
               5 scenario.exec scenario.flow_r2 "r2"
               (scenario.world_of [scenario.r2])))
  = [RUN_STATUS_QUEUED; RUN_STATUS_RUNNING; RUN_STATUS_FAILED] /\
  In (Popen "import sys; sys.exit(1)")
     (events (_threaded_execution_handler (Flow_run scenario.env_setup_fails)
                5 scenario.exec scenario.flow_r2 "r2"
                (scenario.world_of [scenario.r2]))) /\
  In (Log Info ("stdout:" ++ nl ++ proc_stdout scenario.exit_1))
     (events (_threaded_execution_handler (Flow_run scenario.env_setup_fails)
                5 scenario.exec scenario.flow_r2 "r2"
                (scenario.world_of [scenario.r2]))).
Proof.
  apply (setup_failure_script_still_runs scenario.env_setup_fails 5
           scenario.exec scenario.flow_r2 "r2"
           (scenario.world_of [scenario.r2]) scenario.r2
           scenario.config_error "import sys; sys.exit(1)" scenario.exit_1 2).
  - reflexivity.
  - reflexivity.
  - reflexivity.
  - reflexivity.
  - reflexivity.
  - reflexivity.
  - reflexivity.
  - lia.
Defined.



(* ================================================================== *)
(** * From [execute] to the end of the handler *)
(* ================================================================== *)

(** The test [execute] makes on the parsed parameters when it binds the
    keyword arguments of [render_template]. *)
Lemma execute_after_parse (env : Env) (self : Executor) (rid : string)
    (w : World) (run : Run) (text : string)
    (parameters : list (string * string)) :
  find_run rid (runs w) = Some run ->
  get_object env (MINIO_BUCKET env) (run_script_path run) = inr text ->
  parse_parameters env (run_parameters_config run) = inr parameters ->
  execute env self rid w =
  match find (fun p => existsb (fun q => String.eqb (fst q) (fst p))
                         (explicit_kwargs rid (run_model_config run)))
             parameters with
  | Some p =>
      mkRes (Raise {| exn_class := TypeError;
                      exn_msg := "got multiple values for keyword argument '"
                                 ++ fst p ++ "'" |})
            w
            [GetRun rid; GetObject (MINIO_BUCKET env) (run_script_path run);
             Log Info (run_model_config run)]
  | None =>
      mkRes (Ok tt)
            (set_threads w (threads w ++ [thread_for self run text parameters]))
            [GetRun rid; GetObject (MINIO_BUCKET env) (run_script_path run);
             Log Info (run_model_config run); ThreadStart rid]
  end.
Proof.
  intros Hrun Hget Hparse.
  pose proof (find_run_id _ _ _ Hrun) as Hid.
  unfold execute. rewrite (bind_eq _ _ (safe_object_get_Run_eq rid w)).
  cbv beta. rewrite Hrun.
  bind_step (emit_eq (GetObject (MINIO_BUCKET env) (run_script_path run)) w).
  rewrite Hget. bind_step (ret_eq text w).
  bind_step (logger_eq Info (run_model_config run) w).
  rewrite Hparse. bind_step (ret_eq parameters w).
  unfold bind_kwargs.
  change [("run_id", rid);
          ("model_config",
           dquote ++ dquote ++ dquote ++ run_model_config run
           ++ dquote ++ dquote ++ dquote)]
    with (explicit_kwargs rid (run_model_config run)).
  destruct (find _ parameters) as [p|].
  - reflexivity.
  - bind_step (ret_eq (explicit_kwargs rid (run_model_config run)
                       ++ parameters)%list w).
    unfold thread_start, thread_for.
    cbn [out world events th_run_id]. rewrite Hid. reflexivity.
Qed.

Lemma find_Some_of_In {A} (f : A -> bool) (l : list A) (x : A) :
  In x l -> f x = true -> exists y, find f l = Some y /\ f y = true.
Proof.
  induction l as [|a l IH]; simpl; [tauto|].
  intros [-> | Hin] Hf.
  - rewrite Hf. eauto.
  - destruct (f a) eqn:E; eauto.
Qed.


Lemma explicit_kwargs_key (rid config key : string) :
  existsb (fun q => String.eqb (fst q) key) (explicit_kwargs rid config)
  = String.eqb "run_id" key || String.eqb "model_config" key.
Proof. unfold explicit_kwargs. cbn [existsb fst]. now rewrite orb_false_r. Qed.

(** X1 -- a parameters configuration may not define [run_id] or
    [model_config]: [execute] passes both itself, so when a parsed key is
    one of them the call of [render_template] cannot bind its keyword
    arguments; [execute] raises [TypeError] after the fetch, starts no
    thread and leaves the process state as it was. *)
Theorem execute_keyword_collision (env : Env) (self : Executor)
    (rid : string) (w : World) (run : Run) (text : string)
    (parameters : list (string * string)) (key value : string) :
  find_run rid (runs w) = Some run ->
  get_object env (MINIO_BUCKET env) (run_script_path run) = inr text ->
  parse_parameters env (run_parameters_config run) = inr parameters ->
  In (key, value) parameters ->
  key = "run_id" \/ key = "model_config" ->
  exists e,
    exn_class e = TypeError /\
    execute env self rid w =
    mkRes (Raise e) w
          [GetRun rid; GetObject (MINIO_BUCKET env) (run_script_path run);
           Log Info (run_model_config run)].
Proof.
  intros Hrun Hget Hparse Hin Hkey.
  rewrite (execute_after_parse env self rid w run text parameters
             Hrun Hget Hparse).
  destruct (find_Some_of_In
              (fun p => existsb (fun q => String.eqb (fst q) (fst p))
                          (explicit_kwargs rid (run_model_config run)))
              parameters (key, value) Hin) as (p & -> & _).
  - rewrite explicit_kwargs_key. cbn [fst].
    destruct Hkey as [-> | ->]; reflexivity.
  - exists {| exn_class := TypeError;
              exn_msg := "got multiple values for keyword argument '"
                         ++ fst p ++ "'" |}.
    split; reflexivity.
Qed.

Lemma execute_keyword_collision_witness :
  exists e,
    exn_class e = TypeError /\
    execute scenario.env_collision scenario.exec "r2"
            (scenario.world_of [scenario.r2]) =
    mkRes (Raise e) (scenario.world_of [scenario.r2])
          [GetRun "r2";
           GetObject (MINIO_BUCKET scenario.env_collision)
                     (run_script_path scenario.r2);
           Log Info (run_model_config scenario.r2)].
Proof.
  apply (execute_keyword_collision scenario.env_collision scenario.exec "r2"
           (scenario.world_of [scenario.r2]) scenario.r2
           "import sys; sys.exit(1)" [("epochs", "3"); ("run_id", "mine")]
           "run_id" "mine").
  - reflexivity.
  - reflexivity.
  - reflexivity.
  - right. now left.
  - now left.
Defined.



(* ================================================================== *)
(** * The [update_run_status] task *)
(* ================================================================== *)

Lemma get_or_create_count (name : string) (w : World) :
  count_named name (statuses (world (get_or_create_Status name w)))
  = Nat.max 1 (count_named name (statuses w)).
Proof.
  destruct (get_or_create_Status_cases name w) as [(s & Hs & E) | (Hs & E)];
    rewrite E; cbn [world statuses set_statuses].
  - pose proof (count_named_find_Some _ _ _ Hs). lia.
  - rewrite count_named_app, (count_named_find_None _ _ Hs).
    unfold count_named. simpl. now rewrite String.eqb_refl.
Qed.

Lemma write_status_statuses (name id : string) (w : World) :
  statuses (world (write_status name id w))
  = statuses (world (get_or_create_Status name w)).
Proof.
  unfold write_status.
  destruct (get_or_create_Status_cases name w) as [(s & Hs & E) | (Hs & E)];
    rewrite (bind_eq _ _ E), E; cbn [world];
    unfold bind, safe_object_get_Run; cbv zeta; cbn [out world events];
    destruct (find_run id _); reflexivity.
Qed.

(** X11 -- the [update_run_status] task.  On a Run that is in the table
    it returns, having saved that Run with a Status named [running] and
    nothing else changed in its row, the table keeping its ids in place.
    On a Run that is not, it raises [AttributeError] and saves no Run,
    but only after the get-or-create of the Status: a [running] row has
    been added if there was none. *)
Theorem update_run_status_effect (id : string) (w : World) :
  (forall r, find_run id (runs w) = Some r ->
     out (update_run_status id w) = Ok tt /\
     (exists s, status_name s = RUN_STATUS_RUNNING /\
                find_run id (runs (world (update_run_status id w)))
                = Some (set_run_status r s)) /\
     map run_id (runs (world (update_run_status id w)))
     = map run_id (runs w) /\
     status_writes id (events (update_run_status id w))
     = [RUN_STATUS_RUNNING]) /\
  (find_run id (runs w) = None ->
     out (update_run_status id w)
     = Raise {| exn_class := AttributeError;
                exn_msg := "'NoneType' object has no attribute 'status'" |} /\
     runs (world (update_run_status id w)) = runs w /\
     (forall id', status_writes id' (events (update_run_status id w)) = []) /\
     count_named RUN_STATUS_RUNNING
       (statuses (world (update_run_status id w)))
     = Nat.max 1 (count_named RUN_STATUS_RUNNING (statuses w))).
Proof.
  rewrite update_run_status_eq. split.
  - intros r Hr.
    destruct (write_status_Some RUN_STATUS_RUNNING id w r Hr)
      as (s & new & Hs & _ & Eq).
    rewrite Eq. cbn [out world events runs].
    split; [reflexivity|]. split; [|split].
    + exists s. split; [exact Hs|].
      replace id with (run_id (set_run_status r s)) at 1
        by exact (find_run_id _ _ _ Hr).
      apply find_run_update_run.
    + apply (map_run_id_update_run (set_run_status r s) r).
      cbn [set_run_status run_id]. now rewrite (find_run_id _ _ _ Hr).
    + apply status_writes_transition.
  - intros Hnone.
    pose proof (write_status_statuses RUN_STATUS_RUNNING id w) as Hsts.
    destruct (write_status_None RUN_STATUS_RUNNING id w Hnone) as (new & Eq).
    rewrite Eq in Hsts |- *. cbn [out world events runs statuses] in Hsts |- *.
    split; [reflexivity|]. split; [reflexivity|]. split.
    + intros id'. cbn [status_writes]. now rewrite status_writes_SaveStatus.
    + rewrite Hsts. apply get_or_create_count.
Qed.

(* ================================================================== *)
(** * The daemon: singletons, idle cycles, repeated cycles *)
(* ================================================================== *)

(** X12 -- [start_scheduler] always returns; afterwards the [Coach] has
    a Scheduler and an Executor and its polling thread is started; a
    singleton that existed is kept and one that was missing is created,
    the Executor on the Coach's Scheduler; the tables and the handler
    threads are untouched; and starting again changes neither
    singleton. *)
Theorem start_scheduler_singletons (env : Env) (w : World) :
  out (start_scheduler env w) = Ok tt /\
  runs (world (start_scheduler env w)) = runs w /\
  statuses (world (start_scheduler env w)) = statuses w /\
  threads (world (start_scheduler env w)) = threads w /\
  coach (world (start_scheduler env w)) =
  {| coach_scheduler :=
       Some match coach_scheduler (coach w) with
            | Some s => s
            | None => {| address := scheduler_address env |}
            end;
     coach_executor :=
       Some match coach_executor (coach w) with
            | Some ex => ex
            | None =>
                Executor__init__
                  match coach_scheduler (coach w) with
                  | Some s => s
                  | None => {| address := scheduler_address env |}
                  end false
            end;
     coach_scheduler_thread := true |} /\
  coach (world (start_scheduler env (world (start_scheduler env w))))
  = coach (world (start_scheduler env w)).
Proof.
  destruct w as [sts rs ths [[s|] [ex|] th]]; repeat split.
Qed.

Lemma same_tables_refl (w : World) : same_tables w w.
Proof. split; reflexivity. Qed.

Lemma same_tables_trans (w1 w2 w3 : World) :
  same_tables w1 w2 -> same_tables w2 w3 -> same_tables w1 w3.
Proof. intros [H1 H2] [H3 H4]. split; congruence. Qed.

Lemma poll_same_tables (env : Env) :
  preserves same_tables (poll_and_dispatch env).
Proof.
  intros w. destruct (persistence_reachable env) eqn:H.
  - rewrite (poll_reachable env w H). cbn [world].
    destruct (for_each_dispatch env (discovered w) w) as (Hr & Hs & _).
    now split.
  - rewrite (poll_unreachable env w H). apply same_tables_refl.
Qed.

Lemma scheduler_cycle_same_tables (env : Env) :
  preserves same_tables (scheduler_cycle env).
Proof.
  unfold scheduler_cycle.
  apply (preserves_try_except_finally _ same_tables_refl same_tables_trans).
  - apply poll_same_tables.
  - intros e. apply (preserves_emit _ same_tables_refl).
  - unfold logger, sleep. preserve same_tables_refl same_tables_trans.
Qed.

(** X14 -- the supervisor never writes to the persistence layer: after
    any number of poll cycles, whatever was discovered, dispatched or
    raised in them, the Run table and the Status table are what they
    were; a Run's Status is changed by handler threads only. *)
Theorem supervisor_never_writes (env : Env) (n : nat) (w : World) :
  runs (world (_threaded_scheduler env n w)) = runs w /\
  statuses (world (_threaded_scheduler env n w)) = statuses w.
Proof.
  unfold _threaded_scheduler.
  apply (preserves_while _ same_tables_refl same_tables_trans).
  apply scheduler_cycle_same_tables.
Qed.

(** X13 -- an idle cycle is idle: when the query is answered and no Run
    is in [created], the cycle only queries, logs that it sleeps and
    sleeps; the process state is exactly what it was, so no Scheduler
    and no Executor is created before the first Run is discovered. *)
Theorem idle_cycle (env : Env) (w : World) :
  persistence_reachable env = true ->
  discovered w = [] ->
  scheduler_cycle env w =
  mkRes (Ok tt) w
        [QueryRuns RUN_STATUS_CREATED;
         Log Info ("Scheduler sleeping for "
                   ++ str_int (SCHEDULER_SLEEP_TIME env) ++ " seconds");
         Sleep (1000 * SCHEDULER_SLEEP_TIME env)].
Proof.
  intros Hreach Hnone.
  unfold scheduler_cycle, try_except_finally. cbv zeta.
  rewrite (poll_reachable env w Hreach), Hnone. reflexivity.
Qed.

Lemma idle_cycle_witness :
  scheduler_cycle scenario.env (scenario.world_of []) =
  mkRes (Ok tt) (scenario.world_of [])
        [QueryRuns RUN_STATUS_CREATED;
         Log Info ("Scheduler sleeping for "
                   ++ str_int (SCHEDULER_SLEEP_TIME scenario.env)
                   ++ " seconds");
         Sleep (1000 * SCHEDULER_SLEEP_TIME scenario.env)].
Proof.
  apply (idle_cycle scenario.env (scenario.world_of [])); reflexivity.
Defined.

(** The outcome of [execute] depends on the Run table only. *)
Lemma execute_out_runs (env : Env) (s s' : Executor) (rid : string)
    (w w' : World) :
  runs w = runs w' ->
  out (execute env s rid w) = out (execute env s' rid w').
Proof.
  intros Hruns.
  pose proof (execute_cases env s rid w) as H1.
  pose proof (execute_cases env s' rid w') as H2.
  rewrite <- Hruns in H2.
  destruct (find_run rid (runs w)) as [run|] eqn:Hrun.
  2:{ now rewrite H1, H2. }
  destruct (get_object env (MINIO_BUCKET env) (run_script_path run))
    as [e|text] eqn:Hget.
  { now rewrite H1, H2. }
  destruct (parse_parameters env (run_parameters_config run))
    as [e|parameters] eqn:Hparse.
  { now rewrite H1, H2. }
  clear H1 H2.
  rewrite (execute_after_parse env s rid w run text parameters Hrun Hget Hparse).
  rewrite Hruns in Hrun.
  rewrite (execute_after_parse env s' rid w' run text parameters
             Hrun Hget Hparse).
  destruct (find _ parameters); reflexivity.
Qed.

Lemma dispatch_out_runs (env : Env) (x : Run) (w w' : World) :
  runs w = runs w' ->
  out (dispatch env x w) = out (dispatch env x w').
Proof.
  intros Hruns. rewrite !dispatch_eq. cbn [out].
  apply execute_out_runs. exact Hruns.
Qed.

Lemma for_each_out_runs (env : Env) (l : list Run) :
  forall w w', runs w = runs w' ->
    out (for_each l (dispatch env) w) = out (for_each l (dispatch env) w').
Proof.
  induction l as [|x l IH]; intros w w' Hruns; [reflexivity|].
  cbn [for_each].
  pose proof (dispatch_out_runs env x w w' Hruns) as Hout.
  destruct (dispatch_summary env x w) as (Hr & _).
  destruct (dispatch_summary env x w') as (Hr' & _).
  destruct (out (dispatch env x w)) as [[]|e|] eqn:E.
  - rewrite (bind_Ok _ _ _ _ E), (bind_Ok _ _ _ _ (eq_sym Hout)).
    cbn [out]. apply IH. congruence.
  - rewrite (bind_Raise _ _ _ _ E), (bind_Raise _ _ _ _ (eq_sym Hout)).
    reflexivity.
  - rewrite (bind_OutOfFuel _ _ _ E), (bind_OutOfFuel _ _ _ (eq_sym Hout)).
    reflexivity.
Qed.

Lemma discovered_runs (w w' : World) :
  runs w = runs w' -> discovered w = discovered w'.
Proof. intros H. unfold discovered. now rewrite H. Qed.

(** A cycle whose [try] block returns. *)
Lemma scheduler_cycle_Ok (env : Env) (w : World) :
  out (poll_and_dispatch env w) = Ok tt ->
  scheduler_cycle env w =
  mkRes (Ok tt) (world (poll_and_dispatch env w))
        (events (poll_and_dispatch env w)
         ++ [Log Info ("Scheduler sleeping for "
                       ++ str_int (SCHEDULER_SLEEP_TIME env) ++ " seconds");
             Sleep (1000 * SCHEDULER_SLEEP_TIME env)]).
Proof.
  intros H. unfold scheduler_cycle, try_except_finally. cbv zeta.
  rewrite H. reflexivity.
Qed.

(** X15 -- dispatching does not claim a Run.  The supervisor leaves a
    dispatched Run in [created]; it is the handler thread that moves it
    on.  So when the dispatches of a cycle all return and no handler has
    written yet, every later cycle discovers the same Runs and starts one
    more thread for each of them: over [n] cycles, [n] threads per
    discovered Run. *)
Theorem redispatch_each_cycle (env : Env) (n : nat) (w : World) :
  persistence_reachable env = true ->
  out (poll_and_dispatch env w) = Ok tt ->
  started (events (_threaded_scheduler env n w))
  = List.concat (repeat (map run_id (discovered w)) n) /\
  discovered (world (_threaded_scheduler env n w)) = discovered w.
Proof.
  intros Hreach Hok. unfold _threaded_scheduler.
  assert (Hgen : forall n k w', runs w' = runs w ->
            started (events (while n (fun _ => true) (scheduler_cycle env)
                               k w'))
            = List.concat (repeat (map run_id (discovered w)) n) /\
            runs (world (while n (fun _ => true) (scheduler_cycle env) k w'))
            = runs w).
  { clear n. induction n as [|n IH]; intros k w' Hruns.
    - split; [reflexivity | exact Hruns].
    - cbn [while repeat List.concat].
      assert (Hok' : out (poll_and_dispatch env w') = Ok tt).
      { rewrite (poll_reachable env w' Hreach). cbn [out].
        rewrite (discovered_runs w' w Hruns).
        rewrite (for_each_out_runs env (discovered w) w' w Hruns).
        rewrite (poll_reachable env w Hreach) in Hok. exact Hok. }
      pose proof (scheduler_cycle_Ok env w' Hok') as Ec.
      rewrite (bind_eq _ _ Ec). cbn [out world events].
      destruct (poll_same_tables env w') as [Hr' _].
      destruct (IH (S k) (world (poll_and_dispatch env w'))) as (IHs & IHr);
        [congruence|].
      rewrite IHr. split; [|reflexivity].
      rewrite !started_app, IHs. cbn [started]. rewrite app_nil_r.
      f_equal.
      rewrite (poll_reachable env w' Hreach) in Hok' |- *.
      cbn [out events started] in Hok' |- *.
      destruct (for_each_dispatch env (discovered w') w')
        as (_ & _ & _ & _ & [(_ & _ & Hst)
                            | (e & pre & x & post & Hraise & _)]);
        [|congruence].
      rewrite Hst. now rewrite (discovered_runs w' w Hruns). }
  destruct (Hgen n 0 w eq_refl) as (Hs & Hr).
  split; [exact Hs|]. now apply discovered_runs.
Qed.

Lemma redispatch_each_cycle_witness :
  started (events (_threaded_scheduler scenario.env 3
                     (scenario.world_of [scenario.r2])))
  = ["r2"; "r2"; "r2"].
Proof.
  destruct (redispatch_each_cycle scenario.env 3
              (scenario.world_of [scenario.r2]) eq_refl eq_refl) as (H & _).
  exact H.
Defined.

(** One poll over a table whose first discovered Run cannot be fetched. *)
Lemma poll_first_fetch_fails (env : Env) (w : World) (run : Run)
    (rest : list Run) (e : exn) :
  persistence_reachable env = true ->
  discovered w = run :: rest ->
  find_run (run_id run) (runs w) = Some run ->
  get_object env (MINIO_BUCKET env) (run_script_path run) = inl e ->
  out (poll_and_dispatch env w) = Raise e /\
  started (events (poll_and_dispatch env w)) = [] /\
  lookups (events (poll_and_dispatch env w)) = [run_id run] /\
  runs (world (poll_and_dispatch env w)) = runs w /\
  threads (world (poll_and_dispatch env w)) = threads w.
Proof.
  intros Hreach Hdisc Hfind Hget.
  rewrite (poll_reachable env w Hreach), Hdisc. cbn [out world events for_each].
  pose proof (execute_cases env (ensured_executor env (coach w)) (run_id run)
                (set_coach w (ensured env (coach w)))) as Hex.
  cbn [runs set_coach] in Hex. rewrite Hfind, Hget in Hex.
  assert (Ed : dispatch env run w =
               mkRes (Raise e) (set_coach w (ensured env (coach w)))
                 (Log Info ("Sending new run (" ++ str_Run env run
                            ++ ") to the executor")
                  :: init_logs (coach w)
                  ++ [GetRun (run_id run);
                      GetObject (MINIO_BUCKET env) (run_script_path run)])).
  { rewrite dispatch_eq, Hex. reflexivity. }
  rewrite (bind_eq_Raise _ _ Ed). cbn [out world events].
  destruct (init_logs_quiet (coach w)) as (Hl & Hs & _).
  cbn [started lookups]. rewrite started_app, lookups_app, Hl, Hs.
  repeat split.
Qed.

(** X16 -- a Run that cannot be dispatched holds back every Run behind
    it.  When the first Run the query answers cannot be fetched from the
    object store, each cycle looks that Run up, fails, logs and sleeps;
    the Run stays [created], so the next cycle meets it first again:
    after any number of cycles no thread has been started for any Run,
    the Runs discovered after it included. *)
Theorem failing_run_starves_others (env : Env) (n : nat) (w : World)
    (run : Run) (rest : list Run) (e : exn) :
  persistence_reachable env = true ->
  discovered w = run :: rest ->
  find_run (run_id run) (runs w) = Some run ->
  get_object env (MINIO_BUCKET env) (run_script_path run) = inl e ->
  is_Exception e = true ->
  out (_threaded_scheduler env n w) = OutOfFuel /\
  started (events (_threaded_scheduler env n w)) = [] /\
  lookups (events (_threaded_scheduler env n w)) = repeat (run_id run) n /\
  threads (world (_threaded_scheduler env n w)) = threads w /\
  discovered (world (_threaded_scheduler env n w)) = run :: rest.
Proof.
  intros Hreach Hdisc Hfind Hget He. unfold _threaded_scheduler.
  assert (Hgen : forall n k w',
            runs w' = runs w -> threads w' = threads w ->
            out (while n (fun _ => true) (scheduler_cycle env) k w')
            = OutOfFuel /\
            started (events (while n (fun _ => true) (scheduler_cycle env)
                               k w')) = [] /\
            lookups (events (while n (fun _ => true) (scheduler_cycle env)
                               k w')) = repeat (run_id run) n /\
            threads (world (while n (fun _ => true) (scheduler_cycle env)
                              k w')) = threads w /\
            runs (world (while n (fun _ => true) (scheduler_cycle env) k w'))
            = runs w).
  { clear n. induction n as [|n IH]; intros k w' Hruns Hthreads.
    - repeat split; assumption.
    - cbn [while repeat].
      assert (Hdisc' : discovered w' = run :: rest)
        by (rewrite (discovered_runs w' w Hruns); exact Hdisc).
      assert (Hfind' : find_run (run_id run) (runs w') = Some run)
        by (rewrite Hruns; exact Hfind).
      destruct (poll_first_fetch_fails env w' run rest e Hreach Hdisc' Hfind'
                  Hget) as (Hout & Hst & Hlk & Hr & Ht).
      assert (Ec : scheduler_cycle env w' =
                mkRes (Ok tt) (world (poll_and_dispatch env w'))
                  (events (poll_and_dispatch env w')
                   ++ [Log Error ("Error in scheduler: " ++ str_exn e);
                       Log Info ("Scheduler sleeping for "
                                 ++ str_int (SCHEDULER_SLEEP_TIME env)
                                 ++ " seconds");
                       Sleep (1000 * SCHEDULER_SLEEP_TIME env)])).
      { unfold scheduler_cycle, try_except_finally. cbv zeta.
        rewrite Hout, He. reflexivity. }
      rewrite (bind_eq _ _ Ec). cbn [out world events].
      destruct (IH (S k) (world (poll_and_dispatch env w')))
        as (IHo & IHs & IHl & IHt & IHr); [congruence | congruence |].
      rewrite !started_app, !lookups_app, Hst, Hlk, IHo, IHs, IHl, IHt, IHr.
      repeat split. }
  destruct (Hgen n 0 w eq_refl eq_refl) as (Ho & Hs & Hl & Ht & Hr).
  repeat split; auto.
  rewrite (discovered_runs _ w Hr). exact Hdisc.
Qed.

Lemma failing_run_starves_others_witness :
  started (events (_threaded_scheduler scenario.env 4
                     (scenario.world_of [scenario.r1; scenario.r2]))) = [] /\
  lookups (events (_threaded_scheduler scenario.env 4
                     (scenario.world_of [scenario.r1; scenario.r2])))
  = ["r1"; "r1"; "r1"; "r1"].
Proof.
  destruct (failing_run_starves_others scenario.env 4
              (scenario.world_of [scenario.r1; scenario.r2]) scenario.r1
              [scenario.r2] scenario.no_such_key)
    as (_ & Hs & Hl & _).
  - reflexivity.
  - reflexivity.
  - reflexivity.
  - reflexivity.
  - reflexivity.
  - split; [exact Hs | exact Hl].
Defined.

(** X17 -- only errors are caught.  An exception that is not an
    [Exception] (an interrupt, an exit) raised while a Run is dispatched
    is not logged as an error; the cycle still logs that it sleeps and
    sleeps the interval, and then the exception ends the loop: whatever
    the number of turns allowed, [_threaded_scheduler] is left in its
    first turn.  (The [logger.catch] decorator of the method catches
    [Exception] only, as the [except] clause does.) *)
Theorem interrupt_ends_loop (env : Env) (n : nat) (w : World)
    (run : Run) (rest : list Run) (e : exn) :
  persistence_reachable env = true ->
  discovered w = run :: rest ->
  find_run (run_id run) (runs w) = Some run ->
  get_object env (MINIO_BUCKET env) (run_script_path run) = inl e ->
  is_Exception e = false ->
  _threaded_scheduler env (S n) w =
  mkRes (Raise e) (world (poll_and_dispatch env w))
        (events (poll_and_dispatch env w)
         ++ [Log Info ("Scheduler sleeping for "
                       ++ str_int (SCHEDULER_SLEEP_TIME env) ++ " seconds");
             Sleep (1000 * SCHEDULER_SLEEP_TIME env)]) /\
  started (events (_threaded_scheduler env (S n) w)) = [].
Proof.
  intros Hreach Hdisc Hfind Hget He.
  destruct (poll_first_fetch_fails env w run rest e Hreach Hdisc Hfind Hget)
    as (Hout & Hst & _).
  assert (Ec : scheduler_cycle env w =
            mkRes (Raise e) (world (poll_and_dispatch env w))
              (events (poll_and_dispatch env w)
               ++ [Log Info ("Scheduler sleeping for "
                             ++ str_int (SCHEDULER_SLEEP_TIME env)
                             ++ " seconds");
                   Sleep (1000 * SCHEDULER_SLEEP_TIME env)])).
  { unfold scheduler_cycle, try_except_finally. cbv zeta.
    rewrite Hout, He. reflexivity. }
  unfold _threaded_scheduler. cbn [while].
  rewrite (bind_eq_Raise _ _ Ec). split; [reflexivity|].
  cbn [events]. now rewrite started_app, Hst.
Qed.

Lemma interrupt_ends_loop_witness :
  out (_threaded_scheduler scenario.env_interrupted 6
         (scenario.world_of [scenario.r2]))
  = Raise scenario.interrupt.
Proof.
  destruct (interrupt_ends_loop scenario.env_interrupted 5
              (scenario.world_of [scenario.r2]) scenario.r2 []
              scenario.interrupt) as (H & _).
  - reflexivity.
  - reflexivity.
  - reflexivity.
  - reflexivity.
  - reflexivity.
  - rewrite H. reflexivity.
Defined.

(* ================================================================== *)
(** * The commands *)
(* ================================================================== *)

Lemma check_config_missing (env : Env) (w : World) :
  path_exists env (COACH_DEFAULT_CONFIG_PATH env) = false ->
  cli.check_config env w =
  mkRes (Ok false) w
    [Echo "No config file found. Please run `coach init` to create one."].
Proof. intros H. unfold cli.check_config. rewrite H. reflexivity. Qed.

Lemma check_config_loaded (env : Env) (w : World) :
  path_exists env (COACH_DEFAULT_CONFIG_PATH env) = true ->
  load_config_file_to_envs env = inr tt ->
  cli.check_config env w = mkRes (Ok true) w [].
Proof.
  intros H Hl. unfold cli.check_config. rewrite H. cbn [negb].
  unfold bind. cbv zeta. rewrite Hl. reflexivity.
Qed.

Lemma check_config_raises (env : Env) (w : World) (e : exn) :
  path_exists env (COACH_DEFAULT_CONFIG_PATH env) = true ->
  load_config_file_to_envs env = inl e ->
  cli.check_config env w = mkRes (Raise e) w [].
Proof.
  intros H Hl. unfold cli.check_config. rewrite H. cbn [negb].
  unfold bind. cbv zeta. rewrite Hl. reflexivity.
Qed.

(** X18 -- every command is guarded by the configuration file: without
    it [submit], [daemon], [list] and [show] print the hint to run the
    [init] command, return normally and do nothing else. *)
Theorem commands_need_config (env : Env) (w : World)
    (python_script job_config model_config run_id : string) :
  path_exists env (COACH_DEFAULT_CONFIG_PATH env) = false ->
  cli.submit env python_script job_config model_config w =
  mkRes (Ok tt) w
    [Echo "No config file found. Please run `coach init` to create one."] /\
  cli.daemon env w =
  mkRes (Ok tt) w
    [Echo "No config file found. Please run `coach init` to create one."] /\
  cli.list env w =
  mkRes (Ok tt) w
    [Echo "No config file found. Please run `coach init` to create one."] /\
  cli.show env run_id w =
  mkRes (Ok tt) w
    [Echo "No config file found. Please run `coach init` to create one."].
Proof.
  intros H. pose proof (check_config_missing env w H) as E.
  unfold cli.submit, cli.submit_in, cli.daemon, cli.list, cli.list_with,
    cli.show, cli.show_with.
  rewrite !(bind_eq _ _ E). repeat split.
Qed.

Lemma commands_need_config_witness :
  cli.daemon scenario.env_no_config (scenario.world_of [scenario.r2]) =
  mkRes (Ok tt) (scenario.world_of [scenario.r2])
    [Echo "No config file found. Please run `coach init` to create one."].
Proof.
  destruct (commands_need_config scenario.env_no_config
              (scenario.world_of [scenario.r2]) "train.py" "job.json"
              "model.json" "r2" eq_refl) as (_ & H & _).
  exact H.
Defined.

(** X19 -- [submit] never submits.  For every input, it leaves the
    process state as it was (no Run, no Status, no thread, no Coach), it
    prints at most one line, and that line is one of the four refusals
    (missing configuration file, script, job config, model config): the
    line announcing a run id is never printed. *)
Theorem submit_never_submits (env : Env)
    (python_script job_config model_config : string) (w : World) :
  world (cli.submit env python_script job_config model_config w) = w /\
  (events (cli.submit env python_script job_config model_config w) = [] \/
   exists msg,
     In msg submit_refusals /\
     events (cli.submit env python_script job_config model_config w)
     = [Echo msg]).
Proof.
  unfold cli.submit, cli.submit_in.
  destruct (path_exists env (COACH_DEFAULT_CONFIG_PATH env)) eqn:Hcfg.
  2:{ rewrite (bind_eq _ _ (check_config_missing env w Hcfg)).
      cbn. split; [reflexivity|]. right. eexists. split; [|reflexivity].
      unfold submit_refusals. simpl. tauto. }
  destruct (load_config_file_to_envs env) as [e|[]] eqn:Hload.
  { rewrite (bind_eq_Raise _ _ (check_config_raises env w e Hcfg Hload)).
    cbn. split; [reflexivity | now left]. }
  rewrite (bind_eq _ _ (check_config_loaded env w Hcfg Hload)).
  cbn [negb out world events app].
  destruct (path_exists env python_script).
  2:{ cbn. split; [reflexivity|]. right. eexists. split; [|reflexivity].
      unfold submit_refusals. simpl. tauto. }
  destruct (path_exists env job_config).
  2:{ cbn. split; [reflexivity|]. right. eexists. split; [|reflexivity].
      unfold submit_refusals. simpl. tauto. }
  destruct (path_exists env model_config).
  2:{ cbn. split; [reflexivity|]. right. eexists. split; [|reflexivity].
      unfold submit_refusals. simpl. tauto. }
  cbn. split; [reflexivity | now left].
Qed.

(** X20 -- [submit] checks the three paths in the order script, job
    config, model config and reports the first that is missing, whatever
    the later ones are. *)
Theorem submit_reports_first_missing (env : Env)
    (python_script job_config model_config : string) (w : World) :
  path_exists env (COACH_DEFAULT_CONFIG_PATH env) = true ->
  load_config_file_to_envs env = inr tt ->
  (path_exists env python_script = false ->
   cli.submit env python_script job_config model_config w =
   mkRes (Ok tt) w [Echo "Python script does not exist."]) /\
  (path_exists env python_script = true ->
   path_exists env job_config = false ->
   cli.submit env python_script job_config model_config w =
   mkRes (Ok tt) w [Echo "Job config does not exist."]) /\
  (path_exists env python_script = true ->
   path_exists env job_config = true ->
   path_exists env model_config = false ->
   cli.submit env python_script job_config model_config w =
   mkRes (Ok tt) w [Echo "Model config does not exist."]).
Proof.
  intros Hcfg Hload.
  unfold cli.submit, cli.submit_in.
  rewrite (bind_eq _ _ (check_config_loaded env w Hcfg Hload)).
  cbn [negb out world events app].
  repeat split.
  - intros ->. reflexivity.
  - intros -> ->. reflexivity.
  - intros -> -> ->. reflexivity.
Qed.

Lemma submit_reports_first_missing_witness :
  cli.submit scenario.env_no_job_config "train.py" "job.json" "model.json"
             (scenario.world_of []) =
  mkRes (Ok tt) (scenario.world_of []) [Echo "Job config does not exist."].
Proof.
  destruct (submit_reports_first_missing scenario.env_no_job_config
              "train.py" "job.json" "model.json" (scenario.world_of [])
              eq_refl eq_refl) as (_ & H & _).
  apply H; reflexivity.
Defined.

(** X21 -- [daemon] with the configuration in place builds a Coach of
    its own and starts it: it returns normally, the tables and the
    handler threads untouched, with a Scheduler at the configured
    address, an Executor on that Scheduler in remote mode, and the
    polling thread started, whatever Coach there was before.  When the
    configuration cannot be loaded, the exception leaves [daemon] before
    any Coach exists. *)
Theorem daemon_starts (env : Env) (w : World) :
  path_exists env (COACH_DEFAULT_CONFIG_PATH env) = true ->
  (load_config_file_to_envs env = inr tt ->
   out (cli.daemon env w) = Ok tt /\
   runs (world (cli.daemon env w)) = runs w /\
   statuses (world (cli.daemon env w)) = statuses w /\
   threads (world (cli.daemon env w)) = threads w /\
   coach (world (cli.daemon env w)) =
   {| coach_scheduler := Some {| address := scheduler_address env |};
      coach_executor :=
        Some {| _scheduler := {| address := scheduler_address env |};
                _executor := {| dask_address := scheduler_address env |};
                _local := false |};
      coach_scheduler_thread := true |}) /\
  (forall e, load_config_file_to_envs env = inl e ->
             cli.daemon env w = mkRes (Raise e) w []).
Proof.
  intros Hcfg. split.
  - intros Hload. unfold cli.daemon.
    rewrite (bind_eq _ _ (check_config_loaded env w Hcfg Hload)).
    cbn [negb out world events app].
    destruct w as [sts rs ths c]. repeat split.
  - intros e Hload. unfold cli.daemon.
    now rewrite (bind_eq_Raise _ _ (check_config_raises env w e Hcfg Hload)).
Qed.

Lemma daemon_starts_witness :
  coach_scheduler_thread
    (coach (world (cli.daemon scenario.env (scenario.world_of [scenario.r2]))))
  = true.
Proof.
  destruct (daemon_starts scenario.env (scenario.world_of [scenario.r2])
              eq_refl) as (H & _).
  destruct (H eq_refl) as (_ & _ & _ & _ & Hc).
  rewrite Hc. reflexivity.
Defined.

Lemma for_each_emit {A} (f : A -> Event) (l : list A) (w : World) :
  for_each l (fun a => emit (f a)) w = mkRes (Ok tt) w (map f l).
Proof.
  induction l as [|x l IH]; [reflexivity|].
  cbn [for_each map]. rewrite (bind_eq _ _ (emit_eq (f x) w)).
  cbv beta. rewrite IH. reflexivity.
Qed.

Lemma nth_error_combine_seq {A} (l : list A) :
  forall (start i : nat) (x : A),
    nth_error l i = Some x ->
    nth_error (combine (seq start (length l)) l) i = Some (start + i, x).
Proof.
  induction l as [|a l IH]; intros start i x H.
  - destruct i; discriminate.
  - destruct i as [|i]; cbn [length seq combine nth_error] in *.
    + injection H as <-. now rewrite Nat.add_0_r.
    + rewrite (IH (S start) i x H). f_equal. f_equal. lia.
Qed.

(** X22 -- [list] prints, after whatever [list_all_runs] did, a header
    with the number of Runs it answered and then one line per Run, in the
    order of the answer, numbered from 1: line [i] is for the Run at
    index [i] and carries the number [i + 1].  It ends in the state
    [list_all_runs] left and does nothing but print. *)
Theorem list_lines (env : Env) (db_list : M (list Run)) (w w1 : World)
    (found : list Run) (ev : list Event) :
  path_exists env (COACH_DEFAULT_CONFIG_PATH env) = true ->
  load_config_file_to_envs env = inr tt ->
  db_list w = mkRes (Ok found) w1 ev ->
  exists lines,
    cli.list_with db_list env w =
    mkRes (Ok tt) w1
      (ev ++ Echo ("Found " ++ str_int (Z.of_nat (length found)) ++ " runs.")
          :: map Echo lines)%list /\
    length lines = length found /\
    forall i run,
      nth_error found i = Some run ->
      nth_error lines i
      = Some (str_int (Z.of_nat (i + 1)) ++ ". " ++ str_Run env run).
Proof.
  intros Hcfg Hload Hdb.
  exists (map (fun p => str_int (Z.of_nat (fst p + 1)) ++ ". "
                        ++ str_Run env (snd p))
              (cli.enumerate found)).
  split; [|split].
  - unfold cli.list_with.
    rewrite (bind_eq _ _ (check_config_loaded env w Hcfg Hload)).
    cbn [negb out world events app].
    rewrite (bind_eq _ _ Hdb). cbv beta.
    rewrite (bind_eq _ _ (emit_eq _ w1)). cbv beta.
    rewrite for_each_emit. cbn [out world events app].
    rewrite map_map. reflexivity.
  - unfold cli.enumerate.
    rewrite length_map, length_combine, length_seq. lia.
  - intros i run Hi. rewrite nth_error_map. unfold cli.enumerate.
    rewrite (nth_error_combine_seq found 0 i run Hi). reflexivity.
Qed.

Lemma list_lines_witness :
  exists lines,
    events (cli.list scenario.env
              (scenario.world_of [scenario.r1; scenario.r2]))
    = Echo "Found 2 runs." :: map Echo lines /\
    nth_error lines 1
    = Some (str_int (Z.of_nat (1 + 1)) ++ ". "
            ++ str_Run scenario.env scenario.r2).
Proof.
  destruct (list_lines scenario.env cli.list_all_runs
              (scenario.world_of [scenario.r1; scenario.r2])
              (scenario.world_of [scenario.r1; scenario.r2])
              [scenario.r1; scenario.r2] [] eq_refl eq_refl eq_refl)
    as (lines & E & _ & H).
  exists lines. split.
  - unfold cli.list. rewrite E. reflexivity.
  - apply (H 1 scenario.r2). reflexivity.
Defined.

Lemma append_cancel (a b c : string) : a ++ b = a ++ c -> b = c.
Proof.
  induction a as [|x a IH]; simpl; intros H; [exact H|].
  injection H as H. auto.
Qed.

(** X23 -- [show] asks [get_run] once for the id and then only prints:
    it returns normally in the state [get_run] left, and among the lines
    it prints the one saying the Run was not found is there exactly when
    [get_run] answered [None]; when a Run was answered, its text is
    printed. *)
Theorem show_lookup (env : Env) (db_get : string -> M (option Run))
    (rid : string) (w w1 : World) (answer : option Run) (ev : list Event) :
  path_exists env (COACH_DEFAULT_CONFIG_PATH env) = true ->
  load_config_file_to_envs env = inr tt ->
  db_get rid w = mkRes (Ok answer) w1 ev ->
  exists prints,
    cli.show_with db_get env rid w =
    mkRes (Ok tt) w1 (ev ++ map Echo prints)%list /\
    (In ("Run " ++ rid ++ " not found.") prints <-> answer = None) /\
    forall run, answer = Some run ->
      In ("Information: " ++ str_Run env run) prints.
Proof.
  intros Hcfg Hload Hdb. unfold cli.show_with.
  rewrite (bind_eq _ _ (check_config_loaded env w Hcfg Hload)).
  cbn [negb out world events app].
  rewrite (bind_eq _ _ Hdb). cbv beta.
  destruct answer as [run|].
  - exists ["Run " ++ rid ++ " is available!";
            "Information: " ++ str_Run env run;
            "If you desire to load this model, open a Python shell and do the following:";
            ">>> from coach.utils import load_config_file_to_envs";
            ">>> from coach.db import load_run";
            ">>> load_config_file_to_envs()";
            ">>> model = load_run(run_id)"].
    split; [reflexivity|]. split.
    + split; [|discriminate].
      intros [H | [H | [H | [H | [H | [H | [H | []]]]]]]];
        try discriminate H.
      apply (append_cancel "Run ") in H. apply append_cancel in H.
      discriminate H.
    + intros run' H. injection H as <-. right. now left.
  - exists ["Run " ++ rid ++ " not found.";
            "It may be still on training though, please wait a while"].
    split; [reflexivity|]. split.
    + split; [reflexivity | intros _; now left].
    + discriminate.
Qed.

Lemma show_lookup_witness :
  exists prints,
    events (cli.show scenario.env "r9" (scenario.world_of [scenario.r2]))
    = GetRun "r9" :: map Echo prints /\
    In ("Run " ++ "r9" ++ " not found.") prints.
Proof.
  destruct (show_lookup scenario.env cli.get_run "r9"
              (scenario.world_of [scenario.r2])
              (scenario.world_of [scenario.r2]) None [GetRun "r9"]
              eq_refl eq_refl eq_refl) as (prints & E & H & _).
  exists prints. split.
  - unfold cli.show. rewrite E. reflexivity.
  - apply H. reflexivity.
Defined.
